(** * Market Data Archivist: a shallow embedding of [market_archivist.py]

    The development follows the Python module top to bottom: the clock and
    calendar helpers, the session resolver [resolve_trade_day], the three SQLite
    tables and the statements run against them, the ingestion loop
    [ingest_csv], the annotation ledger and the two query functions.

    Conventions.
    - A Unix timestamp is an integer ([Z]).
    - A Python [str] is carried as its UTF-8 encoding, a [string] of bytes:
      equality, concatenation and the test ['T' in s] read the same on it,
      and the order of the bytes is the order SQLite's BINARY collation
      compares texts in.
    - A Python [float] is a binary64 value ([PrimFloat.float]); a REAL column
      holds [option float], [None] being SQL NULL (SQLite stores a NaN as NULL).
    - A Python exception is a value of [exn]; a call that may raise returns a
      [result].
    - A [datetime] holds the years 1 to 9999 and no other: what leaves that
      range raises, as it does in Python.
    - A table is the list of its rows in rowid order, which is insertion order
      because the module never supplies an id and never deletes a row.
    - What the module takes from the Python runtime (the time zone database,
      [float()], [datetime.fromisoformat], [datetime.strptime], and the two
      places where the C library shows through [datetime]) is a parameter of
      the development, gathered in the class [runtime]; the reading of the
      clock is an argument of the function that reads it. *)

From Stdlib Require Import ZArith Floats Lia Ascii Sorted.
From stdpp Require Import base option list strings gmap pretty.

Open Scope Z_scope.

(** ** Exceptions and results *)

Inductive exn : Type :=
| ValueError (msg : string)
| KeyError (key : string)
| TypeError
| AttributeError
| OverflowError (msg : string)
| OSError (msg : string).

Inductive result (A : Type) : Type :=
| Ok (a : A)
| Raise (e : exn).

Arguments Ok {A} a.
Arguments Raise {A} e.

Definition rbind {A B : Type} (r : result A) (k : A -> result B) : result B :=
  match r with
  | Ok a => k a
  | Raise e => Raise e
  end.

Declare Scope result_scope.
Delimit Scope result_scope with result.
Notation "'let?' x ':=' r 'in' k" :=
  (rbind r (fun x => k))
  (at level 10, x pattern, r at level 100, k at level 200) : result_scope.
Open Scope result_scope.

(** ** Calendar arithmetic

    A calendar date is carried as the number of days since 1970-01-01, the
    way [datetime.date] carries an ordinal; [date + timedelta(days=n)] adds
    to that number and raises when the sum is no date.  [civil_of_days] gives
    the proleptic Gregorian year, month and day that [strftime] and [str]
    print, [days_of_civil] goes back. *)

Module Calendar.

Definition civil_of_days (days : Z) : Z * Z * Z :=
  let z := days + 719468 in
  let era := z / 146097 in
  let doe := z - era * 146097 in
  let yoe := (doe - doe / 1460 + doe / 36524 - doe / 146096) / 365 in
  let doy := doe - (365 * yoe + yoe / 4 - yoe / 100) in
  let mp := (5 * doy + 2) / 153 in
  let d := doy - (153 * mp + 2) / 5 + 1 in
  let m := if mp <? 10 then mp + 3 else mp - 9 in
  let y := yoe + era * 400 + (if m <=? 2 then 1 else 0) in
  (y, m, d).

Definition days_of_civil (y m d : Z) : Z :=
  let y' := if m <=? 2 then y - 1 else y in
  let era := y' / 400 in
  let yoe := y' - era * 400 in
  let mp := if 2 <? m then m - 3 else m + 9 in
  let doy := (153 * mp + 2) / 5 + d - 1 in
  let doe := yoe * 365 + yoe / 4 - yoe / 100 + doy in
  era * 146097 + doe - 719468.

(** [date.min] is 0001-01-01 and [date.max] is 9999-12-31. *)
Definition date_min : Z := -719162.
Definition date_max : Z := 2932896.

(** [date.weekday()]: Monday is 0, Sunday is 6; 1970-01-01 was a Thursday. *)
Definition weekday (days : Z) : Z := (days + 3) mod 7.

Definition zfill (width : nat) (s : string) : string :=
  String.concat "" (replicate (width - String.length s)%nat "0") +:+ s.

(** [date.isoformat()], which is also the date of [str(datetime)]: the year
    is padded to four digits. *)
Definition isoformat (days : Z) : string :=
  let '(y, m, d) := civil_of_days days in
  zfill 4 (pretty y) +:+ "-" +:+ zfill 2 (pretty m) +:+ "-" +:+ zfill 2 (pretty d).

(** [date + datetime.timedelta(days=n)] *)
Definition add_days (days n : Z) : result Z :=
  if (date_min <=? days + n) && (days + n <=? date_max) then Ok (days + n)
  else Raise (OverflowError "date value out of range").

End Calendar.

(** ** The Python runtime the module calls into *)

(** [ZoneInfo("America/Los_Angeles")] is a table of the runtime.  The module
    uses it in two directions: from an instant to the wall clock
    ([fromtimestamp], [astimezone]) and from a naive wall clock to an instant
    ([replace(tzinfo=...)] followed by [timestamp()]). *)
Record zone : Type := mkzone {
  utcoffset : Z -> Z;      (* seconds east of UTC in force at a UTC instant *)
  wall_to_epoch : Z -> Z   (* naive wall-clock seconds -> Unix timestamp *)
}.

(** What [fromisoformat] and [strptime] return: a wall clock reading in
    seconds since 1970-01-01T00:00:00 on that clock, microseconds, and the
    UTC offset, in microseconds, when the text carried one ([tzinfo is None]
    otherwise). *)
Record parsed_datetime : Type := mkparsed {
  pd_wall : Z;
  pd_micro : Z;
  pd_tzoffset : option Z
}.

Class runtime : Type := mkruntime {
  PT_TIMEZONE : zone;
  py_float : string -> result float;               (* float(s) *)
  fromisoformat : string -> result parsed_datetime; (* datetime.fromisoformat(s) *)
  strptime_Ymd_HMS : string -> result parsed_datetime;
                                    (* datetime.strptime(s, "%Y-%m-%d %H:%M:%S") *)
  fromtimestamp_error : Z -> exn;
    (* what datetime.fromtimestamp raises for an instant outside the years
       1 to 9999: a ValueError, an OverflowError or an OSError, by the
       platform and the size of the number *)
  strftime_small_year : Z -> string
    (* strftime("%Y") of a year below 1000: padded to four digits or not, by
       the C library and the version of Python *)
}.

(** An aware datetime in the zone, as [fromtimestamp] builds it. *)
Record datetime : Type := mkdatetime {
  dt_date : Z;        (* days since 1970-01-01 of the local calendar date *)
  dt_hour : Z;
  dt_minute : Z;
  dt_second : Z;
  dt_offset : Z       (* utcoffset() in seconds *)
}.

(** [datetime.min] and [datetime.max], to the second, as seconds since
    1970-01-01T00:00:00 on the clock they are read on. *)
Definition datetime_min : Z := Calendar.date_min * 86400.
Definition datetime_max : Z := Calendar.date_max * 86400 + 86399.

Definition datetime_holds (seconds : Z) : bool :=
  (datetime_min <=? seconds) && (seconds <=? datetime_max).

(** [str(dt)] of an aware datetime without microseconds:
    [YYYY-MM-DD HH:MM:SS+HH:MM], with [:SS] appended to the offset when it has
    seconds. *)
Definition str_offset (off : Z) : string :=
  let a := Z.abs off in
  let hh := a / 3600 in
  let mm := (a mod 3600) / 60 in
  let ss := a mod 60 in
  (if off <? 0 then "-" else "+")
  +:+ Calendar.zfill 2 (pretty hh) +:+ ":" +:+ Calendar.zfill 2 (pretty mm)
  +:+ (if ss =? 0 then "" else ":" +:+ Calendar.zfill 2 (pretty ss)).

Definition str_datetime (dt : datetime) : string :=
  Calendar.isoformat (dt_date dt) +:+ " "
  +:+ Calendar.zfill 2 (pretty (dt_hour dt)) +:+ ":"
  +:+ Calendar.zfill 2 (pretty (dt_minute dt)) +:+ ":"
  +:+ Calendar.zfill 2 (pretty (dt_second dt))
  +:+ str_offset (dt_offset dt).

(** [int(dt.timestamp())] of an aware datetime at UTC second [secs] with
    [micro] microseconds.  [timestamp()] is the count of microseconds
    divided by 10^6 in one correctly rounded binary64 division, and [int]
    truncates toward zero.  A whole number of seconds is held exactly.  A
    count [s + m/10^6] between two whole numbers comes out as [s + 1] when
    the division rounds up to it, that is when [1 - m/10^6] is less than half
    the spacing [2^(e-52)] of the floats below [s + 1], where
    [2^e < s + 1 <= 2^(e+1)]; it comes out as [s] otherwise.  (Within the
    range of [datetime] the count is below 2^38 seconds and never half way
    between two floats.) *)
Definition int_timestamp (secs micro : Z) : Z :=
  let us := secs * 1000000 + micro in
  let s := Z.abs us / 1000000 in
  let m := Z.abs us mod 1000000 in
  let rounds_up :=
    (0 <? m) && ((1000000 - m) * 2 ^ (54 - Z.log2_up (s + 1)) <? 1000000) in
  Z.sgn us * (if rounds_up then s + 1 else s).

(** ** Session resolver *)

Section Resolver.

Context `{RT : runtime}.

(** The clock of the zone at the UTC instant [utc], [off] seconds east. *)
Definition reading (utc off : Z) : datetime :=
  let local := utc + off in
  let sod := local mod 86400 in
  {| dt_date := local / 86400;
     dt_hour := sod / 3600;
     dt_minute := (sod mod 3600) / 60;
     dt_second := sod mod 60;
     dt_offset := off |}.

(** [PT_TIMEZONE.fromutc(utc)]: the offset in force is added to the UTC
    reading, and the sum has to be a datetime. *)
Definition fromutc (utc : Z) : result datetime :=
  let off := utcoffset PT_TIMEZONE utc in
  if datetime_holds (utc + off) then Ok (reading utc off)
  else Raise (OverflowError "date value out of range").

(** [datetime.datetime.fromtimestamp(timestamp, tz=PT_TIMEZONE)]: the UTC
    reading of the instant is built first, then handed to [fromutc].  (On a
    platform whose C library covers the years 1 to 9999, as on Linux and
    macOS; the C library of Windows refuses the instants before 1970 as
    well.) *)
Definition get_pt_datetime (timestamp : Z) : result datetime :=
  if datetime_holds timestamp then fromutc timestamp
  else Raise (fromtimestamp_error timestamp).

Definition is_saturday (timestamp : Z) : result bool :=
  let? dt := get_pt_datetime timestamp in
  Ok (Calendar.weekday (dt_date dt) =? 5).

Definition is_halt_period (timestamp : Z) : result bool :=
  let? dt := get_pt_datetime timestamp in
  Ok (dt_hour dt =? 14).

Definition saturday_message (timestamp : Z) (dt : datetime) : string :=
  "Saturday trading data is invalid per session calendar. "
  +:+ "Timestamp: " +:+ pretty timestamp
  +:+ " (" +:+ str_datetime dt +:+ ")".

(** [date.strftime("%Y-%m-%d")]: a year from 1000 on has its four digits on
    every platform. *)
Definition strftime_Ymd (days : Z) : string :=
  let '(y, m, d) := Calendar.civil_of_days days in
  (if 1000 <=? y then pretty y else strftime_small_year y)
  +:+ "-" +:+ Calendar.zfill 2 (pretty m) +:+ "-" +:+ Calendar.zfill 2 (pretty d).

(** The trade day is the text [YYYY-MM-DD]; [None] is the halt marker. *)
Definition resolve_trade_day (timestamp : Z) : result (option string) :=
  let? saturday := is_saturday timestamp in
  if (saturday : bool) then
    let? dt := get_pt_datetime timestamp in
    Raise (ValueError (saturday_message timestamp dt))
  else
    let? halt := is_halt_period timestamp in
    if (halt : bool) then
      Ok None
    else
      let? dt := get_pt_datetime timestamp in
      if 15 <=? dt_hour dt then
        let? next_day := Calendar.add_days (dt_date dt) 1 in
        Ok (Some (strftime_Ymd next_day))
      else
        Ok (Some (strftime_Ymd (dt_date dt))).

(** ** Timestamp parsing *)

(** [c in s] for a one-character [c] *)
Fixpoint contains_char (c : Ascii.ascii) (s : string) : bool :=
  match s with
  | EmptyString => false
  | String a rest => Ascii.eqb a c || contains_char c rest
  end.

(** [int(dt.replace(tzinfo=PT_TIMEZONE).timestamp())] of a naive datetime:
    the zone says which instant the wall clock reading is. *)
Definition localized_timestamp (pd : parsed_datetime) : Z :=
  int_timestamp (wall_to_epoch PT_TIMEZONE (pd_wall pd)) (pd_micro pd).

(** [int(dt.astimezone(PT_TIMEZONE).timestamp())] of an aware datetime [off]
    microseconds east of UTC: [astimezone] takes the offset off, which has
    to leave a datetime, and hands the UTC reading to [fromutc]; the instant
    stays the same. *)
Definition astimezone_timestamp (pd : parsed_datetime) (off : Z) : result Z :=
  let us := pd_wall pd * 1000000 + pd_micro pd - off in
  let utc := us / 1000000 in
  if datetime_holds utc then
    let? _ := fromutc utc in
    Ok (int_timestamp utc (us mod 1000000))
  else Raise (OverflowError "date value out of range").

(** The instant of a parsed datetime once it is placed in the zone. *)
Definition pt_timestamp (pd : parsed_datetime) : result Z :=
  match pd_tzoffset pd with
  | None => Ok (localized_timestamp pd)
  | Some off => astimezone_timestamp pd off
  end.

Definition parse_tradingview_timestamp (time_str : string) : result Z :=
  if contains_char "T"%char time_str then
    let? dt := fromisoformat time_str in
    pt_timestamp dt
  else
    let? dt := strptime_Ymd_HMS time_str in
    Ok (localized_timestamp dt).

End Resolver.

(** ** The database

    The three tables of [init_database].  Every column the module writes is
    kept; [raw_json] and [tags] hold the value that [json.dumps] serialises
    and [json.loads] gives back. *)

Record trade_day_row : Type := mk_trade_day {
  td_id : Z;
  td_symbol : string;
  td_session_date : string;
  td_source : string
}.

Abbreviation csv_row := (gmap string (option string)).

Record raw_payload : Type := mk_raw {
  raw_timestamp : Z;
  raw_open : float;
  raw_high : float;
  raw_low : float;
  raw_close : float;
  raw_volume : float;
  raw_source_row : csv_row
}.

Record bar_row : Type := mk_bar {
  bar_id : Z;
  bar_trade_day_id : option Z;     (* NULL for a halt-period bar *)
  bar_timestamp : Z;
  bar_open : option float;
  bar_high : option float;
  bar_low : option float;
  bar_close : option float;
  bar_volume : option float;
  bar_halt_period : Z;
  bar_raw_json : raw_payload
}.

Record annotation_row : Type := mk_annotation {
  da_id : Z;
  da_trade_day_id : Z;
  da_annotation_type : string;
  da_content : string;
  da_tags : list string;
  da_source : string;
  da_created_at : Z;
  da_supersedes_id : option Z;
  da_status : string
}.

Record database : Type := mk_database {
  trade_days : list trade_day_row;
  bars : list bar_row;
  day_annotations : list annotation_row
}.

Definition empty_database : database :=
  {| trade_days := []; bars := []; day_annotations := [] |}.

(** [cursor.lastrowid] after an INSERT that leaves the INTEGER PRIMARY KEY to
    SQLite: one more than the largest rowid in the table, 1 in an empty
    table.  This is SQLite's choice for the tables the module writes, whose
    rowids start at 1 and grow by one: it is what SQLite does while the
    largest rowid is at least 0 and below 2^63 - 1.  (Below a table of
    negative rowids only, which the module never writes, SQLite would go on
    from the largest one, and past 2^63 - 1 it looks for an unused rowid at
    random.) *)
Definition next_rowid (ids : list Z) : Z := 1 + foldr Z.max 0 ids.

(** A connection: the committed database and the view of the open
    transaction.  Statements act on the view, [commit] publishes it, and a
    connection that goes away without a commit leaves the committed database
    as it was. *)
Record connection : Type := mk_connection {
  persisted : database;
  working : database
}.

Definition connect (db : database) : connection :=
  {| persisted := db; working := db |}.

Definition commit (conn : connection) : connection :=
  {| persisted := working conn; working := working conn |}.

Definition close (conn : connection) : database := persisted conn.

Definition with_working (conn : connection) (view : database) : connection :=
  {| persisted := persisted conn; working := view |}.

(** Code that runs statements on a cursor and may raise: the view is threaded
    through, and it is still there when an exception leaves the code. *)
Definition txn (A : Type) : Type := database -> result A * database.

Definition tret {A : Type} (a : A) : txn A := fun db => (Ok a, db).

Definition traise {A : Type} (e : exn) : txn A := fun db => (Raise e, db).

Definition tbind {A B : Type} (m : txn A) (k : A -> txn B) : txn B :=
  fun db =>
    match m db with
    | (Ok a, db') => k a db'
    | (Raise e, db') => (Raise e, db')
    end.

Definition lift {A : Type} (r : result A) : txn A := fun db => (r, db).

Definition query {A : Type} (f : database -> A) : txn A := fun db => (Ok (f db), db).

Notation "'let!' x ':=' m 'in' k" :=
  (tbind m (fun x => k))
  (at level 10, x pattern, m at level 100, k at level 200) : result_scope.

(** SQL text comparison under the default BINARY collation. *)
Definition text_eq (a b : string) : bool := String.eqb a b.
Definition text_le (a b : string) : bool := String.leb a b.

(** ORDER BY, as a stable insertion sort on the rows in table order. *)
Fixpoint insert_sorted {A : Type} (le : A -> A -> bool) (x : A) (l : list A) : list A :=
  match l with
  | [] => [x]
  | y :: rest => if le x y then x :: l else y :: insert_sorted le x rest
  end.

Definition order_by {A : Type} (le : A -> A -> bool) (l : list A) : list A :=
  foldr (insert_sorted le) [] l.

(** ** Session directory *)

Definition trade_day_key_matches (symbol session_date source : string)
    (td : trade_day_row) : bool :=
  text_eq (td_symbol td) symbol
  && text_eq (td_session_date td) session_date
  && text_eq (td_source td) source.

(** [SELECT id FROM trade_days WHERE symbol = ? AND session_date = ? AND
    source = ?] followed by [fetchone()] *)
Definition select_trade_day_id (symbol session_date source : string)
    (db : database) : option Z :=
  td_id <$> find (trade_day_key_matches symbol session_date source) (trade_days db).

Definition insert_trade_day (symbol session_date source : string) : txn Z :=
  fun db =>
    let id := next_rowid (map td_id (trade_days db)) in
    let row := {| td_id := id; td_symbol := symbol;
                  td_session_date := session_date; td_source := source |} in
    (Ok id, {| trade_days := trade_days db ++ [row];
               bars := bars db;
               day_annotations := day_annotations db |}).

Definition get_or_create_trade_day (symbol session_date source : string) : txn Z :=
  let! result := query (select_trade_day_id symbol session_date source) in
  match result with
  | Some trade_day_id => tret trade_day_id
  | None => insert_trade_day symbol session_date source
  end.

(** ** Bar store and ingestion *)

Record price_fields (A : Type) : Type := mk_prices {
  px_open : A;
  px_high : A;
  px_low : A;
  px_close : A;
  px_volume : A
}.

Arguments mk_prices {A}.
Arguments px_open {A}.
Arguments px_high {A}.
Arguments px_low {A}.
Arguments px_close {A}.
Arguments px_volume {A}.

Record conflict_detail : Type := mk_conflict {
  cd_timestamp : Z;
  cd_reason : string;
  cd_file : string;
  cd_existing : price_fields (option float);
  cd_new : price_fields float
}.

Record ingest_stats : Type := mk_stats {
  inserted : Z;
  skipped : Z;
  conflicts : Z;
  conflict_details : list conflict_detail
}.

Definition empty_stats : ingest_stats :=
  {| inserted := 0; skipped := 0; conflicts := 0; conflict_details := [] |}.

(** A float bound to a REAL column and read back: SQLite stores a NaN as
    NULL, and a zero of either sign comes back as 0.0 (a REAL column keeps a
    whole number as an integer, which has no sign of zero); every other
    value comes back as it was. *)
Definition sql_real (x : float) : option float :=
  if PrimFloat.is_nan x then None
  else if PrimFloat.eqb x 0%float then Some 0%float
  else Some x.

(** The literal [0.001], read as Python reads it: the nearest binary64. *)
#[warnings="-inexact-float"]
Definition tolerance : float := 0.001%float.

(** [abs(existing - incoming) < 0.001]; a NULL read back as [None] makes the
    subtraction raise. *)
Definition field_within (stored incoming : float) : bool :=
  PrimFloat.ltb (PrimFloat.abs (PrimFloat.sub stored incoming)) tolerance.

Definition within_tolerance (existing : option float) (incoming : float) : result bool :=
  match existing with
  | None => Raise TypeError
  | Some e => Ok (field_within e incoming)
  end.

(** Python's [a and b]: [b] is evaluated only when [a] is true. *)
Definition py_and (a b : result bool) : result bool :=
  let? x := a in if (x : bool) then b else Ok false.

Definition stored_prices (existing : bar_row) : price_fields (option float) :=
  mk_prices (bar_open existing) (bar_high existing) (bar_low existing)
            (bar_close existing) (bar_volume existing).

Definition ohlcv_matches (existing : price_fields (option float))
    (new : price_fields float) : result bool :=
  py_and (within_tolerance (px_open existing) (px_open new))
  (py_and (within_tolerance (px_high existing) (px_high new))
  (py_and (within_tolerance (px_low existing) (px_low new))
  (py_and (within_tolerance (px_close existing) (px_close new))
          (within_tolerance (px_volume existing) (px_volume new))))).

(** [SELECT ... FROM bars WHERE timestamp = ? AND halt_period = 1] *)
Definition select_halt_bar (timestamp : Z) (db : database) : option bar_row :=
  find (fun b => (bar_timestamp b =? timestamp) && (bar_halt_period b =? 1)) (bars db).

(** [SELECT ... FROM bars WHERE trade_day_id = ? AND timestamp = ?] *)
Definition select_session_bar (trade_day_id timestamp : Z) (db : database) : option bar_row :=
  find (fun b => match bar_trade_day_id b with
                 | Some t => (t =? trade_day_id) && (bar_timestamp b =? timestamp)
                 | None => false
                 end) (bars db).

Definition select_existing_bar (trade_day_id : option Z) (timestamp : Z)
    (db : database) : option bar_row :=
  match trade_day_id with
  | None => select_halt_bar timestamp db
  | Some t => select_session_bar t timestamp db
  end.

Definition insert_bar (trade_day_id : option Z) (timestamp : Z)
    (new : price_fields float) (halt_period : Z) (raw_json : raw_payload) : txn unit :=
  fun db =>
    let row := {| bar_id := next_rowid (map bar_id (bars db));
                  bar_trade_day_id := trade_day_id;
                  bar_timestamp := timestamp;
                  bar_open := sql_real (px_open new);
                  bar_high := sql_real (px_high new);
                  bar_low := sql_real (px_low new);
                  bar_close := sql_real (px_close new);
                  bar_volume := sql_real (px_volume new);
                  bar_halt_period := halt_period;
                  bar_raw_json := raw_json |} in
    (Ok tt, {| trade_days := trade_days db;
               bars := bars db ++ [row];
               day_annotations := day_annotations db |}).

(** [str.strip()].  The characters it takes off are those [str.isspace]
    holds of: U+0009 to U+000D, U+001C to U+0020, U+0085, U+00A0, U+1680,
    U+2000 to U+200A, U+2028, U+2029, U+202F, U+205F and U+3000, here in
    their UTF-8 encoding. *)
Definition text_of_bytes (bytes : list N) : string :=
  foldr (fun n s => String (Ascii.ascii_of_N n) s) EmptyString bytes.

Definition white_space : list string :=
  text_of_bytes <$>
    [ [9]; [10]; [11]; [12]; [13]; [28]; [29]; [30]; [31]; [32];
      [194; 133]; [194; 160]; [225; 154; 128];
      [226; 128; 128]; [226; 128; 129]; [226; 128; 130]; [226; 128; 131];
      [226; 128; 132]; [226; 128; 133]; [226; 128; 134]; [226; 128; 135];
      [226; 128; 136]; [226; 128; 137]; [226; 128; 138];
      [226; 128; 168]; [226; 128; 169]; [226; 128; 175];
      [226; 129; 159]; [227; 128; 128] ]%N.

(** [s] without the member of [prefixes] it starts with, if there is one. *)
Definition drop_one_of (prefixes : list string) (s : string) : option string :=
  (fun p => String.substring (String.length p) (String.length s - String.length p) s)
    <$> find (fun p => String.prefix p s) prefixes.

Fixpoint drop_leading (fuel : nat) (prefixes : list string) (s : string) : string :=
  match fuel with
  | O => s
  | S fuel =>
      match drop_one_of prefixes s with
      | Some rest => drop_leading fuel prefixes rest
      | None => s
      end
  end.

(** Each character taken off shortens the text, so its length is fuel
    enough. *)
Definition lstrip (s : string) : string :=
  drop_leading (String.length s) white_space s.

Definition rstrip (s : string) : string :=
  String.rev (drop_leading (String.length s) (String.rev <$> white_space) (String.rev s)).

Definition py_strip (s : string) : string := rstrip (lstrip s).

(** [row[key]] *)
Definition getitem (row : csv_row) (key : string) : result (option string) :=
  match row !! key with
  | Some cell => Ok cell
  | None => Raise (KeyError key)
  end.

(** [row.get(key, fallback)] *)
Definition dict_get (row : csv_row) (key : string) (fallback : option string) : option string :=
  match row !! key with
  | Some cell => cell
  | None => fallback
  end.

Section Ingestion.

Context `{RT : runtime}.

(** [float(cell)]: [None] (a field the line did not have) is a TypeError. *)
Definition float_of_cell (cell : option string) : result float :=
  match cell with
  | Some s => py_float s
  | None => Raise TypeError
  end.

Definition row_timestamp (source : string) (row : csv_row) : result Z :=
  if String.eqb source "tradingview" then
    let? cell := getitem row "time" in
    match cell with
    | Some time_str => parse_tradingview_timestamp time_str
    | None => Raise TypeError
    end
  else
    match dict_get row "timestamp" (dict_get row "time" None) with
    | Some time_str =>
        let? dt := strptime_Ymd_HMS time_str in
        Ok (localized_timestamp dt)
    | None => Raise TypeError
    end.

Definition row_volume (row : csv_row) : result float :=
  match dict_get row "volume" (dict_get row "Volume" (Some "0")) with
  | Some cell =>
      let volume_str := py_strip cell in
      if String.eqb volume_str "" then Ok 0%float else py_float volume_str
  | None => Raise AttributeError
  end.

(** The [try] around [resolve_trade_day]: a ValueError is raised again with
    the file path appended to its text. *)
Definition resolve_for_file (file_path : string) (timestamp : Z) : result (option string) :=
  match resolve_trade_day timestamp with
  | Raise (ValueError msg) => Raise (ValueError (msg +:+ ", File: " +:+ file_path))
  | other => other
  end.

(** The first half of the loop body, which touches no table: the timestamp,
    the five numbers, and the trade day of the record. *)
Record parsed_row : Type := mk_parsed_row {
  pr_timestamp : Z;
  pr_prices : price_fields float;
  pr_session_date : option string
}.

(** [# Parse OHLCV] and [# Handle empty volume] *)
Definition read_numbers (row : csv_row) : result (price_fields float) :=
  let? open_price := (let? cell := getitem row "open" in float_of_cell cell) in
  let? high_price := (let? cell := getitem row "high" in float_of_cell cell) in
  let? low_price := (let? cell := getitem row "low" in float_of_cell cell) in
  let? close_price := (let? cell := getitem row "close" in float_of_cell cell) in
  let? volume := row_volume row in
  Ok (mk_prices open_price high_price low_price close_price volume).

Definition read_row (file_path source : string) (row : csv_row) : result parsed_row :=
  let? timestamp := row_timestamp source row in
  let? prices := read_numbers row in
  let? session_date := resolve_for_file file_path timestamp in
  Ok {| pr_timestamp := timestamp;
        pr_prices := prices;
        pr_session_date := session_date |}.

(** The end of the loop body, from the lookup of an existing bar on: skip,
    conflict or insert. *)
Definition insert_or_classify (file_path : string) (trade_day_id : option Z)
    (timestamp : Z) (new : price_fields float) (halt_period : Z)
    (raw_json : raw_payload) (stats : ingest_stats) : txn ingest_stats :=
  let! existing := query (select_existing_bar trade_day_id timestamp) in
  match existing with
  | Some e =>
      let! same := lift (ohlcv_matches (stored_prices e) new) in
      if (same : bool) then
        tret {| inserted := inserted stats;
                skipped := skipped stats + 1;
                conflicts := conflicts stats;
                conflict_details := conflict_details stats |}
      else
        tret {| inserted := inserted stats;
                skipped := skipped stats;
                conflicts := conflicts stats + 1;
                conflict_details :=
                  conflict_details stats ++
                  [ {| cd_timestamp := timestamp;
                       cd_reason := "OHLCV mismatch";
                       cd_file := file_path;
                       cd_existing := stored_prices e;
                       cd_new := new |} ] |}
  | None =>
      let! _ := insert_bar trade_day_id timestamp new halt_period raw_json in
      tret {| inserted := inserted stats + 1;
              skipped := skipped stats;
              conflicts := conflicts stats;
              conflict_details := conflict_details stats |}
  end.

(** [trade_day_id]: NULL for a halt-period bar, the session of the trade
    day otherwise. *)
Definition session_reference (symbol source : string) (session_date : option string)
    : txn (option Z) :=
  match session_date with
  | None => tret None
  | Some d => let! id := get_or_create_trade_day symbol d source in tret (Some id)
  end.

(** The second half of the loop body: the session of the record, then the
    bar store. *)
Definition store_row (file_path symbol source : string) (row : csv_row)
    (p : parsed_row) (stats : ingest_stats) : txn ingest_stats :=
  let halt_period := match pr_session_date p with None => 1 | Some _ => 0 end in
  let! trade_day_id := session_reference symbol source (pr_session_date p) in
  let new := pr_prices p in
  let raw_json := {| raw_timestamp := pr_timestamp p;
                     raw_open := px_open new; raw_high := px_high new;
                     raw_low := px_low new; raw_close := px_close new;
                     raw_volume := px_volume new; raw_source_row := row |} in
  insert_or_classify file_path trade_day_id (pr_timestamp p) new halt_period raw_json stats.

(** One turn of the loop over the rows of the file. *)
Definition ingest_row (file_path symbol source : string) (row : csv_row)
    (stats : ingest_stats) : txn ingest_stats :=
  let! p := lift (read_row file_path source row) in
  store_row file_path symbol source row p stats.

Fixpoint ingest_rows (file_path symbol source : string) (rows : list csv_row)
    (stats : ingest_stats) : txn ingest_stats :=
  match rows with
  | [] => tret stats
  | row :: rest =>
      let! stats' := ingest_row file_path symbol source row stats in
      ingest_rows file_path symbol source rest stats'
  end.

(** [ingest_csv]: [rows] is what [csv.DictReader] yields for the file at
    [file_path].  The result pairs what the caller gets (the statistics or the
    exception) with the database the call leaves behind: the commit is the
    last statement, so an exception leaves the loop with the transaction
    open and nothing of it is kept. *)
Definition ingest_csv (file_path : string) (rows : list csv_row)
    (symbol timeframe source : string) (db : database) : result ingest_stats * database :=
  let conn := connect db in
  match ingest_rows file_path symbol source rows empty_stats (working conn) with
  | (Ok stats, view) => (Ok stats, close (commit (with_working conn view)))
  | (Raise e, view) => (Raise e, close (with_working conn view))
  end.

End Ingestion.

(** ** Annotation ledger *)

Definition insert_annotation (trade_day_id : Z) (annotation_type content : string)
    (tags_json : list string) (source : string) (created_at : Z)
    (supersedes_id : option Z) : txn Z :=
  fun db =>
    let id := next_rowid (map da_id (day_annotations db)) in
    let row := {| da_id := id;
                  da_trade_day_id := trade_day_id;
                  da_annotation_type := annotation_type;
                  da_content := content;
                  da_tags := tags_json;
                  da_source := source;
                  da_created_at := created_at;
                  da_supersedes_id := supersedes_id;
                  da_status := "active" |} in
    (Ok id, {| trade_days := trade_days db;
               bars := bars db;
               day_annotations := day_annotations db ++ [row] |}).

Definition set_superseded (a : annotation_row) : annotation_row :=
  {| da_id := da_id a;
     da_trade_day_id := da_trade_day_id a;
     da_annotation_type := da_annotation_type a;
     da_content := da_content a;
     da_tags := da_tags a;
     da_source := da_source a;
     da_created_at := da_created_at a;
     da_supersedes_id := da_supersedes_id a;
     da_status := "superseded" |}.

(** The effect of the UPDATE below on one row. *)
Definition supersede (old : Z) (a : annotation_row) : annotation_row :=
  if da_id a =? old then set_superseded a else a.

(** [UPDATE day_annotations SET status = 'superseded' WHERE id = ?] *)
Definition mark_superseded (id : Z) : txn unit :=
  fun db =>
    (Ok tt, {| trade_days := trade_days db;
               bars := bars db;
               day_annotations := map (supersede id) (day_annotations db) |}).

(** [if supersedes_id:] is false for [None] and for 0. *)
Definition truthy_id (supersedes_id : option Z) : option Z :=
  match supersedes_id with
  | Some id => if id =? 0 then None else Some id
  | None => None
  end.

(** The statements of [save_day_annotation] between [connect] and
    [commit]; [now] is the reading of the clock,
    [int(datetime.datetime.now(tz=PT_TIMEZONE).timestamp())]. *)
Definition save_day_annotation_txn (symbol session_date content annotation_type : string)
    (tags : option (list string)) (source : string) (supersedes_id : option Z)
    (now : Z) : txn Z :=
  let! trade_day_id := get_or_create_trade_day symbol session_date "tradingview" in
  let tags_json := match tags with
                   | Some (t :: ts) => t :: ts
                   | _ => []
                   end in
  let created_at := now in
  let! annotation_id :=
    insert_annotation trade_day_id annotation_type content tags_json source
                      created_at supersedes_id in
  let! _ :=
    match truthy_id supersedes_id with
    | Some old => mark_superseded old
    | None => tret tt
    end in
  tret annotation_id.

(** [save_day_annotation]: one transaction, committed after the last
    statement; the result is the new id and the database left behind. *)
Definition save_day_annotation (symbol session_date content annotation_type : string)
    (tags : option (list string)) (source : string) (supersedes_id : option Z)
    (now : Z) (db : database) : result Z * database :=
  let conn := connect db in
  match save_day_annotation_txn symbol session_date content annotation_type
          tags source supersedes_id now (working conn) with
  | (Ok id, view) => (Ok id, close (commit (with_working conn view)))
  | (Raise e, view) => (Raise e, close (with_working conn view))
  end.

(** ** Queries *)

(** A dictionary of the list [get_bars] returns. *)
Record bar_view : Type := mk_bar_view {
  bv_id : Z;
  bv_timestamp : Z;
  bv_open : option float;
  bv_high : option float;
  bv_low : option float;
  bv_close : option float;
  bv_volume : option float;
  bv_halt_period : bool;
  bv_session_date : string;
  bv_raw_json : raw_payload
}.

(** [bars b LEFT JOIN trade_days td ON b.trade_day_id = td.id]: every bar
    appears, beside each session with its id, or beside NULLs when it has no
    such session. *)
Definition bars_left_join (db : database) : list (bar_row * option trade_day_row) :=
  flat_map
    (fun b =>
       match List.filter (fun td => match bar_trade_day_id b with
                                    | Some t => t =? td_id td
                                    | None => false
                                    end) (trade_days db) with
       | [] => [(b, None)]
       | tds => map (fun td => (b, Some td)) tds
       end)
    (bars db).

(** [if s:] on an optional text: given and not empty. *)
Definition given (s : option string) : option string :=
  match s with
  | Some v => if String.eqb v "" then None else Some v
  | None => None
  end.

(** The WHERE clause [get_bars] builds.  A comparison with a NULL column is
    not true, so a row without a session passes no [td.] condition. *)
Definition get_bars_where (symbol : string) (session_date start_date end_date : option string)
    (include_halt : bool) (source : string) (r : bar_row * option trade_day_row) : bool :=
  let '(b, joined) := r in
  match joined with
  | None => false
  | Some td =>
      text_eq (td_symbol td) symbol && text_eq (td_source td) source
      && match given session_date, given start_date, given end_date with
         | Some d, _, _ => text_eq (td_session_date td) d
         | None, Some s, Some e =>
             text_le s (td_session_date td) && text_le (td_session_date td) e
         | None, _, _ => true
         end
      && (include_halt || (bar_halt_period b =? 0))
  end.

Definition bar_view_of (r : bar_row * option trade_day_row) : option bar_view :=
  let '(b, joined) := r in
  td ← joined;
  Some {| bv_id := bar_id b;
          bv_timestamp := bar_timestamp b;
          bv_open := bar_open b;
          bv_high := bar_high b;
          bv_low := bar_low b;
          bv_close := bar_close b;
          bv_volume := bar_volume b;
          bv_halt_period := negb (bar_halt_period b =? 0);
          bv_session_date := td_session_date td;
          bv_raw_json := bar_raw_json b |}.

Definition get_bars (symbol : string) (session_date start_date end_date timeframe : option string)
    (include_halt : bool) (source : string) (db : database) : list bar_view :=
  let rows :=
    order_by (fun r1 r2 => bar_timestamp r1.1 <=? bar_timestamp r2.1)
      (List.filter (get_bars_where symbol session_date start_date end_date include_halt source)
                   (bars_left_join db)) in
  omap bar_view_of rows.

(** A dictionary of the list [get_day_annotations] returns. *)
Record annotation_view : Type := mk_annotation_view {
  av_id : Z;
  av_session_date : string;
  av_annotation_type : string;
  av_content : string;
  av_tags : list string;
  av_source : string;
  av_created_at : Z;
  av_supersedes_id : option Z;
  av_status : string
}.

(** [day_annotations da JOIN trade_days td ON da.trade_day_id = td.id] *)
Definition annotations_join (db : database) : list (annotation_row * trade_day_row) :=
  flat_map
    (fun a => map (fun td => (a, td))
                  (List.filter (fun td => da_trade_day_id a =? td_id td) (trade_days db)))
    (day_annotations db).

Definition get_day_annotations_where (symbol start_date end_date status : string)
    (annotation_type : option string) (r : annotation_row * trade_day_row) : bool :=
  let '(a, td) := r in
  text_eq (td_symbol td) symbol
  && text_le start_date (td_session_date td)
  && text_le (td_session_date td) end_date
  && (if String.eqb status "all" then true else text_eq (da_status a) status)
  && match given annotation_type with
     | Some ty => text_eq (da_annotation_type a) ty
     | None => true
     end.

(** [ORDER BY td.session_date, da.created_at] *)
Definition annotation_order (r1 r2 : annotation_row * trade_day_row) : bool :=
  let d1 := td_session_date r1.2 in
  let d2 := td_session_date r2.2 in
  if text_eq d1 d2 then da_created_at r1.1 <=? da_created_at r2.1
  else text_le d1 d2.

(** [tag in row_tags] *)
Definition tag_in (tag : string) (row_tags : list string) : bool :=
  existsb (String.eqb tag) row_tags.

(** [any(tag in row_tags for tag in tags)] *)
Definition any_tag_matches (tags row_tags : list string) : bool :=
  existsb (fun tag => tag_in tag row_tags) tags.

(** The test of the Python loop: with a non-empty [tags] argument a row is
    kept when one of the requested tags is among its own. *)
Definition passes_tag_filter (tags : option (list string)) (row_tags : list string) : bool :=
  match tags with
  | Some (t :: ts) => any_tag_matches (t :: ts) row_tags
  | _ => true
  end.

Definition annotation_view_of (r : annotation_row * trade_day_row) : annotation_view :=
  let '(a, td) := r in
  {| av_id := da_id a;
     av_session_date := td_session_date td;
     av_annotation_type := da_annotation_type a;
     av_content := da_content a;
     av_tags := da_tags a;
     av_source := da_source a;
     av_created_at := da_created_at a;
     av_supersedes_id := da_supersedes_id a;
     av_status := da_status a |}.

Definition get_day_annotations (symbol start_date end_date : string)
    (tags : option (list string)) (status : string) (annotation_type : option string)
    (db : database) : list annotation_view :=
  let rows :=
    order_by annotation_order
      (List.filter (get_day_annotations_where symbol start_date end_date status annotation_type)
                   (annotations_join db)) in
  map annotation_view_of
      (List.filter (fun r => passes_tag_filter tags (da_tags r.1)) rows).

(** [get_trade_day] *)
Definition get_trade_day (symbol session_date source : string) (db : database)
    : option trade_day_row :=
  find (trade_day_key_matches symbol session_date source) (trade_days db).

(** ** A concrete runtime

    The theorems below hold for every [runtime].  To run the model on the
    inputs of the module's tests one is fixed here: the zone outside
    daylight-saving time (eight hours west of UTC, what the zone table gives
    for January instants), and parsers for the canonical zero-padded dates,
    for plain decimals and for the texts inf, -inf and nan, on which they
    return what Python returns; any other text is refused with a
    ValueError.  The two answers of the C library are those of Linux. *)

Module Demo.

Definition PST : zone :=
  {| utcoffset := fun _ => -28800;
     wall_to_epoch := fun wall => wall + 28800 |}.

Definition digit (a : Ascii.ascii) : option Z :=
  let n := Z.of_N (Ascii.N_of_ascii a) in
  if (48 <=? n) && (n <=? 57) then Some (n - 48) else None.

Fixpoint digits_from (acc : Z) (s : string) : option Z :=
  match s with
  | EmptyString => Some acc
  | String a rest => d ← digit a; digits_from (10 * acc + d) rest
  end.

Definition number (s : string) : option Z :=
  if String.eqb s "" then None else digits_from 0 s.

Definition is_leap (y : Z) : bool :=
  ((y mod 4 =? 0) && negb (y mod 100 =? 0)) || (y mod 400 =? 0).

Definition days_in_month (y m : Z) : Z :=
  if m =? 2 then (if is_leap y then 29 else 28)
  else if (m =? 4) || (m =? 6) || (m =? 9) || (m =? 11) then 30
  else 31.

(** [YYYY-MM-DD?HH:MM:SS] with [sep] at [?]: the wall-clock seconds. *)
Definition wall_clock (sep : string) (s : string) : option Z :=
  y ← number (String.substring 0 4 s);
  m ← number (String.substring 5 2 s);
  d ← number (String.substring 8 2 s);
  hh ← number (String.substring 11 2 s);
  mm ← number (String.substring 14 2 s);
  ss ← number (String.substring 17 2 s);
  if String.eqb (String.substring 4 1 s) "-" && String.eqb (String.substring 7 1 s) "-"
     && String.eqb (String.substring 10 1 s) sep
     && String.eqb (String.substring 13 1 s) ":" && String.eqb (String.substring 16 1 s) ":"
     && (1 <=? y) && (1 <=? m) && (m <=? 12) && (1 <=? d) && (d <=? days_in_month y m)
     && (hh <? 24) && (mm <? 60) && (ss <? 60)
  then Some (Calendar.days_of_civil y m d * 86400 + hh * 3600 + mm * 60 + ss)
  else None.

(** [+HH:MM] or [-HH:MM]: the offset in seconds. *)
Definition zone_offset (s : string) : option Z :=
  hh ← number (String.substring 1 2 s);
  mm ← number (String.substring 4 2 s);
  if String.eqb (String.substring 3 1 s) ":" && (hh <? 24) && (mm <? 60) then
    if String.eqb (String.substring 0 1 s) "+" then Some (hh * 3600 + mm * 60)
    else if String.eqb (String.substring 0 1 s) "-" then Some (- (hh * 3600 + mm * 60))
    else None
  else None.

Definition demo_strptime (s : string) : result parsed_datetime :=
  match (if (String.length s =? 19)%nat then wall_clock " " s else None) with
  | Some w => Ok {| pd_wall := w; pd_micro := 0; pd_tzoffset := None |}
  | None =>
      Raise (ValueError ("time data '" +:+ s +:+ "' does not match format '%Y-%m-%d %H:%M:%S'"))
  end.

Definition demo_fromisoformat (s : string) : result parsed_datetime :=
  let bad := Raise (ValueError ("Invalid isoformat string: '" +:+ s +:+ "'")) in
  match wall_clock "T" (String.substring 0 19 s) with
  | Some w =>
      if (String.length s =? 19)%nat then
        Ok {| pd_wall := w; pd_micro := 0; pd_tzoffset := None |}
      else if (String.length s =? 25)%nat then
        match zone_offset (String.substring 19 6 s) with
        | Some off =>
            Ok {| pd_wall := w; pd_micro := 0; pd_tzoffset := Some (off * 1000000) |}
        | None => bad
        end
      else bad
  | None => bad
  end.

(** The text before the first [.] and the text after it. *)
Fixpoint split_point (s : string) : string * option string :=
  match s with
  | EmptyString => (EmptyString, None)
  | String a rest =>
      if Ascii.eqb a "."%char then (EmptyString, Some rest)
      else let '(whole, frac) := split_point rest in (String a whole, frac)
  end.

(** A decimal with at most fifteen digits is the quotient of two integers
    that binary64 holds exactly, and one correctly rounded division gives the
    float nearest to it, which is what [float()] returns. *)
Definition decimal (s : string) : option float :=
  let '(whole, frac) := split_point s in
  let frac := default EmptyString frac in
  n ← number (whole +:+ frac);
  if String.eqb whole "" then None
  else if (15 <? String.length (whole +:+ frac))%nat then None
  else Some (PrimFloat.div (PrimFloat.of_uint63 (Uint63.of_Z n))
                           (PrimFloat.of_uint63 (Uint63.of_Z (10 ^ Z.of_nat (String.length frac))))).

Definition demo_float (s : string) : result float :=
  let parsed :=
    if String.eqb s "inf" then Some infinity
    else if String.eqb s "-inf" then Some neg_infinity
    else if String.eqb s "nan" then Some nan
    else
      match s with
      | String "-" rest => PrimFloat.opp <$> decimal rest
      | _ => decimal s
      end in
  match parsed with
  | Some x => Ok x
  | None => Raise (ValueError ("could not convert string to float: '" +:+ s +:+ "'"))
  end.

(** Outside the years 1 to 9999: the answer of CPython on Linux while the
    C library can still tell the year. *)
Definition demo_fromtimestamp_error (timestamp : Z) : exn :=
  let '(y, _, _) := Calendar.civil_of_days (timestamp / 86400) in
  ValueError ("year " +:+ pretty y +:+ " is out of range").

Definition demo_runtime : runtime :=
  {| PT_TIMEZONE := PST;
     py_float := demo_float;
     fromisoformat := demo_fromisoformat;
     strptime_Ymd_HMS := demo_strptime;
     fromtimestamp_error := demo_fromtimestamp_error;
     strftime_small_year := fun y => pretty y (* glibc does not pad *) |}.

End Demo.

(** ** Sample data

    Records in the shape of a TradingView export, for one Monday (2024-01-08)
    and the Saturday after it, and the databases the examples start from. *)

Module Sample.

Definition record (time open high low close volume : string) : csv_row :=
  {[ "time" := Some time; "open" := Some open; "high" := Some high;
     "low" := Some low; "close" := Some close; "volume" := Some volume ]}.

Definition monday_bar : csv_row :=
  record "2024-01-08 13:30:00" "100.5" "101" "99.5" "100.75" "1200".

(** The same minute with another close. *)
Definition monday_bar_revised : csv_row :=
  record "2024-01-08 13:30:00" "100.5" "101" "99.5" "100.9" "1200".

Definition monday_next_bar : csv_row :=
  record "2024-01-08 13:31:00" "100.75" "101.25" "100.5" "101" "800".

Definition halt_bar : csv_row :=
  record "2024-01-08 14:30:00" "101" "101" "101" "101" "0".

Definition saturday_bar : csv_row :=
  record "2024-01-13 12:00:00" "102" "103" "101" "102.5" "50".

(** A record whose open is not a finite number. *)
Definition infinite_bar : csv_row :=
  record "2024-01-08 13:33:00" "inf" "101" "99.5" "100.75" "1200".

Definition nan_bar : csv_row :=
  record "2024-01-08 13:34:00" "nan" "101" "99.5" "100.75" "1200".

Definition unreadable_bar : csv_row :=
  record "2024-01-08 13:32:00" "n/a" "101" "99.5" "100.75" "1200".

Definition ingest (rows : list csv_row) (db : database) : result ingest_stats * database :=
  ingest_csv (RT := Demo.demo_runtime) "bars.csv" rows "MNQ" "1m" "tradingview" db.

(** The database after the ingestion of [monday_bar]. *)
Definition one_bar_db : database := (ingest [monday_bar] empty_database).2.

(** The database after the ingestion of a session bar and a halt bar. *)
Definition halt_db : database := (ingest [monday_bar; halt_bar] empty_database).2.

Definition stored_halt_bar : bar_row :=
  {| bar_id := 2;
     bar_trade_day_id := None;
     bar_timestamp := 1704753000;
     bar_open := Some 101%float;
     bar_high := Some 101%float;
     bar_low := Some 101%float;
     bar_close := Some 101%float;
     bar_volume := Some 0%float;
     bar_halt_period := 1;
     bar_raw_json := {| raw_timestamp := 1704753000;
                        raw_open := 101; raw_high := 101; raw_low := 101;
                        raw_close := 101; raw_volume := 0;
                        raw_source_row := halt_bar |} |}.

Definition monday_prices : price_fields float :=
  mk_prices 100.5%float 101%float 99.5%float 100.75%float 1200%float.



(** The database after a first annotation of the Monday session, as in
    [test_annotations]. *)
Definition annotated_db : database :=
  (save_day_annotation "MNQ" "2024-01-08" "Test observation"
     "observation" (Some ["test"; "breakout"]) "manual" None 1704750000 one_bar_db).2.

Definition first_annotation : annotation_view :=
  {| av_id := 1;
     av_session_date := "2024-01-08";
     av_annotation_type := "observation";
     av_content := "Test observation";
     av_tags := ["test"; "breakout"];
     av_source := "manual";
     av_created_at := 1704750000;
     av_supersedes_id := None;
     av_status := "active" |}.

(** The database after the annotation of the example of the tag filter:
    one annotation of the Monday session, tagged momentum and trend_day. *)
Definition trend_db : database :=
  (save_day_annotation "MNQ" "2024-01-08" "Trend day"
     "observation" (Some ["momentum"; "trend_day"]) "manual" None 1704750000 one_bar_db).2.

Definition trend_row : annotation_row :=
  {| da_id := 1;
     da_trade_day_id := 1;
     da_annotation_type := "observation";
     da_content := "Trend day";
     da_tags := ["momentum"; "trend_day"];
     da_source := "manual";
     da_created_at := 1704750000;
     da_supersedes_id := None;
     da_status := "active" |}.

Definition monday_session : trade_day_row :=
  {| td_id := 1; td_symbol := "MNQ"; td_session_date := "2024-01-08";
     td_source := "tradingview" |}.

(** The three counts of a report, when there is one. *)
Definition counts (r : result ingest_stats) : option (Z * Z * Z) :=
  match r with
  | Ok stats => Some (inserted stats, skipped stats, conflicts stats)
  | Raise _ => None
  end.

End Sample.

(** * Vocabulary of the properties

    The constraints of the schema, the relations between a database before
    and after an operation, and the conditions the theorems are stated
    with. *)

(** The identity of a session. *)
Definition session_key (td : trade_day_row) : string * string * string :=
  (td_symbol td, td_session_date td, td_source td).

(** The UNIQUE(symbol, session_date, source) constraint of the table. *)
Definition unique_sessions (db : database) : Prop :=
  NoDup (map session_key (trade_days db)).

(** The PRIMARY KEY constraint of the table. *)
Definition unique_session_ids (db : database) : Prop :=
  NoDup (map td_id (trade_days db)).

(** The row [get_or_create_trade_day] inserts when the key is new, and the
    database with it. *)
Definition appended_session (symbol session_date source : string) (db : database)
    : trade_day_row :=
  {| td_id := next_rowid (map td_id (trade_days db));
     td_symbol := symbol; td_session_date := session_date; td_source := source |}.

Definition with_session (db : database) (td : trade_day_row) : database :=
  {| trade_days := trade_days db ++ [td];
     bars := bars db;
     day_annotations := day_annotations db |}.

(** Sessions are only ever added, and the two constraints of the table
    survive. *)
Definition sessions_kept (db db' : database) : Prop :=
  trade_days db `prefix_of` trade_days db'
  /\ (unique_sessions db -> unique_sessions db')
  /\ (unique_session_ids db -> unique_session_ids db').

(** Every annotation refers to a stored session, as the rows written by
    [save_day_annotation] do. *)
Definition annotations_reference_sessions (db : database) : Prop :=
  Forall (fun a => In (da_trade_day_id a) (map td_id (trade_days db)))
         (day_annotations db).

(** The PRIMARY KEY constraint of the bars. *)
Definition unique_bar_ids (db : database) : Prop :=
  NoDup (map bar_id (bars db)).

(** What the ingestion of rows may do to a database: sessions are kept, bars
    are only appended, under fresh ids, annotations are not touched. *)
Definition ingest_grows (db db' : database) : Prop :=
  sessions_kept db db'
  /\ bars db `prefix_of` bars db'
  /\ day_annotations db' = day_annotations db
  /\ (unique_bar_ids db -> unique_bar_ids db').

(** The halt flag of a bar says that it has no session. *)
Definition halt_flag_agrees (b : bar_row) : Prop :=
  bar_halt_period b = 1 <-> bar_trade_day_id b = None.

(** The halt-period bars of a database are its bars without a session. *)
Definition halt_bars_unassigned (db : database) : Prop :=
  Forall halt_flag_agrees (bars db).

(** The constraints of the schema, with the foreign key of the
    annotations. *)
Definition consistent (db : database) : Prop :=
  unique_session_ids db /\ unique_sessions db /\ unique_bar_ids db
  /\ annotations_reference_sessions db.

(** All five fields of an incoming bar within the tolerance of the stored
    numbers. *)
Definition all_within (stored new : price_fields float) : bool :=
  field_within (px_open stored) (px_open new)
  && field_within (px_high stored) (px_high new)
  && field_within (px_low stored) (px_low new)
  && field_within (px_close stored) (px_close new)
  && field_within (px_volume stored) (px_volume new).




(** The five stored columns hold numbers (none is NULL). *)
Definition stored_numbers (e : bar_row) (stored : price_fields float) : Prop :=
  stored_prices e
  = mk_prices (Some (px_open stored)) (Some (px_high stored)) (Some (px_low stored))
              (Some (px_close stored)) (Some (px_volume stored)).

(** The five numbers of a record are finite: neither an infinity nor a
    NaN. *)
Definition finite_prices (p : price_fields float) : bool :=
  PrimFloat.is_finite (px_open p) && PrimFloat.is_finite (px_high p)
  && PrimFloat.is_finite (px_low p) && PrimFloat.is_finite (px_close p)
  && PrimFloat.is_finite (px_volume p).

(** How the counts of a second pass over a record relate to those of the
    first: nothing is inserted, what was inserted or skipped is skipped, what
    was a conflict is a conflict again. *)
Definition second_pass_counts (before after beforeX afterX : ingest_stats) : Prop :=
  inserted afterX = inserted beforeX
  /\ skipped afterX - skipped beforeX
     = (inserted after - inserted before) + (skipped after - skipped before)
  /\ conflicts afterX - conflicts beforeX = conflicts after - conflicts before.

(** The numbers of a record are finite (a record whose numbers do not parse
    counts: it stops the first pass). *)
Definition numbers_finite `{RT : runtime} (row : csv_row) : bool :=
  match read_numbers row with
  | Ok prices => finite_prices prices
  | Raise _ => true
  end.

(** A returned annotation, with the status the UPDATE sets. *)
Definition superseded_view (v : annotation_view) : annotation_view :=
  {| av_id := av_id v;
     av_session_date := av_session_date v;
     av_annotation_type := av_annotation_type v;
     av_content := av_content v;
     av_tags := av_tags v;
     av_source := av_source v;
     av_created_at := av_created_at v;
     av_supersedes_id := av_supersedes_id v;
     av_status := "superseded" |}.

(** The UPDATE on a row of the join. *)
Definition supersede_joined (old : Z) (r : annotation_row * trade_day_row)
    : annotation_row * trade_day_row :=
  (supersede old r.1, r.2).

(** The part of the WHERE clause of [get_day_annotations] that looks at the
    session, and the part that looks at the status. *)
Definition session_in_range (symbol start_date end_date : string) (td : trade_day_row) : bool :=
  text_eq (td_symbol td) symbol
  && text_le start_date (td_session_date td)
  && text_le (td_session_date td) end_date.

Definition status_selected (status : string) (a : annotation_row) : bool :=
  if String.eqb status "all" then true else text_eq (da_status a) status.

(** The row [save_day_annotation] inserts. *)
Definition new_annotation (db : database) (trade_day_id : Z)
    (annotation_type content : string) (tags : option (list string)) (source : string)
    (supersedes_id : option Z) (now : Z) : annotation_row :=
  {| da_id := next_rowid (map da_id (day_annotations db));
     da_trade_day_id := trade_day_id;
     da_annotation_type := annotation_type;
     da_content := content;
     da_tags := match tags with Some (t :: ts) => t :: ts | _ => [] end;
     da_source := source;
     da_created_at := now;
     da_supersedes_id := supersedes_id;
     da_status := "active" |}.

(** The wall clock reading [wall] exists in the zone and is not ambiguous:
    the instant the zone gives for it reads back as [wall]. *)
Definition wall_clock_round_trips (z : zone) (wall : Z) : Prop :=
  wall_to_epoch z wall + utcoffset z (wall_to_epoch z wall) = wall.

(** What one more record does to the report and to the table of bars. *)
Definition accounted (file_path : string) (n : Z) (before after : ingest_stats)
    (db db' : database) : Prop :=
  inserted after + skipped after + conflicts after
  = inserted before + skipped before + conflicts before + n
  /\ Z.of_nat (length (conflict_details after)) - conflicts after
     = Z.of_nat (length (conflict_details before)) - conflicts before
  /\ Z.of_nat (length (bars db')) - inserted after
     = Z.of_nat (length (bars db)) - inserted before
  /\ (Forall (fun d => cd_reason d = "OHLCV mismatch" /\ cd_file d = file_path)
        (conflict_details before) ->
      Forall (fun d => cd_reason d = "OHLCV mismatch" /\ cd_file d = file_path)
        (conflict_details after)).

(** The lookup key of a bar: its session (none for a halt bar) and its
    timestamp. *)
Definition bar_key (b : bar_row) : option Z * Z :=
  (bar_trade_day_id b, bar_timestamp b).

(** No two bars under one lookup key. *)
Definition unique_bar_keys (db : database) : Prop :=
  NoDup (map bar_key (bars db)).

(** A bar is filed where the resolver puts its timestamp: without a session
    and flagged when the resolver says halt, under a session of the resolved
    trade day, not flagged, otherwise. *)
Definition bar_filed `{RT : runtime} (sessions : list trade_day_row) (b : bar_row) : Prop :=
  match bar_trade_day_id b with
  | None =>
      bar_halt_period b = 1 /\ resolve_trade_day (bar_timestamp b) = Ok None
  | Some t =>
      bar_halt_period b = 0
      /\ exists td, In td sessions /\ td_id td = t
                    /\ resolve_trade_day (bar_timestamp b) = Ok (Some (td_session_date td))
  end.

Definition bars_filed `{RT : runtime} (db : database) : Prop :=
  Forall (bar_filed (trade_days db)) (bars db).

(** Where the bar of a record is after its turn of the loop. *)
Definition record_stored (symbol source : string) (p : parsed_row) (db : database) : Prop :=
  exists trade_day_id e,
    select_existing_bar trade_day_id (pr_timestamp p) db = Some e
    /\ match pr_session_date p with
       | Some d =>
           exists td, trade_day_id = Some (td_id td)
                      /\ get_trade_day symbol d source db = Some td
       | None => trade_day_id = None
       end.

(** The order of the returned annotations: by session date, then by
    creation time. *)
Definition view_order (v1 v2 : annotation_view) : Prop :=
  av_session_date v1 = av_session_date v2 /\ av_created_at v1 <= av_created_at v2
  \/ av_session_date v1 <> av_session_date v2
     /\ text_le (av_session_date v1) (av_session_date v2) = true.

(** The PRIMARY KEY constraint of the annotations. *)
Definition unique_annotation_ids (db : database) : Prop :=
  NoDup (map da_id (day_annotations db)).

(** What stays of a stored annotation: everything but the status. *)
Definition same_but_status (a a' : annotation_row) : Prop :=
  da_id a' = da_id a
  /\ da_trade_day_id a' = da_trade_day_id a
  /\ da_annotation_type a' = da_annotation_type a
  /\ da_content a' = da_content a
  /\ da_tags a' = da_tags a
  /\ da_source a' = da_source a
  /\ da_created_at a' = da_created_at a
  /\ da_supersedes_id a' = da_supersedes_id a
  /\ (da_status a' = da_status a
      \/ da_status a' = "superseded").


(** * Properties *)

Ltac txn_unfold :=
  unfold tbind, tret, traise, lift, query in *.

(** ** Session resolver *)

Section ResolverFacts.

Context `{RT : runtime}.

Lemma reading_hour_range (utc off : Z) : 0 <= dt_hour (reading utc off) < 24.
Proof.
  unfold reading; cbn [dt_hour].
  set (local := utc + off).
  assert (0 <= local mod 86400 < 86400) by (apply Z.mod_pos_bound; lia).
  split.
  - apply Z.div_pos; lia.
  - apply Z.div_lt_upper_bound; lia.
Qed.

(** What a reading that [get_pt_datetime] returns is: the instant and its
    local clock are datetimes. *)
Lemma get_pt_datetime_reading (timestamp : Z) (dt : datetime) :
  get_pt_datetime timestamp = Ok dt ->
  datetime_holds timestamp = true
  /\ datetime_holds (timestamp + utcoffset PT_TIMEZONE timestamp) = true
  /\ dt = reading timestamp (utcoffset PT_TIMEZONE timestamp).
Proof.
  unfold get_pt_datetime, fromutc.
  destruct (datetime_holds timestamp); [|discriminate].
  destruct (datetime_holds (timestamp + utcoffset PT_TIMEZONE timestamp));
    [|discriminate].
  intros [= <-]. auto.
Qed.

Lemma get_pt_datetime_returns (timestamp : Z) :
  datetime_holds timestamp = true ->
  datetime_holds (timestamp + utcoffset PT_TIMEZONE timestamp) = true ->
  get_pt_datetime timestamp = Ok (reading timestamp (utcoffset PT_TIMEZONE timestamp)).
Proof. unfold get_pt_datetime, fromutc. intros -> ->. reflexivity. Qed.

Lemma hour_range (timestamp : Z) (dt : datetime) :
  get_pt_datetime timestamp = Ok dt -> 0 <= dt_hour dt < 24.
Proof.
  intros H. apply get_pt_datetime_reading in H as (_ & _ & ->).
  apply reading_hour_range.
Qed.

(** The local date of a reading is a date. *)
Lemma date_range (timestamp : Z) (dt : datetime) :
  get_pt_datetime timestamp = Ok dt ->
  Calendar.date_min <= dt_date dt <= Calendar.date_max.
Proof.
  intros H. apply get_pt_datetime_reading in H as (_ & Hlocal & ->).
  unfold reading; cbn [dt_date].
  unfold datetime_holds, datetime_min, datetime_max in Hlocal.
  apply andb_true_iff in Hlocal as [Hlo Hhi].
  apply Z.leb_le in Hlo, Hhi.
  set (local := timestamp + _) in *.
  split.
  - apply Z.div_le_lower_bound; lia.
  - assert (local / 86400 < Calendar.date_max + 1); [|lia].
    apply Z.div_lt_upper_bound; lia.
Qed.

Lemma weekday_range (days : Z) : 0 <= Calendar.weekday days < 7.
Proof. unfold Calendar.weekday. apply Z.mod_pos_bound. lia. Qed.

Lemma is_saturday_weekday (timestamp : Z) (dt : datetime) :
  get_pt_datetime timestamp = Ok dt ->
  is_saturday timestamp = Ok (Calendar.weekday (dt_date dt) =? 5).
Proof. unfold is_saturday. intros ->. reflexivity. Qed.

Lemma is_halt_period_hour (timestamp : Z) (dt : datetime) :
  get_pt_datetime timestamp = Ok dt ->
  is_halt_period timestamp = Ok (dt_hour dt =? 14).
Proof. unfold is_halt_period. intros ->. reflexivity. Qed.

(** The four readings of the clock in [resolve_trade_day] are one reading. *)
Lemma resolve_trade_day_of_reading (timestamp : Z) (dt : datetime) :
  get_pt_datetime timestamp = Ok dt ->
  resolve_trade_day timestamp
  = if Calendar.weekday (dt_date dt) =? 5 then
      Raise (ValueError (saturday_message timestamp dt))
    else if dt_hour dt =? 14 then Ok None
    else if 15 <=? dt_hour dt then
      let? next_day := Calendar.add_days (dt_date dt) 1 in
      Ok (Some (strftime_Ymd next_day))
    else Ok (Some (strftime_Ymd (dt_date dt))).
Proof.
  intros H. unfold resolve_trade_day, is_saturday, is_halt_period.
  rewrite H. cbn [rbind].
  destruct (Calendar.weekday (dt_date dt) =? 5); [reflexivity|].
  destruct (dt_hour dt =? 14); reflexivity.
Qed.

(** An instant [fromtimestamp] refuses: its exception leaves the resolver at
    the first test. *)
Lemma resolve_trade_day_unreadable (timestamp : Z) (e : exn) :
  get_pt_datetime timestamp = Raise e -> resolve_trade_day timestamp = Raise e.
Proof.
  intros H. unfold resolve_trade_day, is_saturday. rewrite H. reflexivity.
Qed.

Lemma add_days_next (days : Z) :
  Calendar.date_min <= days < Calendar.date_max ->
  Calendar.add_days days 1 = Ok (days + 1).
Proof.
  intros H. unfold Calendar.add_days.
  replace (Calendar.date_min <=? days + 1) with true by (symmetry; apply Z.leb_le; lia).
  replace (days + 1 <=? Calendar.date_max) with true by (symmetry; apply Z.leb_le; lia).
  reflexivity.
Qed.

Lemma add_days_overflow (days : Z) :
  Calendar.date_max <= days ->
  Calendar.add_days days 1 = Raise (OverflowError "date value out of range").
Proof.
  intros H. unfold Calendar.add_days.
  replace (days + 1 <=? Calendar.date_max) with false by (symmetry; apply Z.leb_gt; lia).
  rewrite andb_false_r. reflexivity.
Qed.

(** C1. On an instant that has a local reading, whose local weekday is not
    Saturday, the resolver goes by the local hour: from 15:00 to midnight
    the trade day is the local date plus one day, unless the local date is
    the last one, 9999-12-31, where the addition raises; before 14:00 it is
    the local date; and in the hour from 14:00 the result is the halt
    marker.  The trade day is the text [strftime] prints. *)
Theorem resolve_trade_day_by_hour (timestamp : Z) (dt : datetime) :
  get_pt_datetime timestamp = Ok dt ->
  Calendar.weekday (dt_date dt) <> 5 ->
  (15 <= dt_hour dt < 24 -> dt_date dt < Calendar.date_max ->
   resolve_trade_day timestamp = Ok (Some (strftime_Ymd (dt_date dt + 1))))
  /\ (15 <= dt_hour dt < 24 -> dt_date dt = Calendar.date_max ->
      resolve_trade_day timestamp = Raise (OverflowError "date value out of range"))
  /\ (0 <= dt_hour dt < 14 ->
      resolve_trade_day timestamp = Ok (Some (strftime_Ymd (dt_date dt))))
  /\ (14 <= dt_hour dt < 15 ->
      resolve_trade_day timestamp = Ok None).
Proof.
  intros Hdt Hday.
  rewrite (resolve_trade_day_of_reading timestamp dt Hdt).
  pose proof (date_range timestamp dt Hdt) as Hdate.
  replace (Calendar.weekday (dt_date dt) =? 5) with false
    by (symmetry; apply Z.eqb_neq; exact Hday).
  split; [|split; [|split]].
  - intros Hhour Hlast.
    replace (dt_hour dt =? 14) with false by (symmetry; apply Z.eqb_neq; lia).
    replace (15 <=? dt_hour dt) with true by (symmetry; apply Z.leb_le; lia).
    rewrite add_days_next by lia. reflexivity.
  - intros Hhour Hlast.
    replace (dt_hour dt =? 14) with false by (symmetry; apply Z.eqb_neq; lia).
    replace (15 <=? dt_hour dt) with true by (symmetry; apply Z.leb_le; lia).
    rewrite add_days_overflow by lia. reflexivity.
  - intros Hhour.
    replace (dt_hour dt =? 14) with false by (symmetry; apply Z.eqb_neq; lia).
    replace (15 <=? dt_hour dt) with false by (symmetry; apply Z.leb_gt; lia).
    reflexivity.
  - intros Hhour.
    replace (dt_hour dt =? 14) with true by (symmetry; apply Z.eqb_eq; lia).
    reflexivity.
Qed.

(** C5. On an instant whose local weekday is Saturday the resolver raises,
    whatever the hour: the weekday is looked at before the halt window. *)
Theorem resolve_trade_day_saturday (timestamp : Z) (dt : datetime) :
  get_pt_datetime timestamp = Ok dt ->
  Calendar.weekday (dt_date dt) = 5 ->
  resolve_trade_day timestamp = Raise (ValueError (saturday_message timestamp dt)).
Proof.
  intros Hdt Hday.
  rewrite (resolve_trade_day_of_reading timestamp dt Hdt), Hday. reflexivity.
Qed.

End ResolverFacts.

(** Sunday 2024-01-07 15:00:00 in the zone: the first hour of Monday's
    session. *)
Lemma resolve_trade_day_by_hour_witness :
  resolve_trade_day (RT := Demo.demo_runtime) 1704668400 = Ok (Some "2024-01-08").
Proof.
  refine (proj1 (resolve_trade_day_by_hour (RT := Demo.demo_runtime) 1704668400
                   (reading 1704668400 (-28800)) _ _) _ _).
  - vm_compute. reflexivity.
  - vm_compute. discriminate.
  - vm_compute. split; [discriminate | reflexivity].
  - vm_compute. reflexivity.
Defined.

(** Friday 9999-12-31 15:59:59 in the zone, the last instant that has a
    reading: the weekday is not Saturday, the hour is 15, and the next day is
    no date. *)
Lemma resolve_trade_day_last_day :
  exists dt,
    get_pt_datetime (RT := Demo.demo_runtime) 253402300799 = Ok dt
    /\ Calendar.weekday (dt_date dt) = 4
    /\ dt_hour dt = 15
    /\ Calendar.isoformat (dt_date dt) = "9999-12-31"
    /\ resolve_trade_day (RT := Demo.demo_runtime) 253402300799
       = Raise (OverflowError "date value out of range").
Proof.
  eexists. split; [vm_compute; reflexivity|].
  repeat split; vm_compute; reflexivity.
Qed.

(** Saturday 2024-01-13 14:30:00 in the zone, inside the halt window. *)
Lemma resolve_trade_day_saturday_witness :
  is_halt_period (RT := Demo.demo_runtime) 1705185000 = Ok true
  /\ resolve_trade_day (RT := Demo.demo_runtime) 1705185000 =
     Raise (ValueError
       "Saturday trading data is invalid per session calendar. Timestamp: 1705185000 (2024-01-13 14:30:00-08:00)").
Proof.
  split; [vm_compute; reflexivity|].
  refine (eq_trans (resolve_trade_day_saturday (RT := Demo.demo_runtime) 1705185000
                      (reading 1705185000 (-28800)) _ _) _).
  - vm_compute. reflexivity.
  - vm_compute. reflexivity.
  - vm_compute. reflexivity.
Defined.

(** The examples of the docstring of [resolve_trade_day] and of
    [test_trade_day_resolution]. *)
Example resolve_monday_1pm :
  resolve_trade_day (RT := Demo.demo_runtime) 1704747600 = Ok (Some "2024-01-08").
Proof. vm_compute. reflexivity. Qed.

Example resolve_monday_halt :
  resolve_trade_day (RT := Demo.demo_runtime) 1704753000 = Ok None.
Proof. vm_compute. reflexivity. Qed.

Example resolve_friday_1pm :
  resolve_trade_day (RT := Demo.demo_runtime) 1705093200 = Ok (Some "2024-01-12").
Proof. vm_compute. reflexivity. Qed.

Example resolve_saturday_noon :
  resolve_trade_day (RT := Demo.demo_runtime) 1705176000 =
  Raise (ValueError
    "Saturday trading data is invalid per session calendar. Timestamp: 1705176000 (2024-01-13 12:00:00-08:00)").
Proof. vm_compute. reflexivity. Qed.

(** The first second after [datetime.max] has no reading, and the resolver
    raises what [fromtimestamp] raises. *)
Example resolve_past_the_last_year :
  resolve_trade_day (RT := Demo.demo_runtime) 253402300800
  = Raise (ValueError "year 10000 is out of range").
Proof. vm_compute. reflexivity. Qed.

(** Before the year 1000 the text of the trade day is the C library's: an
    instant of the first day of the year 999, with the library of the demo
    runtime. *)
Example resolve_small_year :
  resolve_trade_day (RT := Demo.demo_runtime) (-30641716800)
  = Ok (Some "999-01-01").
Proof. vm_compute. reflexivity. Qed.

Example calendar_known_days :
  Calendar.civil_of_days 0 = (1970, 1, 1)
  /\ Calendar.civil_of_days 19782 = (2024, 2, 29)
  /\ Calendar.days_of_civil 2024 1 8 = 19730
  /\ Calendar.weekday 19730 = 0
  /\ Calendar.isoformat (-1) = "1969-12-31"
  /\ Calendar.days_of_civil 1 1 1 = Calendar.date_min
  /\ Calendar.days_of_civil 9999 12 31 = Calendar.date_max.
Proof. repeat split; vm_compute; reflexivity. Qed.

Example parse_iso_with_offset :
  parse_tradingview_timestamp (RT := Demo.demo_runtime) "2026-02-06T03:16:00-08:00"
  = Ok 1770376560.
Proof. vm_compute. reflexivity. Qed.

(** [int(dt.timestamp())] goes through a float: a whole second is kept, a
    reading one microsecond before a second is that second rounded up once
    the floats are more than two microseconds apart, and before 1970 the
    truncation is toward zero. *)
Example int_timestamp_known :
  int_timestamp 1704749400 0 = 1704749400
  /\ int_timestamp 1704749400 999999 = 1704749400
  /\ int_timestamp 17179869184 999999 = 17179869185
  /\ int_timestamp 17179869183 999999 = 17179869183
  /\ int_timestamp (-1) 500000 = 0.
Proof. repeat split; vm_compute; reflexivity. Qed.

(** ** Lists and the transaction monad *)

Lemma find_app_Some {A : Type} (f : A -> bool) (l k : list A) (x : A) :
  find f l = Some x -> find f (l ++ k) = Some x.
Proof.
  induction l as [|y l IH]; simpl; [discriminate|].
  destruct (f y); auto.
Qed.

Lemma find_app_None {A : Type} (f : A -> bool) (l k : list A) :
  find f l = None -> find f (l ++ k) = find f k.
Proof.
  induction l as [|y l IH]; simpl; [reflexivity|].
  destruct (f y); [discriminate | auto].
Qed.

Lemma find_None_forall {A : Type} (f : A -> bool) (l : list A) :
  find f l = None -> forall x, In x l -> f x = false.
Proof. intros H x Hx. exact (find_none f l H x Hx). Qed.

Lemma text_eq_eq (a b : string) : text_eq a b = true <-> a = b.
Proof. apply String.eqb_eq. Qed.

Lemma text_eq_refl (a : string) : text_eq a a = true.
Proof. apply String.eqb_refl. Qed.

Lemma next_rowid_above (ids : list Z) (i : Z) : In i ids -> i < next_rowid ids.
Proof.
  unfold next_rowid. induction ids as [|j ids IH]; simpl; [tauto|].
  intros [->|Hi]; [lia|]. specialize (IH Hi). lia.
Qed.

Lemma next_rowid_fresh (ids : list Z) : ~ In (next_rowid ids) ids.
Proof. intros H. apply next_rowid_above in H. lia. Qed.

Lemma next_rowid_positive (ids : list Z) : 0 < next_rowid ids.
Proof.
  unfold next_rowid.
  assert (0 <= foldr Z.max 0 ids) by (induction ids; simpl; lia). lia.
Qed.

(** ** Session directory *)

Lemma trade_day_key_matches_iff (symbol session_date source : string) (td : trade_day_row) :
  trade_day_key_matches symbol session_date source td = true
  <-> session_key td = (symbol, session_date, source).
Proof.
  unfold trade_day_key_matches, session_key.
  rewrite !andb_true_iff, !text_eq_eq. split.
  - intros [[-> ->] ->]. reflexivity.
  - intros [= -> -> ->]. auto.
Qed.

(** The two ways through [get_or_create_trade_day]. *)
Lemma get_or_create_trade_day_cases (symbol session_date source : string) (db : database) :
  (exists td,
      find (trade_day_key_matches symbol session_date source) (trade_days db) = Some td
      /\ get_or_create_trade_day symbol session_date source db = (Ok (td_id td), db))
  \/ (find (trade_day_key_matches symbol session_date source) (trade_days db) = None
      /\ get_or_create_trade_day symbol session_date source db
         = (Ok (td_id (appended_session symbol session_date source db)),
            with_session db (appended_session symbol session_date source db))).
Proof.
  unfold get_or_create_trade_day, select_trade_day_id. txn_unfold.
  destruct (find _ (trade_days db)) as [td|] eqn:E; simpl.
  - left. exists td. auto.
  - right. split; reflexivity.
Qed.

Lemma get_or_create_trade_day_found (symbol session_date source : string)
    (db : database) (td : trade_day_row) :
  find (trade_day_key_matches symbol session_date source) (trade_days db) = Some td ->
  get_or_create_trade_day symbol session_date source db = (Ok (td_id td), db).
Proof.
  intros E. unfold get_or_create_trade_day, select_trade_day_id. txn_unfold.
  rewrite E. reflexivity.
Qed.

Lemma appended_session_matches (symbol session_date source : string) (db : database) :
  trade_day_key_matches symbol session_date source
    (appended_session symbol session_date source db) = true.
Proof. apply trade_day_key_matches_iff. reflexivity. Qed.

(** What one call does to the table and what it returns. *)
Lemma get_or_create_trade_day_effect (symbol session_date source : string) (db : database) :
  exists id db1,
    get_or_create_trade_day symbol session_date source db = (Ok id, db1)
    /\ trade_days db `prefix_of` trade_days db1
    /\ bars db1 = bars db
    /\ day_annotations db1 = day_annotations db
    /\ (unique_sessions db -> unique_sessions db1)
    /\ (unique_session_ids db -> unique_session_ids db1)
    /\ (exists td, In td (trade_days db1) /\ td_id td = id
                   /\ session_key td = (symbol, session_date, source))
    /\ (forall i, In i (map td_id (trade_days db1)) ->
                  In i (map td_id (trade_days db)) \/ i = id).
Proof.
  destruct (get_or_create_trade_day_cases symbol session_date source db)
    as [(td & Hfind & ->)|(Hfind & ->)].
  - exists (td_id td), db. repeat split; auto.
    exists td. apply find_some in Hfind as [Hin Hkey].
    apply trade_day_key_matches_iff in Hkey. auto.
  - eexists _, _. split; [reflexivity|].
    unfold with_session, unique_sessions, unique_session_ids; simpl.
    repeat split.
    + apply prefix_app_r. reflexivity.
    + intros Hu. rewrite map_app. simpl. apply NoDup_app. repeat split.
      * exact Hu.
      * intros k Hk Hk'. apply list_elem_of_In in Hk, Hk'.
        destruct Hk' as [<-|[]]. apply in_map_iff in Hk as (td & Hkey & Hin).
        pose proof (find_None_forall _ _ Hfind td Hin) as Hno.
        apply trade_day_key_matches_iff in Hkey. simpl in Hkey. congruence.
      * apply NoDup_singleton.
    + intros Hu. rewrite map_app. simpl. apply NoDup_app. repeat split.
      * exact Hu.
      * intros k Hk Hk'. apply list_elem_of_In in Hk, Hk'.
        destruct Hk' as [<-|[]]. exact (next_rowid_fresh _ Hk).
      * apply NoDup_singleton.
    + exists (appended_session symbol session_date source db). repeat split.
      apply in_or_app. right. left. reflexivity.
    + intros i Hi. rewrite map_app in Hi. apply in_app_or in Hi as [Hi|[<-|[]]]; auto.
Qed.

(** A later state of the table gives the same answer: rows are only ever
    appended, and the lookup returns the first match. *)
Lemma get_or_create_trade_day_stable (symbol session_date source : string)
    (db db1 dbX : database) (id : Z) :
  get_or_create_trade_day symbol session_date source db = (Ok id, db1) ->
  trade_days db1 `prefix_of` trade_days dbX ->
  get_or_create_trade_day symbol session_date source dbX = (Ok id, dbX).
Proof.
  intros Hrun [k Hk].
  destruct (get_or_create_trade_day_cases symbol session_date source db)
    as [(td & Hfind & Heq)|(Hfind & Heq)];
    rewrite Heq in Hrun; injection Hrun as <- <-.
  - apply get_or_create_trade_day_found. rewrite Hk. apply find_app_Some. exact Hfind.
  - apply (get_or_create_trade_day_found symbol session_date source dbX
             (appended_session symbol session_date source db)).
    rewrite Hk. simpl. rewrite <- app_assoc. rewrite find_app_None by exact Hfind.
    simpl. rewrite appended_session_matches. reflexivity.
Qed.

Lemma sessions_kept_refl (db : database) : sessions_kept db db.
Proof. unfold sessions_kept. auto. Qed.

Lemma sessions_kept_trans (db1 db2 db3 : database) :
  sessions_kept db1 db2 -> sessions_kept db2 db3 -> sessions_kept db1 db3.
Proof.
  intros (P1 & U1 & I1) (P2 & U2 & I2).
  split; [etrans; eassumption|]. split; auto.
Qed.

Lemma sessions_kept_same_table (db db' : database) :
  trade_days db' = trade_days db -> sessions_kept db db'.
Proof.
  intros E. unfold sessions_kept, unique_sessions, unique_session_ids.
  rewrite E. auto.
Qed.

Lemma get_or_create_trade_day_kept (symbol session_date source : string)
    (db db1 : database) (r : result Z) :
  get_or_create_trade_day symbol session_date source db = (r, db1) ->
  sessions_kept db db1 /\ bars db1 = bars db /\ day_annotations db1 = day_annotations db.
Proof.
  intros Hrun.
  destruct (get_or_create_trade_day_effect symbol session_date source db)
    as (id & db1' & Heq & Hp & Hb & Ha & Hu & Hi & _).
  rewrite Heq in Hrun. injection Hrun as <- <-.
  unfold sessions_kept. auto.
Qed.

Lemma ingest_grows_refl (db : database) : ingest_grows db db.
Proof.
  split; [apply sessions_kept_refl|]. split; [reflexivity|]. split; [reflexivity|auto].
Qed.

Lemma ingest_grows_trans (db1 db2 db3 : database) :
  ingest_grows db1 db2 -> ingest_grows db2 db3 -> ingest_grows db1 db3.
Proof.
  intros (S1 & B1 & A1 & U1) (S2 & B2 & A2 & U2). split; [|split; [|split]].
  - eapply sessions_kept_trans; eassumption.
  - etrans; eassumption.
  - congruence.
  - auto.
Qed.

Lemma insert_or_classify_grows (file_path : string) (trade_day_id : option Z)
    (timestamp : Z) (new : price_fields float) (halt_period : Z)
    (raw_json : raw_payload) (stats : ingest_stats) (db db' : database)
    (r : result ingest_stats) :
  insert_or_classify file_path trade_day_id timestamp new halt_period raw_json stats db
  = (r, db') ->
  ingest_grows db db'.
Proof.
  unfold insert_or_classify, insert_bar. txn_unfold.
  destruct (select_existing_bar trade_day_id timestamp db) as [e|].
  - destruct (ohlcv_matches (stored_prices e) new) as [[|]|err];
      intros [= <- <-]; apply ingest_grows_refl.
  - intros [= <- <-]. split; [|split; [|split]]; simpl.
    + apply sessions_kept_same_table. reflexivity.
    + apply prefix_app_r. reflexivity.
    + reflexivity.
    + unfold unique_bar_ids. simpl. intros Hu. rewrite map_app. simpl.
      apply NoDup_app. split; [exact Hu|]. split; [|apply NoDup_singleton].
      intros k Hk Hk'. apply list_elem_of_In in Hk, Hk'.
      destruct Hk' as [<-|[]]. exact (next_rowid_fresh _ Hk).
Qed.

Lemma insert_or_classify_halt_flag (file_path : string) (trade_day_id : option Z)
    (timestamp : Z) (new : price_fields float) (halt_period : Z)
    (raw_json : raw_payload) (stats : ingest_stats) (db db' : database)
    (r : result ingest_stats) :
  (halt_period = 1 <-> trade_day_id = None) ->
  insert_or_classify file_path trade_day_id timestamp new halt_period raw_json stats db
  = (r, db') ->
  halt_bars_unassigned db -> halt_bars_unassigned db'.
Proof.
  intros Hflag. unfold insert_or_classify, insert_bar. txn_unfold.
  destruct (select_existing_bar trade_day_id timestamp db) as [e|].
  - destruct (ohlcv_matches (stored_prices e) new) as [[|]|err];
      intros [= <- <-]; auto.
  - intros [= <- <-]. unfold halt_bars_unassigned. simpl. intros Hall.
    apply Forall_app. split; [exact Hall|]. constructor; [|constructor].
    exact Hflag.
Qed.

Section IngestionFacts.

Context `{RT : runtime}.

Lemma store_row_halt_flag (file_path symbol source : string) (row : csv_row)
    (p : parsed_row) (stats : ingest_stats) (db db' : database)
    (r : result ingest_stats) :
  store_row file_path symbol source row p stats db = (r, db') ->
  halt_bars_unassigned db -> halt_bars_unassigned db'.
Proof.
  unfold store_row, session_reference. destruct (pr_session_date p) as [d|].
  - unfold tbind at 1 2. unfold tret at 1.
    destruct (get_or_create_trade_day symbol d source db) as [[id|e] db1] eqn:Hg.
    + intros Hrun Hall. apply get_or_create_trade_day_kept in Hg as (_ & B & _).
      eapply insert_or_classify_halt_flag; [|exact Hrun|].
      * split; discriminate.
      * unfold halt_bars_unassigned. rewrite B. exact Hall.
    + intros [= <- <-] Hall. apply get_or_create_trade_day_kept in Hg as (_ & B & _).
      unfold halt_bars_unassigned. rewrite B. exact Hall.
  - unfold tbind at 1. unfold tret at 1. intros Hrun.
    eapply insert_or_classify_halt_flag; [|exact Hrun]. split; reflexivity.
Qed.

Lemma ingest_rows_halt_flag (file_path symbol source : string) (rows : list csv_row)
    (stats : ingest_stats) (db db' : database) (r : result ingest_stats) :
  ingest_rows file_path symbol source rows stats db = (r, db') ->
  halt_bars_unassigned db -> halt_bars_unassigned db'.
Proof.
  revert stats db. induction rows as [|row rows IH]; intros stats db; cbn [ingest_rows].
  - unfold tret. intros [= <- <-]. auto.
  - unfold tbind at 1, ingest_row, lift. unfold tbind at 1.
    destruct (read_row file_path source row) as [p|e].
    + destruct (store_row file_path symbol source row p stats db) as [[stats'|e] db1] eqn:Hrow.
      * intros Hrest Hall. eapply IH; [exact Hrest|].
        eapply store_row_halt_flag; eassumption.
      * intros [= <- <-]. eapply store_row_halt_flag; eassumption.
    + intros [= <- <-]. auto.
Qed.

(** Ingestion keeps the halt flag and the NULL session together, so the
    halt-period bars it stores are the bars without a session. *)
Lemma ingest_csv_halt_flag (file_path : string) (rows : list csv_row)
    (symbol timeframe source : string) (db : database) :
  halt_bars_unassigned db ->
  halt_bars_unassigned (ingest_csv file_path rows symbol timeframe source db).2.
Proof.
  unfold ingest_csv, connect, commit, close, with_working; simpl.
  destruct (ingest_rows file_path symbol source rows empty_stats db) as [[stats|e] view] eqn:Hrun;
    simpl; [|auto].
  eapply ingest_rows_halt_flag; eassumption.
Qed.

Lemma store_row_grows (file_path symbol source : string) (row : csv_row)
    (p : parsed_row) (stats : ingest_stats) (db db' : database)
    (r : result ingest_stats) :
  store_row file_path symbol source row p stats db = (r, db') ->
  ingest_grows db db'.
Proof.
  unfold store_row, session_reference. destruct (pr_session_date p) as [d|].
  - unfold tbind at 1 2. unfold tret at 1.
    destruct (get_or_create_trade_day symbol d source db) as [[id|e] db1] eqn:Hg.
    + intros Hrun. apply insert_or_classify_grows in Hrun.
      apply get_or_create_trade_day_kept in Hg as (S & B & A).
      eapply ingest_grows_trans; [|exact Hrun].
      split; [exact S|]. split; [rewrite B; reflexivity |]. split; [exact A|].
      unfold unique_bar_ids. rewrite B. auto.
    + intros [= <- <-]. apply get_or_create_trade_day_kept in Hg as (S & B & A).
      split; [exact S|]. split; [rewrite B; reflexivity |]. split; [exact A|].
      unfold unique_bar_ids. rewrite B. auto.
  - unfold tbind at 1. unfold tret at 1.
    apply insert_or_classify_grows.
Qed.

Lemma ingest_row_grows (file_path symbol source : string) (row : csv_row)
    (stats : ingest_stats) (db db' : database) (r : result ingest_stats) :
  ingest_row file_path symbol source row stats db = (r, db') ->
  ingest_grows db db'.
Proof.
  unfold ingest_row, tbind at 1, lift.
  destruct (read_row file_path source row) as [p|e].
  - apply store_row_grows.
  - intros [= <- <-]. apply ingest_grows_refl.
Qed.

Lemma ingest_rows_grows (file_path symbol source : string) (rows : list csv_row)
    (stats : ingest_stats) (db db' : database) (r : result ingest_stats) :
  ingest_rows file_path symbol source rows stats db = (r, db') ->
  ingest_grows db db'.
Proof.
  revert stats db. induction rows as [|row rows IH]; intros stats db; simpl.
  - unfold tret. intros [= <- <-]. apply ingest_grows_refl.
  - unfold tbind at 1.
    destruct (ingest_row file_path symbol source row stats db) as [[stats'|e] db1] eqn:Hrow.
    + intros Hrest. apply ingest_row_grows in Hrow. apply IH in Hrest.
      eapply ingest_grows_trans; eassumption.
    + intros [= <- <-]. eapply ingest_row_grows; eassumption.
Qed.

Lemma ingest_csv_grows (file_path : string) (rows : list csv_row)
    (symbol timeframe source : string) (db : database) :
  ingest_grows db (ingest_csv file_path rows symbol timeframe source db).2.
Proof.
  unfold ingest_csv, connect, commit, close, with_working; simpl.
  destruct (ingest_rows file_path symbol source rows empty_stats db) as [[stats|e] view] eqn:Hrun;
    simpl.
  - eapply ingest_rows_grows; eassumption.
  - apply ingest_grows_refl.
Qed.

End IngestionFacts.

(** What [save_day_annotation] returns and the database it commits. *)
Lemma save_day_annotation_effect (symbol session_date content annotation_type : string)
    (tags : option (list string)) (source : string) (supersedes_id : option Z)
    (now : Z) (db : database) :
  exists trade_day_id db1,
    get_or_create_trade_day symbol session_date "tradingview" db = (Ok trade_day_id, db1)
    /\ save_day_annotation symbol session_date content annotation_type tags source
         supersedes_id now db
       = (Ok (next_rowid (map da_id (day_annotations db))),
          {| trade_days := trade_days db1;
             bars := bars db;
             day_annotations :=
               let inserted_rows :=
                 day_annotations db ++
                 [ new_annotation db trade_day_id annotation_type content tags source
                     supersedes_id now ] in
               match truthy_id supersedes_id with
               | Some old => map (supersede old) inserted_rows
               | None => inserted_rows
               end |}).
Proof.
  destruct (get_or_create_trade_day_effect symbol session_date "tradingview" db)
    as (id & db1 & Heq & _ & Hb & Ha & _).
  exists id, db1. split; [exact Heq|].
  unfold save_day_annotation, save_day_annotation_txn, connect, commit, close, with_working.
  cbn [working persisted]. unfold tbind at 1. rewrite Heq.
  unfold tbind, insert_annotation, mark_superseded, tret, new_annotation. rewrite Ha, Hb.
  destruct (truthy_id supersedes_id); reflexivity.
Qed.

Lemma save_day_annotation_kept (symbol session_date content annotation_type : string)
    (tags : option (list string)) (source : string) (supersedes_id : option Z)
    (now : Z) (db : database) :
  sessions_kept db
    (save_day_annotation symbol session_date content annotation_type tags source
       supersedes_id now db).2.
Proof.
  destruct (save_day_annotation_effect symbol session_date content annotation_type
              tags source supersedes_id now db) as (id & db1 & Hg & ->).
  apply get_or_create_trade_day_kept in Hg as ((P & U & I) & _).
  unfold sessions_kept, unique_sessions, unique_session_ids in *. simpl. auto.
Qed.

(** ** The constraints of the schema are kept *)

Lemma empty_database_consistent : consistent empty_database.
Proof.
  unfold consistent, unique_session_ids, unique_sessions, unique_bar_ids,
    annotations_reference_sessions. simpl.
  repeat split; constructor.
Qed.

Lemma references_kept (db db' : database) :
  trade_days db `prefix_of` trade_days db' ->
  day_annotations db' = day_annotations db ->
  annotations_reference_sessions db -> annotations_reference_sessions db'.
Proof.
  unfold annotations_reference_sessions. intros [k Hk] ->. rewrite Hk, map_app.
  apply List.Forall_impl. intros a Ha. apply in_or_app. left. exact Ha.
Qed.

Lemma ingest_grows_consistent (db db' : database) :
  ingest_grows db db' -> consistent db -> consistent db'.
Proof.
  intros ((P & U & I) & _ & A & B) (Hi & Hu & Hb & Hr).
  unfold consistent. eauto 10 using references_kept.
Qed.

Lemma ingest_csv_consistent `{RT : runtime} (file_path : string) (rows : list csv_row)
    (symbol timeframe source : string) (db : database) :
  consistent db ->
  consistent (ingest_csv file_path rows symbol timeframe source db).2.
Proof. apply ingest_grows_consistent, ingest_csv_grows. Qed.

Lemma save_day_annotation_consistent
    (symbol session_date content annotation_type : string)
    (tags : option (list string)) (source : string) (supersedes_id : option Z)
    (now : Z) (db : database) :
  consistent db ->
  consistent (save_day_annotation symbol session_date content annotation_type tags
                source supersedes_id now db).2.
Proof.
  intros (Hi & Hu & Hb & Hr).
  destruct (save_day_annotation_effect symbol session_date content annotation_type
              tags source supersedes_id now db) as (tid & db1 & Hg & ->).
  destruct (get_or_create_trade_day_effect symbol session_date "tradingview" db)
    as (tid' & db1' & Hg' & [k Hk] & _ & _ & Hu1 & Hi1 & (td & Htd & Htid & _) & _).
  rewrite Hg in Hg'. injection Hg' as <- <-.
  unfold consistent, unique_session_ids, unique_sessions, unique_bar_ids,
    annotations_reference_sessions in *. cbn [snd trade_days bars day_annotations].
  split; [auto|]. split; [auto|]. split; [exact Hb|].
  assert (Hall : Forall (fun a => In (da_trade_day_id a) (map td_id (trade_days db1)))
                   (day_annotations db ++
                    [new_annotation db tid annotation_type content tags source
                       supersedes_id now])).
  { apply Forall_app. split.
    - rewrite Hk, map_app. revert Hr. apply List.Forall_impl.
      intros a Ha. apply in_or_app. left. exact Ha.
    - constructor; [|constructor]. simpl. rewrite <- Htid. apply in_map. exact Htd. }
  destruct (truthy_id supersedes_id) as [old|]; [|exact Hall].
  rewrite List.Forall_forall in Hall |- *. intros a Ha.
  apply in_map_iff in Ha as (a0 & <- & Ha0).
  replace (da_trade_day_id (supersede old a0)) with (da_trade_day_id a0)
    by (unfold supersede; destruct (da_id a0 =? old); reflexivity).
  apply Hall. exact Ha0.
Qed.

(** C8. [get_or_create_trade_day] always returns; a second call with the same
    key returns the same id and changes nothing; and whatever the module does
    to a database (the call itself, an ingestion, the saving of an
    annotation), the sessions stored before are still there, unchanged and in
    place, and no two sessions share a key if none did before. *)
Theorem get_or_create_trade_day_idempotent_unique
    (symbol session_date source : string) (db : database) :
  exists id db1,
    get_or_create_trade_day symbol session_date source db = (Ok id, db1)
    /\ get_or_create_trade_day symbol session_date source db1 = (Ok id, db1)
    /\ (exists td, In td (trade_days db1) /\ td_id td = id
                   /\ session_key td = (symbol, session_date, source))
    /\ sessions_kept db db1
    /\ (forall (RT : runtime) (file_path : string) (rows : list csv_row)
               (sym timeframe src : string),
           sessions_kept db (ingest_csv file_path rows sym timeframe src db).2)
    /\ (forall (sym date content annotation_type : string)
               (tags : option (list string)) (src : string) (supersedes_id : option Z)
               (now : Z),
           sessions_kept db
             (save_day_annotation sym date content annotation_type tags src
                supersedes_id now db).2).
Proof.
  destruct (get_or_create_trade_day_effect symbol session_date source db)
    as (id & db1 & Heq & Hp & Hb & Ha & Hu & Hi & Htd & _).
  exists id, db1.
  split; [exact Heq|]. split; [|split; [exact Htd|]; split; [|split]].
  - eapply get_or_create_trade_day_stable; [exact Heq | reflexivity].
  - unfold sessions_kept. auto.
  - intros RT file_path rows sym timeframe src.
    apply (ingest_csv_grows file_path rows sym timeframe src db).
  - intros sym date content annotation_type tags src supersedes_id now.
    apply save_day_annotation_kept.
Qed.

(** ** Bar store *)

Lemma ohlcv_matches_numbers (e : bar_row) (stored new : price_fields float) :
  stored_numbers e stored ->
  ohlcv_matches (stored_prices e) new = Ok (all_within stored new).
Proof.
  unfold stored_numbers. intros ->.
  unfold ohlcv_matches, all_within, py_and, within_tolerance, rbind; simpl.
  destruct (field_within (px_open stored) (px_open new)); [|reflexivity].
  destruct (field_within (px_high stored) (px_high new)); [|reflexivity].
  destruct (field_within (px_low stored) (px_low new)); [|reflexivity].
  destruct (field_within (px_close stored) (px_close new)); reflexivity.
Qed.

Lemma insert_or_classify_found (file_path : string) (trade_day_id : option Z)
    (timestamp : Z) (new : price_fields float) (halt_period : Z)
    (raw_json : raw_payload) (stats : ingest_stats) (db : database)
    (e : bar_row) (stored : price_fields float) :
  select_existing_bar trade_day_id timestamp db = Some e ->
  stored_numbers e stored ->
  insert_or_classify file_path trade_day_id timestamp new halt_period raw_json stats db
  = (Ok (if all_within stored new
         then {| inserted := inserted stats;
                 skipped := skipped stats + 1;
                 conflicts := conflicts stats;
                 conflict_details := conflict_details stats |}
         else {| inserted := inserted stats;
                 skipped := skipped stats;
                 conflicts := conflicts stats + 1;
                 conflict_details :=
                   conflict_details stats ++
                   [ {| cd_timestamp := timestamp;
                        cd_reason := "OHLCV mismatch";
                        cd_file := file_path;
                        cd_existing := stored_prices e;
                        cd_new := new |} ] |}), db).
Proof.
  intros Hfound Hnum.
  unfold insert_or_classify. txn_unfold. rewrite Hfound.
  rewrite (ohlcv_matches_numbers e stored new Hnum).
  destruct (all_within stored new); reflexivity.
Qed.




(** The lookup key: a session bar is found under its session and timestamp,
    a halt bar under its timestamp among the halt bars. *)
Lemma select_existing_bar_key (trade_day_id : option Z) (timestamp : Z)
    (db : database) (e : bar_row) :
  select_existing_bar trade_day_id timestamp db = Some e ->
  In e (bars db) /\ bar_timestamp e = timestamp
  /\ match trade_day_id with
     | Some t => bar_trade_day_id e = Some t
     | None => bar_halt_period e = 1
     end.
Proof.
  unfold select_existing_bar, select_session_bar, select_halt_bar.
  destruct trade_day_id as [t|]; intros H; apply find_some in H as [Hin Hp].
  - destruct (bar_trade_day_id e) as [t'|]; [|discriminate].
    apply andb_true_iff in Hp as [Ht Hts].
    apply Z.eqb_eq in Ht, Hts. subst. auto.
  - apply andb_true_iff in Hp as [Hts Hh].
    apply Z.eqb_eq in Hts, Hh. auto.
Qed.

(** The same in the loop body: a record that reads, whose bar is found
    stored, adds no bar. *)
Lemma ingest_row_on_stored_bar `{RT : runtime} (file_path symbol source : string)
    (row : csv_row) (stats : ingest_stats) (db db1 : database) (p : parsed_row)
    (trade_day_id : option Z) (e : bar_row) (stored : price_fields float) :
  read_row file_path source row = Ok p ->
  session_reference symbol source (pr_session_date p) db = (Ok trade_day_id, db1) ->
  select_existing_bar trade_day_id (pr_timestamp p) db1 = Some e ->
  stored_numbers e stored ->
  bars db1 = bars db
  /\ ingest_row file_path symbol source row stats db
     = (Ok (if all_within stored (pr_prices p)
            then {| inserted := inserted stats;
                    skipped := skipped stats + 1;
                    conflicts := conflicts stats;
                    conflict_details := conflict_details stats |}
            else {| inserted := inserted stats;
                    skipped := skipped stats;
                    conflicts := conflicts stats + 1;
                    conflict_details :=
                      conflict_details stats ++
                      [ {| cd_timestamp := pr_timestamp p;
                           cd_reason := "OHLCV mismatch";
                           cd_file := file_path;
                           cd_existing := stored_prices e;
                           cd_new := pr_prices p |} ] |}), db1).
Proof.
  intros Hread Hsess Hsel Hnum. split.
  - unfold session_reference in Hsess. destruct (pr_session_date p) as [d|].
    + unfold tbind, tret in Hsess.
      destruct (get_or_create_trade_day symbol d source db) as [[id|err] db2] eqn:Hg;
        injection Hsess as <- <- || discriminate Hsess.
      apply get_or_create_trade_day_kept in Hg as (_ & Hb & _). exact Hb.
    + unfold tret in Hsess. injection Hsess as <- <-. reflexivity.
  - unfold ingest_row, lift. unfold tbind at 1. rewrite Hread.
    unfold store_row. unfold tbind at 1. rewrite Hsess.
    apply insert_or_classify_found; assumption.
Qed.

(** ** Queries *)

Lemma NoDup_map_eq {A B : Type} (f : A -> B) (l : list A) (x y : A) :
  NoDup (map f l) -> In x l -> In y l -> f x = f y -> x = y.
Proof.
  induction l as [|z l IH]; simpl; [tauto|].
  intros Hnd Hx Hy Hf. apply NoDup_cons in Hnd as [Hz Hnd].
  rewrite list_elem_of_In in Hz.
  destruct Hx as [->|Hx], Hy as [->|Hy]; auto.
  - exfalso. apply Hz. rewrite Hf. apply in_map. exact Hy.
  - exfalso. apply Hz. rewrite <- Hf. apply in_map. exact Hx.
Qed.

Lemma In_insert_sorted {A : Type} (le : A -> A -> bool) (x y : A) (l : list A) :
  In y (insert_sorted le x l) <-> y = x \/ In y l.
Proof.
  induction l as [|z l IH]; simpl.
  - intuition auto.
  - destruct (le x z); simpl; rewrite ?IH; intuition auto.
Qed.

Lemma In_order_by {A : Type} (le : A -> A -> bool) (y : A) (l : list A) :
  In y (order_by le l) <-> In y l.
Proof.
  unfold order_by. induction l as [|x l IH]; simpl; [tauto|].
  rewrite In_insert_sorted, IH. intuition auto.
Qed.

Lemma order_by_singleton {A : Type} (le : A -> A -> bool) (x : A) :
  order_by le [x] = [x].
Proof. reflexivity. Qed.



Lemma tag_in_iff (tag : string) (row_tags : list string) :
  tag_in tag row_tags = true <-> In tag row_tags.
Proof.
  unfold tag_in. rewrite existsb_exists. split.
  - intros (t & Hin & Heq). apply String.eqb_eq in Heq. subst. exact Hin.
  - intros Hin. exists tag. split; [exact Hin | apply String.eqb_refl].
Qed.

Lemma any_tag_matches_iff (tags row_tags : list string) :
  any_tag_matches tags row_tags = true
  <-> exists tag, In tag tags /\ In tag row_tags.
Proof.
  unfold any_tag_matches. rewrite existsb_exists.
  split; intros (t & Hin & H); exists t; split; auto; apply tag_in_iff; exact H.
Qed.

(** The rows of the join: an annotation beside the session it refers to. *)
Lemma annotations_join_In (db : database) (a : annotation_row) (td : trade_day_row) :
  In (a, td) (annotations_join db)
  <-> In a (day_annotations db) /\ In td (trade_days db) /\ da_trade_day_id a = td_id td.
Proof.
  unfold annotations_join. rewrite in_flat_map. split.
  - intros (a' & Ha & Hin). apply in_map_iff in Hin as (td' & Heq & Htd).
    injection Heq as <- <-.
    apply filter_In in Htd as [Htd Hid]. apply Z.eqb_eq in Hid. auto.
  - intros (Ha & Htd & Hid). exists a. split; [exact Ha|].
    apply in_map_iff. exists td. split; [reflexivity|].
    apply filter_In. split; [exact Htd | apply Z.eqb_eq; exact Hid].
Qed.

(** C9. A stored annotation that the other conditions of the query let
    through (its session is of the symbol and in the date range, its status
    and its type are the ones asked for) is returned under a non-empty list
    of requested tags exactly when it holds at least one of them.  So the
    result under the tag filter is the result without it, restricted to the
    annotations that hold at least one requested tag; an annotation tagged
    momentum and trend_day passes the filter trend_day, reversal, of which
    it holds only one. *)
Theorem get_day_annotations_tag_filter_any (symbol start_date end_date : string)
    (tag : string) (more_tags : list string) (status : string)
    (annotation_type : option string) (db : database)
    (a : annotation_row) (td : trade_day_row) :
  In a (day_annotations db) ->
  In td (trade_days db) ->
  da_trade_day_id a = td_id td ->
  td_symbol td = symbol ->
  text_le start_date (td_session_date td) = true ->
  text_le (td_session_date td) end_date = true ->
  status = "all" \/ da_status a = status ->
  (forall ty, given annotation_type = Some ty -> da_annotation_type a = ty) ->
  (In (annotation_view_of (a, td))
      (get_day_annotations symbol start_date end_date (Some (tag :: more_tags))
         status annotation_type db)
   <-> exists t, In t (tag :: more_tags) /\ In t (da_tags a))
  /\ (forall v,
        In v (get_day_annotations symbol start_date end_date (Some (tag :: more_tags))
                status annotation_type db)
        <-> In v (get_day_annotations symbol start_date end_date None
                    status annotation_type db)
            /\ exists t, In t (tag :: more_tags) /\ In t (av_tags v))
  /\ passes_tag_filter (Some ["trend_day"; "reversal"]) ["momentum"; "trend_day"] = true
  /\ tag_in "reversal" ["momentum"; "trend_day"] = false.
Proof.
  intros Ha Htd Hid Hsym Hstart Hend Hstatus Htype.
  assert (Hrel : forall v,
             In v (get_day_annotations symbol start_date end_date (Some (tag :: more_tags))
                     status annotation_type db)
             <-> In v (get_day_annotations symbol start_date end_date None
                         status annotation_type db)
                 /\ exists t, In t (tag :: more_tags) /\ In t (av_tags v)).
  { intros v. unfold get_day_annotations.
    set (rows := order_by annotation_order _).
    rewrite !in_map_iff. split.
    - intros ([a' td'] & <- & Hin). apply filter_In in Hin as [Hin Hpass].
      split.
      + exists (a', td'). split; [reflexivity|]. apply filter_In. auto.
      + apply any_tag_matches_iff in Hpass. exact Hpass.
    - intros [([a' td'] & <- & Hin) Htag]. apply filter_In in Hin as [Hin _].
      exists (a', td'). split; [reflexivity|]. apply filter_In. split; [exact Hin|].
      apply any_tag_matches_iff. exact Htag. }
  assert (Hplain : In (annotation_view_of (a, td))
                     (get_day_annotations symbol start_date end_date None
                        status annotation_type db)).
  { unfold get_day_annotations. apply in_map_iff. exists (a, td).
    split; [reflexivity|]. apply filter_In. split; [|reflexivity].
    apply In_order_by. apply filter_In. split.
    - apply annotations_join_In. auto.
    - unfold get_day_annotations_where.
      rewrite Hstart, Hend. rewrite (proj2 (text_eq_eq _ _) Hsym). cbn [andb].
      apply andb_true_iff. split.
      + destruct (String.eqb status "all") eqn:Eall; [reflexivity|].
        destruct Hstatus as [Hall | Hsame].
        * rewrite Hall in Eall. discriminate.
        * rewrite Hsame. apply text_eq_refl.
      + destruct (given annotation_type) as [ty|]; [|reflexivity].
        rewrite (Htype ty eq_refl). apply text_eq_refl. }
  split; [|split; [exact Hrel | split; reflexivity]].
  rewrite Hrel. cbn [annotation_view_of av_tags]. tauto.
Qed.

(** ** Annotations and their session *)

(** C10. The annotation that [save_day_annotation] inserts carries the source
    given for it, and the session it is attached to is the one keyed by the
    symbol, the date and the source "tradingview", whatever the annotation's
    own source: no other session has the id the annotation refers to. *)
Theorem save_day_annotation_session_is_tradingview
    (symbol session_date content annotation_type : string)
    (tags : option (list string)) (source : string) (supersedes_id : option Z)
    (now : Z) (db : database) :
  unique_session_ids db ->
  exists id db' a td,
    save_day_annotation symbol session_date content annotation_type tags source
      supersedes_id now db = (Ok id, db')
    /\ In a (day_annotations db') /\ da_id a = id /\ da_source a = source
    /\ In td (trade_days db') /\ td_id td = da_trade_day_id a
    /\ session_key td = (symbol, session_date, "tradingview")
    /\ forall td', In td' (trade_days db') -> td_id td' = da_trade_day_id a -> td' = td.
Proof.
  intros Hids.
  destruct (save_day_annotation_effect symbol session_date content annotation_type
              tags source supersedes_id now db) as (tid & db1 & Hg & Hsave).
  destruct (get_or_create_trade_day_effect symbol session_date "tradingview" db)
    as (tid' & db1' & Hg' & _ & _ & _ & _ & Hids1 & (td & Htd & Htid & Hkey) & _).
  rewrite Hg in Hg'. injection Hg' as <- <-. specialize (Hids1 Hids).
  set (new_row := new_annotation db tid annotation_type content tags source
                    supersedes_id now) in *.
  assert (Hunique : forall td', In td' (trade_days db1) -> td_id td' = tid -> td' = td).
  { intros td' Hin Hid. eapply NoDup_map_eq; [exact Hids1 | exact Hin | exact Htd | congruence]. }
  destruct (truthy_id supersedes_id) as [old|] eqn:Hold.
  - do 2 eexists.
    exists (supersede old new_row), td.
    split; [exact Hsave|]. cbn [day_annotations trade_days].
    split.
    { apply (in_map (supersede old)). apply in_or_app. right. left. reflexivity. }
    unfold supersede. destruct (da_id new_row =? old); simpl; auto 10.
  - do 2 eexists. exists new_row, td.
    split; [exact Hsave|]. cbn [day_annotations trade_days].
    split; [apply in_or_app; right; left; reflexivity|]. simpl. auto 10.
Qed.

(** ** All-or-nothing ingestion *)

Section BatchFacts.

Context `{RT : runtime}.







End BatchFacts.

(** ** Ingesting a batch again *)

(** Binary64 facts, from the specification of the primitive operations: a
    finite number is stored as it is, and read back it is within the
    tolerance of itself. *)
Lemma SFeqb_finite_refl (s : bool) (m : positive) (e : Z) :
  SFeqb (S754_finite s m e) (S754_finite s m e) = true.
Proof.
  unfold SFeqb, SFcompare.
  rewrite Z.compare_refl, Pos.compare_cont_refl.
  destruct s; reflexivity.
Qed.

Lemma finite_self_tolerant (x : float) :
  PrimFloat.is_finite x = true -> within_tolerance (sql_real x) x = Ok true.
Proof.
  unfold PrimFloat.is_finite, PrimFloat.is_infinity, within_tolerance, sql_real,
    field_within, PrimFloat.is_nan.
  rewrite !FloatAxioms.eqb_spec, FloatAxioms.abs_spec.
  destruct (Prim2SF x) as [s|s| |s m e] eqn:E.
  - intros _.
    replace (SFeqb (S754_zero s) (S754_zero s)) with true by (destruct s; reflexivity).
    replace (SFeqb (S754_zero s) (Prim2SF 0%float)) with true by (destruct s; reflexivity).
    simpl negb. cbv iota.
    rewrite FloatAxioms.ltb_spec, FloatAxioms.abs_spec, FloatAxioms.sub_spec, E.
    destruct s; vm_compute; reflexivity.
  - destruct s; vm_compute; discriminate.
  - vm_compute; discriminate.
  - intros _. rewrite SFeqb_finite_refl. simpl negb. cbv iota.
    replace (SFeqb (S754_finite s m e) (Prim2SF 0%float)) with false
      by (destruct s; reflexivity).
    rewrite FloatAxioms.ltb_spec, FloatAxioms.abs_spec, FloatAxioms.sub_spec, E.
    unfold SF64sub, SFsub. rewrite Z.sub_diag. vm_compute. reflexivity.
Qed.

Lemma finite_prices_match_themselves (p : price_fields float) :
  finite_prices p = true ->
  ohlcv_matches
    (mk_prices (sql_real (px_open p)) (sql_real (px_high p)) (sql_real (px_low p))
               (sql_real (px_close p)) (sql_real (px_volume p))) p
  = Ok true.
Proof.
  unfold finite_prices. rewrite !andb_true_iff. intros [[[[Ho Hh] Hl] Hc] Hv].
  unfold ohlcv_matches, py_and, rbind. cbn [px_open px_high px_low px_close px_volume].
  rewrite !finite_self_tolerant by assumption. reflexivity.
Qed.

Lemma select_existing_bar_stable (trade_day_id : option Z) (timestamp : Z)
    (db dbX : database) (e : bar_row) :
  select_existing_bar trade_day_id timestamp db = Some e ->
  bars db `prefix_of` bars dbX ->
  select_existing_bar trade_day_id timestamp dbX = Some e.
Proof.
  intros Hsel [k Hk].
  unfold select_existing_bar, select_session_bar, select_halt_bar in *.
  rewrite Hk. destruct trade_day_id; apply find_app_Some; exact Hsel.
Qed.

Lemma insert_or_classify_trade_days (file_path : string) (trade_day_id : option Z)
    (timestamp : Z) (new : price_fields float) (halt_period : Z)
    (raw_json : raw_payload) (stats : ingest_stats) (db db' : database)
    (r : result ingest_stats) :
  insert_or_classify file_path trade_day_id timestamp new halt_period raw_json stats db
  = (r, db') ->
  trade_days db' = trade_days db.
Proof.
  unfold insert_or_classify, insert_bar. txn_unfold.
  destruct (select_existing_bar trade_day_id timestamp db) as [e|].
  - destruct (ohlcv_matches (stored_prices e) new) as [[|]|err];
      intros [= <- <-]; reflexivity.
  - intros [= <- <-]. reflexivity.
Qed.

Lemma insert_or_classify_again (file_path : string) (trade_day_id : option Z)
    (timestamp : Z) (new : price_fields float) (halt_period : Z)
    (raw_json : raw_payload) (stats stats' : ingest_stats) (db db' : database) :
  (trade_day_id = None -> halt_period = 1) ->
  finite_prices new = true ->
  insert_or_classify file_path trade_day_id timestamp new halt_period raw_json stats db
  = (Ok stats', db') ->
  forall dbX statsX,
    bars db' `prefix_of` bars dbX ->
    exists statsX',
      insert_or_classify file_path trade_day_id timestamp new halt_period raw_json statsX dbX
      = (Ok statsX', dbX)
      /\ second_pass_counts stats stats' statsX statsX'.
Proof.
  intros Hhalt Hfin Hrun dbX statsX Hext.
  unfold insert_or_classify in Hrun |- *. unfold insert_bar in Hrun. txn_unfold.
  destruct (select_existing_bar trade_day_id timestamp db) as [e|] eqn:Hsel.
  - destruct (ohlcv_matches (stored_prices e) new) as [same|err] eqn:Hsame;
      [|discriminate].
    assert (Hdb : db' = db) by (destruct same; congruence). subst db'.
    rewrite (select_existing_bar_stable _ _ _ _ _ Hsel Hext), Hsame.
    destruct same; injection Hrun as <-; eexists; (split; [reflexivity|]);
      unfold second_pass_counts; simpl; lia.
  - injection Hrun as <- <-. cbn [bars] in Hext.
    match type of Hext with (_ ++ [?row]) `prefix_of` _ => set (stored := row) in * end.
    assert (Hsel' : select_existing_bar trade_day_id timestamp dbX = Some stored).
    { destruct Hext as [k Hk].
      unfold select_existing_bar, select_session_bar, select_halt_bar in *.
      rewrite Hk, <- app_assoc.
      destruct trade_day_id as [t|]; rewrite find_app_None by exact Hsel; simpl.
      - rewrite !Z.eqb_refl. reflexivity.
      - rewrite Z.eqb_refl, (Hhalt eq_refl). reflexivity. }
    rewrite Hsel'.
    replace (ohlcv_matches (stored_prices stored) new) with (Ok true : result bool)
      by (symmetry; apply finite_prices_match_themselves; exact Hfin).
    eexists. split; [reflexivity|]. unfold second_pass_counts; simpl; lia.
Qed.

Section SecondPass.

Context `{RT : runtime}.

Lemma read_row_prices (file_path source : string) (row : csv_row) (p : parsed_row) :
  read_row file_path source row = Ok p -> read_numbers row = Ok (pr_prices p).
Proof.
  unfold read_row, rbind.
  destruct (row_timestamp source row); [|discriminate].
  destruct (read_numbers row); [|discriminate].
  destruct (resolve_for_file file_path a); [|discriminate].
  intros [= <-]. reflexivity.
Qed.

Lemma store_row_again (file_path symbol source : string) (row : csv_row)
    (p : parsed_row) (stats stats' : ingest_stats) (db db' : database) :
  finite_prices (pr_prices p) = true ->
  store_row file_path symbol source row p stats db = (Ok stats', db') ->
  forall dbX statsX,
    trade_days db' `prefix_of` trade_days dbX ->
    bars db' `prefix_of` bars dbX ->
    exists statsX',
      store_row file_path symbol source row p statsX dbX = (Ok statsX', dbX)
      /\ second_pass_counts stats stats' statsX statsX'.
Proof.
  intros Hfin Hrun dbX statsX Htd Hbars.
  unfold store_row, session_reference in Hrun |- *.
  destruct (pr_session_date p) as [d|].
  - unfold tbind at 1 2 in Hrun. unfold tret at 1 in Hrun.
    unfold tbind at 1 2. unfold tret at 1.
    destruct (get_or_create_trade_day symbol d source db) as [[id|e] db1] eqn:Hg;
      [|discriminate].
    pose proof (insert_or_classify_trade_days _ _ _ _ _ _ _ _ _ _ Hrun) as Hsame.
    rewrite (get_or_create_trade_day_stable _ _ _ _ _ _ _ Hg)
      by (rewrite <- Hsame; exact Htd).
    eapply insert_or_classify_again; eauto. discriminate.
  - unfold tbind at 1 in Hrun. unfold tret at 1 in Hrun.
    unfold tbind at 1. unfold tret at 1.
    eapply insert_or_classify_again; eauto.
Qed.

Lemma ingest_row_again (file_path symbol source : string) (row : csv_row)
    (stats stats' : ingest_stats) (db db' : database) :
  numbers_finite row = true ->
  ingest_row file_path symbol source row stats db = (Ok stats', db') ->
  forall dbX statsX,
    trade_days db' `prefix_of` trade_days dbX ->
    bars db' `prefix_of` bars dbX ->
    exists statsX',
      ingest_row file_path symbol source row statsX dbX = (Ok statsX', dbX)
      /\ second_pass_counts stats stats' statsX statsX'.
Proof.
  intros Hfin Hrun dbX statsX Htd Hbars.
  unfold ingest_row, lift in Hrun |- *. unfold tbind at 1 in Hrun. unfold tbind at 1.
  destruct (read_row file_path source row) as [p|e] eqn:Hread; [|discriminate].
  unfold numbers_finite in Hfin. rewrite (read_row_prices _ _ _ _ Hread) in Hfin.
  eapply store_row_again; eauto.
Qed.

Lemma ingest_rows_again (file_path symbol source : string) (rows : list csv_row) :
  Forall (fun row => numbers_finite row = true) rows ->
  forall stats stats' db db',
    ingest_rows file_path symbol source rows stats db = (Ok stats', db') ->
    forall dbX statsX,
      trade_days db' `prefix_of` trade_days dbX ->
      bars db' `prefix_of` bars dbX ->
      exists statsX',
        ingest_rows file_path symbol source rows statsX dbX = (Ok statsX', dbX)
        /\ second_pass_counts stats stats' statsX statsX'.
Proof.
  induction 1 as [|row rows Hrow Hrows IH]; intros stats stats' db db' Hrun dbX statsX Htd Hbars;
    cbn [ingest_rows] in Hrun |- *.
  - unfold tret in *. injection Hrun as <- <-. eexists. split; [reflexivity|].
    unfold second_pass_counts. lia.
  - unfold tbind at 1 in Hrun. unfold tbind at 1.
    destruct (ingest_row file_path symbol source row stats db) as [[stats1|e] db1] eqn:Hfirst;
      [|discriminate].
    pose proof (ingest_rows_grows _ _ _ _ _ _ _ _ Hrun) as ((Htd1 & _) & Hbars1 & _).
    destruct (ingest_row_again _ _ _ _ _ _ _ _ Hrow Hfirst dbX statsX)
      as (statsX1 & HrowX & Hc1).
    { etrans; eassumption. }
    { etrans; eassumption. }
    rewrite HrowX.
    destruct (IH _ _ _ _ Hrun dbX statsX1 Htd Hbars) as (statsX' & HrestX & Hc2).
    exists statsX'. split; [exact HrestX|].
    unfold second_pass_counts in *. lia.
Qed.

(** C3, as the code has it.  After a first ingestion that went through, of
    records whose numbers are finite, a second ingestion of the same batch
    goes through, leaves the database as it is, inserts nothing, skips what
    the first pass inserted or skipped, and reports the conflicts of the
    first pass again.  So it skips exactly what the first pass inserted, with
    no conflict, when the first pass skipped nothing and met no conflict. *)
Theorem ingest_csv_second_pass (file_path : string) (rows : list csv_row)
    (symbol timeframe source : string) (db db1 : database) (stats1 : ingest_stats) :
  Forall (fun row => numbers_finite row = true) rows ->
  ingest_csv file_path rows symbol timeframe source db = (Ok stats1, db1) ->
  exists stats2,
    ingest_csv file_path rows symbol timeframe source db1 = (Ok stats2, db1)
    /\ inserted stats2 = 0
    /\ skipped stats2 = inserted stats1 + skipped stats1
    /\ conflicts stats2 = conflicts stats1
    /\ (skipped stats1 = 0 -> conflicts stats1 = 0 ->
        skipped stats2 = inserted stats1 /\ conflicts stats2 = 0).
Proof.
  intros Hfin Hrun.
  unfold ingest_csv, connect, commit, close, with_working in Hrun |- *.
  cbn [working persisted] in Hrun |- *.
  destruct (ingest_rows file_path symbol source rows empty_stats db) as [[s1|e] view] eqn:Hfirst;
    [|discriminate].
  injection Hrun as <- <-.
  destruct (ingest_rows_again _ _ _ _ Hfin _ _ _ _ Hfirst view empty_stats)
    as (stats2 & Hsecond & Hi & Hs & Hc); [reflexivity | reflexivity |].
  rewrite Hsecond. exists stats2. simpl in Hi, Hs, Hc.
  split; [reflexivity|]. repeat split; lia.
Qed.

End SecondPass.

(** ** Supersession *)

Lemma filter_map_swap {A B : Type} (p : B -> bool) (f : A -> B) (l : list A) :
  List.filter p (map f l) = map f (List.filter (fun x => p (f x)) l).
Proof.
  induction l as [|x l IH]; simpl; [reflexivity|].
  destruct (p (f x)); simpl; rewrite IH; reflexivity.
Qed.

Lemma filter_all {A : Type} (p : A -> bool) (l : list A) :
  (forall x, p x = true) -> List.filter p l = l.
Proof.
  intros H. induction l as [|x l IH]; simpl; [reflexivity|].
  rewrite H, IH. reflexivity.
Qed.

Lemma filter_both {A : Type} (p q : A -> bool) (l : list A) :
  List.filter (fun x => p x && q x) l = List.filter q (List.filter p l).
Proof.
  induction l as [|x l IH]; simpl; [reflexivity|].
  destruct (p x); simpl; [destruct (q x)|]; rewrite IH; reflexivity.
Qed.

Lemma filter_same_on {A : Type} (p q : A -> bool) (l : list A) :
  (forall x, In x l -> p x = q x) -> List.filter p l = List.filter q l.
Proof.
  induction l as [|x l IH]; simpl; intros H; [reflexivity|].
  rewrite (H x) by auto. rewrite IH by auto. reflexivity.
Qed.

Lemma flat_map_same_on {A B : Type} (f g : A -> list B) (l : list A) :
  (forall x, In x l -> f x = g x) -> flat_map f l = flat_map g l.
Proof.
  induction l as [|x l IH]; simpl; intros H; [reflexivity|].
  rewrite (H x) by auto. rewrite IH by auto. reflexivity.
Qed.

Lemma flat_map_of_map {A B C : Type} (g : B -> list C) (f : A -> B) (l : list A) :
  flat_map g (map f l) = flat_map (fun x => g (f x)) l.
Proof.
  induction l as [|x l IH]; simpl; [reflexivity|]. rewrite IH. reflexivity.
Qed.

Lemma map_of_flat_map {A B C : Type} (f : B -> C) (g : A -> list B) (l : list A) :
  map f (flat_map g l) = flat_map (fun x => map f (g x)) l.
Proof.
  induction l as [|x l IH]; simpl; [reflexivity|]. rewrite map_app, IH. reflexivity.
Qed.

Lemma insert_sorted_length {A : Type} (le : A -> A -> bool) (x : A) (l : list A) :
  length (insert_sorted le x l) = S (length l).
Proof.
  induction l as [|y l IH]; simpl; [reflexivity|].
  destruct (le x y); simpl; [|rewrite IH]; reflexivity.
Qed.

Lemma order_by_length {A : Type} (le : A -> A -> bool) (l : list A) :
  length (order_by le l) = length l.
Proof.
  unfold order_by. induction l as [|x l IH]; simpl; [reflexivity|].
  rewrite insert_sorted_length, IH. reflexivity.
Qed.

Lemma order_by_is_singleton {A : Type} (le : A -> A -> bool) (l : list A) (x : A) :
  order_by le l = [x] -> l = [x].
Proof.
  intros H. pose proof (order_by_length le l) as Hlen. rewrite H in Hlen.
  destruct l as [|y [|z l]]; try discriminate.
  rewrite order_by_singleton in H. exact H.
Qed.

(** The row with a given value of a unique column is the only one the
    comparison on that column selects. *)
Lemma filter_unique_column {A : Type} (col : A -> Z) (l : list A) (x : A) :
  NoDup (map col l) -> In x l ->
  List.filter (fun y => col x =? col y) l = [x].
Proof.
  induction l as [|z l IH]; simpl; [tauto|].
  intros Hnd Hx. apply NoDup_cons in Hnd as [Hz Hnd]. rewrite list_elem_of_In in Hz.
  destruct Hx as [->|Hx].
  - rewrite Z.eqb_refl. f_equal.
    rewrite (filter_same_on _ (fun _ => false) l).
    + clear. induction l; simpl; auto.
    + intros y Hy. apply Z.eqb_neq. intros E. apply Hz. rewrite E. apply in_map. exact Hy.
  - destruct (col x =? col z) eqn:E.
    + apply Z.eqb_eq in E. exfalso. apply Hz. rewrite <- E. apply in_map. exact Hx.
    + apply IH; assumption.
Qed.

Lemma supersede_trade_day_id (old : Z) (a : annotation_row) :
  da_trade_day_id (supersede old a) = da_trade_day_id a.
Proof. unfold supersede. destruct (da_id a =? old); reflexivity. Qed.

Lemma supersede_status (old : Z) (a : annotation_row) :
  da_status (supersede old a)
  = if da_id a =? old then "superseded" else da_status a.
Proof. unfold supersede. destruct (da_id a =? old); reflexivity. Qed.

Lemma get_day_annotations_where_split (symbol start_date end_date status : string)
    (r : annotation_row * trade_day_row) :
  get_day_annotations_where symbol start_date end_date status None r
  = session_in_range symbol start_date end_date r.2 && status_selected status r.1.
Proof.
  destruct r as [a td]. unfold get_day_annotations_where, session_in_range, status_selected.
  simpl. rewrite andb_true_r. reflexivity.
Qed.

Lemma get_day_annotations_unfiltered (symbol start_date end_date status : string)
    (db : database) :
  get_day_annotations symbol start_date end_date None status None db
  = map annotation_view_of
      (order_by annotation_order
         (List.filter (fun r => status_selected status r.1)
            (List.filter (fun r => session_in_range symbol start_date end_date r.2)
               (annotations_join db)))).
Proof.
  unfold get_day_annotations.
  rewrite (filter_all (fun r => passes_tag_filter None (da_tags r.1))) by reflexivity.
  rewrite <- filter_both. do 2 f_equal.
  apply filter_same_on. intros r _. apply get_day_annotations_where_split.
Qed.

(** The sessions added behind the stored ones do not join the stored
    annotations. *)
Lemma joined_sessions_stable (tds added : list trade_day_row) (a : annotation_row) :
  NoDup (map td_id (tds ++ added)) ->
  In (da_trade_day_id a) (map td_id tds) ->
  List.filter (fun td => da_trade_day_id a =? td_id td) (tds ++ added)
  = List.filter (fun td => da_trade_day_id a =? td_id td) tds.
Proof.
  intros Hnd Hin. rewrite List.filter_app.
  rewrite (filter_same_on _ (fun _ => false) added).
  - replace (List.filter (fun _ => false) added) with (@nil trade_day_row)
      by (clear; induction added; simpl; auto).
    apply app_nil_r.
  - intros td Htd. apply Z.eqb_neq. intros E.
    rewrite map_app in Hnd. apply NoDup_app in Hnd as (_ & Hdisj & _).
    apply (Hdisj (da_trade_day_id a)).
    + apply list_elem_of_In. exact Hin.
    + apply list_elem_of_In. rewrite E. apply in_map. exact Htd.
Qed.

(** The join after [save_day_annotation]: the rows there were, with the
    UPDATE applied, and the new annotation beside its session. *)
Lemma annotations_join_after_save (db : database) (added : list trade_day_row)
    (old : Z) (new_row : annotation_row) (td : trade_day_row) (other_bars : list bar_row) :
  NoDup (map td_id (trade_days db ++ added)) ->
  annotations_reference_sessions db ->
  In td (trade_days db ++ added) ->
  td_id td = da_trade_day_id new_row ->
  da_id new_row <> old ->
  annotations_join
    {| trade_days := trade_days db ++ added;
       bars := other_bars;
       day_annotations := map (supersede old) (day_annotations db ++ [new_row]) |}
  = map (supersede_joined old) (annotations_join db) ++ [(new_row, td)].
Proof.
  intros Hnd Hfk Htd Hid Hnew.
  unfold annotations_join. cbn [trade_days day_annotations].
  rewrite flat_map_of_map, flat_map_app. f_equal.
  - rewrite map_of_flat_map. apply flat_map_same_on. intros a Ha.
    rewrite supersede_trade_day_id.
    rewrite joined_sessions_stable; [|exact Hnd|].
    + rewrite map_map. reflexivity.
    + unfold annotations_reference_sessions in Hfk.
      rewrite List.Forall_forall in Hfk. apply Hfk. exact Ha.
  - simpl. rewrite app_nil_r.
    assert (Hsame : supersede old new_row = new_row).
    { unfold supersede. apply Z.eqb_neq in Hnew. rewrite Hnew. reflexivity. }
    rewrite Hsame, <- Hid.
    rewrite (filter_unique_column td_id _ td Hnd Htd). reflexivity.
Qed.

(** C6. Let A be the one annotation of the symbol in a date range (the query
    for every status returns exactly A), in a database whose session ids are
    unique and whose annotations refer to stored sessions.  Saving B for the
    symbol, on a date of the range, with [supersedes_id] the id of A, commits
    once a database in which the query for the active annotations of the
    range returns exactly B, with status active and its link to A, and the
    query for the superseded ones returns exactly A, now superseded. *)
Theorem save_day_annotation_supersedes
    (symbol start_date end_date session_date content annotation_type : string)
    (tags : option (list string)) (source : string) (now : Z) (db : database)
    (vA : annotation_view) :
  unique_session_ids db ->
  annotations_reference_sessions db ->
  get_day_annotations symbol start_date end_date None "all" None db = [vA] ->
  av_id vA <> 0 ->
  text_le start_date session_date = true ->
  text_le session_date end_date = true ->
  exists id db',
    save_day_annotation symbol session_date content annotation_type tags source
      (Some (av_id vA)) now db = (Ok id, db')
    /\ get_day_annotations symbol start_date end_date None "active" None db'
       = [ {| av_id := id;
              av_session_date := session_date;
              av_annotation_type := annotation_type;
              av_content := content;
              av_tags := match tags with Some (t :: ts) => t :: ts | _ => [] end;
              av_source := source;
              av_created_at := now;
              av_supersedes_id := Some (av_id vA);
              av_status := "active" |} ]
    /\ get_day_annotations symbol start_date end_date None "superseded" None db'
       = [ superseded_view vA ].
Proof.
  intros Hids Hfk HA Hnz Hlo Hhi.
  destruct (save_day_annotation_effect symbol session_date content annotation_type
              tags source (Some (av_id vA)) now db) as (tid & db1 & Hg & Hsave).
  destruct (get_or_create_trade_day_effect symbol session_date "tradingview" db)
    as (tid' & db1' & Hg' & [added Hadded] & _ & _ & _ & Hids1
        & (td & Htd & Htid & Hkey) & _).
  rewrite Hg in Hg'. injection Hg' as <- <-. specialize (Hids1 Hids).
  unfold unique_session_ids in Hids1. rewrite Hadded in Hids1, Htd, Hsave.
  assert (Htruthy : truthy_id (Some (av_id vA)) = Some (av_id vA)).
  { unfold truthy_id. apply Z.eqb_neq in Hnz. rewrite Hnz. reflexivity. }
  rewrite Htruthy in Hsave. cbv zeta in Hsave. unfold new_annotation in Hsave.
  (* the row of A *)
  rewrite get_day_annotations_unfiltered in HA.
  rewrite (filter_all (fun r => status_selected "all" r.1)) in HA by reflexivity.
  destruct (order_by annotation_order _) as [|r0 [|r1 rest]] eqn:Hsorted in HA;
    try discriminate.
  injection HA as HvA. apply order_by_is_singleton in Hsorted.
  assert (HinA : In r0.1 (day_annotations db)).
  { assert (Hr0 : In r0 (annotations_join db)).
    { eapply proj1. apply filter_In. rewrite Hsorted. left. reflexivity. }
    unfold annotations_join in Hr0. apply in_flat_map in Hr0 as (a & Ha & Hr0).
    apply in_map_iff in Hr0 as (td0 & <- & _). exact Ha. }
  assert (HidA : da_id r0.1 = av_id vA) by (rewrite <- HvA; destruct r0; reflexivity).
  assert (Hfresh : next_rowid (map da_id (day_annotations db)) <> av_id vA).
  { rewrite <- HidA. intros E.
    apply (next_rowid_fresh (map da_id (day_annotations db))).
    rewrite E. apply in_map. exact HinA. }
  do 2 eexists. split; [exact Hsave|].
  rewrite !get_day_annotations_unfiltered.
  rewrite annotations_join_after_save with (td := td);
    [|exact Hids1|exact Hfk|exact Htd|exact Htid|exact Hfresh].
  rewrite List.filter_app, filter_map_swap.
  rewrite (filter_same_on
             (fun x => session_in_range symbol start_date end_date (supersede_joined (av_id vA) x).2)
             (fun r => session_in_range symbol start_date end_date r.2))
    by reflexivity.
  rewrite Hsorted. cbn [map List.filter app].
  assert (Hrange : session_in_range symbol start_date end_date td = true).
  { unfold session_in_range. injection Hkey as -> -> _.
    rewrite text_eq_refl, Hlo, Hhi. reflexivity. }
  cbn [snd]. rewrite Hrange. cbn [List.filter fst app].
  unfold status_selected. cbn [String.eqb Ascii.eqb Bool.eqb].
  unfold supersede_joined. cbn [fst snd].
  rewrite !supersede_status, HidA, Z.eqb_refl. cbn [da_status].
  change (text_eq "superseded" "active") with false.
  change (text_eq "active" "active") with true.
  change (text_eq "superseded" "superseded") with true.
  change (text_eq "active" "superseded") with false.
  cbn [List.filter]. rewrite !order_by_singleton. cbn [map].
  split.
  - unfold annotation_view_of. injection Hkey as _ -> _. reflexivity.
  - f_equal. rewrite <- HvA. destruct r0 as [a0 td0]. cbn [fst snd].
    unfold supersede. cbn [annotation_view_of av_id]. rewrite Z.eqb_refl. reflexivity.
Qed.

(** * The properties on the sample data *)

(** ** Bar store *)



(** The scenario of the specification: a record, the same record again, and
    the record with another close. *)
Example ingest_duplicate_then_conflict :
  Sample.counts
    (Sample.ingest [Sample.monday_bar; Sample.monday_bar; Sample.monday_bar_revised]
       empty_database).1
  = Some (1, 1, 1).
Proof. vm_compute. reflexivity. Qed.

(** ** Ingesting a batch again *)

(** A batch that holds the same record twice: the first pass inserts one bar
    and skips one record, the second skips two records, which is not the
    inserted count of the first. *)
Lemma ingest_csv_second_pass_duplicate_records :
  exists stats1 db1 stats2 db2,
    Sample.ingest [Sample.monday_bar; Sample.monday_bar] empty_database = (Ok stats1, db1)
    /\ Sample.ingest [Sample.monday_bar; Sample.monday_bar] db1 = (Ok stats2, db2)
    /\ inserted stats1 = 1
    /\ inserted stats2 = 0
    /\ skipped stats2 = 2
    /\ (skipped stats2 =? inserted stats1) = false.
Proof.
  do 4 eexists.
  split; [vm_compute; reflexivity|].
  split; [vm_compute; reflexivity|].
  repeat split; reflexivity.
Qed.

(** A batch whose last record revises its first: the conflict of the first
    pass is reported again by the second. *)
Example ingest_csv_second_pass_conflict_again :
  (Sample.counts
     (Sample.ingest [Sample.monday_bar; Sample.monday_bar_revised] empty_database).1,
   Sample.counts
     (Sample.ingest [Sample.monday_bar; Sample.monday_bar_revised]
        (Sample.ingest [Sample.monday_bar; Sample.monday_bar_revised] empty_database).2).1)
  = (Some (1, 0, 1), Some (0, 1, 1)).
Proof. vm_compute. reflexivity. Qed.

(** An infinite price is stored as it is, and is not within the tolerance of
    itself: the second pass reports a conflict. *)
Example ingest_csv_second_pass_infinite_price :
  (Sample.counts (Sample.ingest [Sample.infinite_bar] empty_database).1,
   Sample.counts
     (Sample.ingest [Sample.infinite_bar]
        (Sample.ingest [Sample.infinite_bar] empty_database).2).1)
  = (Some (1, 0, 0), Some (0, 0, 1)).
Proof. vm_compute. reflexivity. Qed.

(** A NaN is stored as NULL, and the comparison with what is read back
    raises: the second pass does not go through. *)
Example ingest_csv_second_pass_nan_price :
  (Sample.counts (Sample.ingest [Sample.nan_bar] empty_database).1,
   (Sample.ingest [Sample.nan_bar]
      (Sample.ingest [Sample.nan_bar] empty_database).2).1)
  = (Some (1, 0, 0), Raise TypeError).
Proof. vm_compute. reflexivity. Qed.

(** A session bar, a halt bar and the next session bar, ingested twice: the
    first pass inserts the three, the second skips the three. *)
Lemma ingest_csv_second_pass_witness :
  exists stats2,
    Sample.ingest [Sample.monday_bar; Sample.halt_bar; Sample.monday_next_bar]
      (Sample.ingest [Sample.monday_bar; Sample.halt_bar; Sample.monday_next_bar]
         empty_database).2
    = (Ok stats2,
       (Sample.ingest [Sample.monday_bar; Sample.halt_bar; Sample.monday_next_bar]
          empty_database).2)
    /\ inserted stats2 = 0
    /\ skipped stats2 = 3 + 0
    /\ conflicts stats2 = 0
    /\ (0 = 0 -> 0 = 0 -> skipped stats2 = 3 /\ conflicts stats2 = 0).
Proof.
  refine (ingest_csv_second_pass (RT := Demo.demo_runtime) "bars.csv"
            [Sample.monday_bar; Sample.halt_bar; Sample.monday_next_bar]
            "MNQ" "1m" "tradingview" empty_database _
            {| inserted := 3; skipped := 0; conflicts := 0; conflict_details := [] |}
            _ _).
  - repeat constructor; vm_compute; reflexivity.
  - vm_compute. reflexivity.
Defined.

(** ** All-or-nothing ingestion *)

(** A Saturday record after a good one: the loop has inserted the session and
    the bar of the first record when the exception leaves it, and the
    database is left empty. *)
Example ingest_csv_saturday_aborts :
  Sample.ingest [Sample.monday_bar; Sample.saturday_bar] empty_database
  = (Raise (ValueError
       "Saturday trading data is invalid per session calendar. Timestamp: 1705176000 (2024-01-13 12:00:00-08:00), File: bars.csv"),
     empty_database)
  /\ length (bars (ingest_rows (RT := Demo.demo_runtime) "bars.csv" "MNQ" "tradingview"
                     [Sample.monday_bar; Sample.saturday_bar] empty_stats
                     empty_database).2) = 1%nat.
Proof. split; vm_compute; reflexivity. Qed.

Example ingest_csv_unreadable_number_aborts :
  Sample.ingest [Sample.monday_bar; Sample.unreadable_bar] empty_database
  = (Raise (ValueError "could not convert string to float: 'n/a'"), empty_database).
Proof. vm_compute. reflexivity. Qed.


(** ** Queries *)

(** The example of the tag filter, on a database: the annotation tagged
    momentum and trend_day is returned under the filter trend_day, reversal,
    of which it holds one tag only. *)
Lemma get_day_annotations_tag_filter_any_witness :
  In (annotation_view_of (Sample.trend_row, Sample.monday_session))
     (get_day_annotations "MNQ" "2024-01-01" "2024-01-31"
        (Some ["trend_day"; "reversal"]) "active" None Sample.trend_db).
Proof.
  refine (proj2 (proj1 (get_day_annotations_tag_filter_any
                          "MNQ" "2024-01-01" "2024-01-31" "trend_day" ["reversal"]
                          "active" None Sample.trend_db
                          Sample.trend_row Sample.monday_session _ _ _ _ _ _ _ _)) _).
  - vm_compute. left. reflexivity.
  - vm_compute. left. reflexivity.
  - reflexivity.
  - reflexivity.
  - vm_compute. reflexivity.
  - vm_compute. reflexivity.
  - right. reflexivity.
  - intros ty Hty. discriminate Hty.
  - exists "trend_day". split; [left; reflexivity | right; left; reflexivity].
Defined.

(** The same query under three filters: one of the two requested tags held,
    none held, both held. *)
Example get_day_annotations_tag_filter_results :
  get_day_annotations "MNQ" "2024-01-01" "2024-01-31"
    (Some ["trend_day"; "reversal"]) "active" None Sample.trend_db
  = [annotation_view_of (Sample.trend_row, Sample.monday_session)]
  /\ get_day_annotations "MNQ" "2024-01-01" "2024-01-31"
       (Some ["reversal"]) "active" None Sample.trend_db
     = []
  /\ get_day_annotations "MNQ" "2024-01-01" "2024-01-31"
       (Some ["momentum"; "trend_day"]) "active" None Sample.trend_db
     = [annotation_view_of (Sample.trend_row, Sample.monday_session)].
Proof. repeat split; vm_compute; reflexivity. Qed.


Example get_bars_with_halt_requested :
  map bv_id (get_bars "MNQ" None None None None true "tradingview" Sample.halt_db) = [1]
  /\ map bar_id (bars Sample.halt_db) = [1; 2].
Proof. split; vm_compute; reflexivity. Qed.

(** ** Annotations *)

(** An annotation saved with source "manual" in a database without
    sessions. *)
Lemma save_day_annotation_session_is_tradingview_witness :
  exists id db' a td,
    save_day_annotation "MNQ" "2024-01-08" "Test observation"
      "observation" None "manual" None 1704750000 empty_database = (Ok id, db')
    /\ In a (day_annotations db') /\ da_id a = id /\ da_source a = "manual"
    /\ In td (trade_days db') /\ td_id td = da_trade_day_id a
    /\ session_key td = ("MNQ", "2024-01-08", "tradingview")
    /\ forall td', In td' (trade_days db') -> td_id td' = da_trade_day_id a -> td' = td.
Proof.
  refine (save_day_annotation_session_is_tradingview
            "MNQ" "2024-01-08" "Test observation" "observation" None "manual" None
            1704750000 empty_database _).
  vm_compute. constructor.
Defined.

(** [test_annotations]: the first annotation is superseded by a second one
    on the same session. *)
Lemma save_day_annotation_supersedes_witness :
  exists id db',
    save_day_annotation "MNQ" "2024-01-08" "Updated observation"
      "observation" (Some ["test"; "updated"]) "manual"
      (Some (av_id Sample.first_annotation)) 1704753600 Sample.annotated_db = (Ok id, db')
    /\ get_day_annotations "MNQ" "2024-01-01" "2024-01-31" None "active" None db'
       = [ {| av_id := id;
              av_session_date := "2024-01-08";
              av_annotation_type := "observation";
              av_content := "Updated observation";
              av_tags := ["test"; "updated"];
              av_source := "manual";
              av_created_at := 1704753600;
              av_supersedes_id := Some (av_id Sample.first_annotation);
              av_status := "active" |} ]
    /\ get_day_annotations "MNQ" "2024-01-01" "2024-01-31" None "superseded" None db'
       = [ superseded_view Sample.first_annotation ].
Proof.
  refine (save_day_annotation_supersedes
            "MNQ" "2024-01-01" "2024-01-31" "2024-01-08" "Updated observation"
            "observation" (Some ["test"; "updated"]) "manual" 1704753600
            Sample.annotated_db Sample.first_annotation _ _ _ _ _ _).
  - unfold unique_session_ids. compute_done.
  - vm_compute. repeat constructor.
  - vm_compute. reflexivity.
  - vm_compute. discriminate.
  - vm_compute. reflexivity.
  - vm_compute. reflexivity.
Defined.

Example supersession_as_tested :
  map av_id
    (get_day_annotations "MNQ" "2024-01-08" "2024-01-08" None "active" None
       (save_day_annotation "MNQ" "2024-01-08"
          "Updated observation" "observation" (Some ["test"; "updated"]) "manual"
          (Some 1) 1704753600 Sample.annotated_db).2)
  = [2].
Proof. vm_compute. reflexivity. Qed.

(** * Further properties *)

(** ** Resolver and timestamps *)

Section ResolverMore.

Context `{RT : runtime}.

(** The date of the local clock nine hours later: the same date before
    15:00, the next date from 15:00 on. *)
Lemma nine_hours_later (utc off : Z) :
  let dt := reading utc off in
  (utc + off + 32400) / 86400
  = if 15 <=? dt_hour dt then dt_date dt + 1 else dt_date dt.
Proof.
  unfold reading; cbn [dt_hour dt_date].
  set (local := utc + off).
  pose proof (Z.div_mod local 86400 ltac:(lia)) as Hlocal.
  pose proof (Z.mod_pos_bound local 86400 ltac:(lia)) as Hsod.
  set (q := local / 86400) in *. set (r := local mod 86400) in *.
  replace (local + 32400) with (r + 32400 + q * 86400) by lia.
  rewrite Z.div_add by lia.
  destruct (15 <=? r / 3600) eqn:Hh.
  - apply Z.leb_le in Hh.
    assert (54000 <= r).
    { destruct (Z_lt_le_dec r 54000) as [Hlt|]; [|assumption].
      assert (r / 3600 < 15) by (apply Z.div_lt_upper_bound; lia). lia. }
    replace (r + 32400) with (r - 54000 + 1 * 86400) by lia.
    rewrite Z.div_add by lia. rewrite Z.div_small by lia. lia.
  - apply Z.leb_gt in Hh.
    assert (r < 54000).
    { destruct (Z_lt_le_dec r 54000) as [|Hge]; [assumption|].
      assert (15 <= r / 3600) by (apply Z.div_le_lower_bound; lia). lia. }
    rewrite Z.div_small by lia. lia.
Qed.

(** X1. The outcomes of the resolver, each exactly when its test says so.
    An instant that [fromtimestamp] refuses leaves with the exception of
    [fromtimestamp].  On an instant that has a local reading the resolver
    raises the Saturday ValueError on a Saturday and only then; it raises an
    OverflowError from 15:00 on the last date and only then; it returns the
    halt marker in the hour from 14:00 of a day that is not a Saturday and
    only then; and otherwise it returns a trade day, which is the date of
    the local clock nine hours later.  It raises nothing else. *)
Theorem resolve_trade_day_outcomes (timestamp : Z) :
  (forall e, get_pt_datetime timestamp = Raise e -> resolve_trade_day timestamp = Raise e)
  /\ (forall dt, get_pt_datetime timestamp = Ok dt ->
        (resolve_trade_day timestamp = Raise (ValueError (saturday_message timestamp dt))
         <-> Calendar.weekday (dt_date dt) = 5)
        /\ (resolve_trade_day timestamp = Raise (OverflowError "date value out of range")
            <-> Calendar.weekday (dt_date dt) <> 5 /\ 15 <= dt_hour dt
                /\ dt_date dt = Calendar.date_max)
        /\ (resolve_trade_day timestamp = Ok None
            <-> Calendar.weekday (dt_date dt) <> 5 /\ dt_hour dt = 14)
        /\ (resolve_trade_day timestamp
            = Ok (Some (strftime_Ymd ((timestamp + dt_offset dt + 32400) / 86400)))
            <-> Calendar.weekday (dt_date dt) <> 5 /\ dt_hour dt <> 14
                /\ (dt_hour dt < 15 \/ dt_date dt < Calendar.date_max))
        /\ (forall e, resolve_trade_day timestamp = Raise e ->
                      e = ValueError (saturday_message timestamp dt)
                      \/ e = OverflowError "date value out of range")).
Proof.
  split; [apply resolve_trade_day_unreadable|].
  intros dt Hdt.
  rewrite (resolve_trade_day_of_reading timestamp dt Hdt).
  pose proof (date_range timestamp dt Hdt) as Hdate.
  pose proof (get_pt_datetime_reading timestamp dt Hdt) as (_ & _ & Hread).
  pose proof (nine_hours_later timestamp (utcoffset PT_TIMEZONE timestamp)) as Hnine.
  cbv zeta in Hnine. rewrite <- Hread in Hnine.
  replace (dt_offset dt) with (utcoffset PT_TIMEZONE timestamp) by (rewrite Hread; reflexivity).
  rewrite Hnine. clear Hnine Hread.
  destruct (Z.eqb_spec (Calendar.weekday (dt_date dt)) 5) as [Hsat|Hsat].
  { split; [tauto|]. split; [split; [discriminate | tauto]|].
    split; [split; [discriminate | tauto]|].
    split; [split; [discriminate | tauto]|].
    intros e [= <-]. auto. }
  destruct (Z.eqb_spec (dt_hour dt) 14) as [Hhalt|Hhalt].
  { split; [split; [discriminate | tauto]|].
    split; [split; [discriminate | lia]|].
    split; [tauto|].
    split; [split; [discriminate | tauto]|].
    discriminate. }
  destruct (Z.leb_spec 15 (dt_hour dt)) as [Hlate|Hearly].
  - destruct (Z_lt_le_dec (dt_date dt) Calendar.date_max) as [Hin|Hlast].
    + rewrite add_days_next by lia. cbn [rbind].
      split; [split; [discriminate | tauto]|].
      split; [split; [discriminate | lia]|].
      split; [split; [discriminate | tauto]|].
      split; [split; [auto | reflexivity]|].
      discriminate.
    + rewrite add_days_overflow by lia. cbn [rbind].
      split; [split; [discriminate | tauto]|].
      split; [split; [intros _; repeat split; auto; lia | reflexivity]|].
      split; [split; [discriminate | tauto]|].
      split; [split; [discriminate | lia]|].
      intros e [= <-]. auto.
  - split; [split; [discriminate | tauto]|].
    split; [split; [discriminate | lia]|].
    split; [split; [discriminate | tauto]|].
    split; [split; [auto | reflexivity]|].
    discriminate.
Qed.

(** X2. The next day is not looked at: from 15:00 on a Friday the trade day
    is the date of the Saturday.  (The last date, 9999-12-31, is a Friday
    with no next day.) *)
Theorem resolve_trade_day_friday_evening (timestamp : Z) (dt : datetime) :
  get_pt_datetime timestamp = Ok dt ->
  Calendar.weekday (dt_date dt) = 4 ->
  15 <= dt_hour dt ->
  dt_date dt < Calendar.date_max ->
  resolve_trade_day timestamp = Ok (Some (strftime_Ymd (dt_date dt + 1)))
  /\ Calendar.weekday (dt_date dt + 1) = 5.
Proof.
  intros Hdt Hday Hhour Hlast. split.
  - rewrite (resolve_trade_day_of_reading timestamp dt Hdt), Hday.
    pose proof (date_range timestamp dt Hdt).
    replace (dt_hour dt =? 14) with false by (symmetry; apply Z.eqb_neq; lia).
    replace (15 <=? dt_hour dt) with true by (symmetry; apply Z.leb_le; lia).
    rewrite add_days_next by lia. reflexivity.
  - unfold Calendar.weekday in *.
    replace (dt_date dt + 1 + 3) with ((dt_date dt + 3) + 1) by lia.
    rewrite Z.add_mod by lia. rewrite Hday. reflexivity.
Qed.

Lemma int_timestamp_whole (secs : Z) : int_timestamp secs 0 = secs.
Proof.
  unfold int_timestamp. rewrite Z.add_0_r.
  rewrite Z.abs_mul, Z.mod_mul, Z.div_mul by (vm_compute; discriminate).
  cbn [Z.ltb Z.compare andb]. rewrite Z.sgn_mul.
  change (Z.sgn 1000000) with 1. rewrite Z.mul_1_r.
  destruct secs; simpl; lia.
Qed.

Lemma reading_of_wall (utc wall : Z) :
  utc + utcoffset PT_TIMEZONE utc = wall ->
  let dt := reading utc (utcoffset PT_TIMEZONE utc) in
  dt_date dt = wall / 86400
  /\ dt_hour dt = (wall mod 86400) / 3600
  /\ dt_minute dt = ((wall mod 86400) mod 3600) / 60
  /\ dt_second dt = (wall mod 86400) mod 60.
Proof. unfold reading. intros H. cbn. rewrite H. auto. Qed.

(** X3. [test_timestamp_parsing], the text without a zone: when the wall
    clock reading exists in the zone and its instant is one [fromtimestamp]
    takes, the timestamp parsed from the text reads back, through
    [get_pt_datetime], as the date, hour, minute and second of the text. *)
Theorem parse_tradingview_timestamp_round_trip (time_str : string) (pd : parsed_datetime) :
  contains_char "T" time_str = false ->
  strptime_Ymd_HMS time_str = Ok pd ->
  pd_micro pd = 0 ->
  wall_clock_round_trips PT_TIMEZONE (pd_wall pd) ->
  datetime_holds (pd_wall pd) = true ->
  datetime_holds (wall_to_epoch PT_TIMEZONE (pd_wall pd)) = true ->
  exists timestamp dt,
    parse_tradingview_timestamp time_str = Ok timestamp
    /\ get_pt_datetime timestamp = Ok dt
    /\ dt_date dt = pd_wall pd / 86400
    /\ dt_hour dt = (pd_wall pd mod 86400) / 3600
    /\ dt_minute dt = ((pd_wall pd mod 86400) mod 3600) / 60
    /\ dt_second dt = (pd_wall pd mod 86400) mod 60.
Proof.
  intros HT Hparse Hmicro Hzone Hwall Hinstant.
  set (timestamp := wall_to_epoch PT_TIMEZONE (pd_wall pd)) in *.
  exists timestamp, (reading timestamp (utcoffset PT_TIMEZONE timestamp)).
  split; [|split].
  - unfold parse_tradingview_timestamp, localized_timestamp. rewrite HT, Hparse. simpl.
    rewrite Hmicro, int_timestamp_whole. reflexivity.
  - apply get_pt_datetime_returns; [exact Hinstant|].
    unfold wall_clock_round_trips in Hzone. fold timestamp in Hzone.
    rewrite Hzone. exact Hwall.
  - exact (reading_of_wall timestamp (pd_wall pd) Hzone).
Qed.

(** What [astimezone] does with a whole number of seconds. *)
Lemma astimezone_timestamp_whole (pd : parsed_datetime) (off : Z) :
  pd_micro pd = 0 ->
  astimezone_timestamp pd (off * 1000000)
  = if datetime_holds (pd_wall pd - off) then
      let? _ := fromutc (pd_wall pd - off) in Ok (pd_wall pd - off)
    else Raise (OverflowError "date value out of range").
Proof.
  intros Hmicro. unfold astimezone_timestamp. rewrite Hmicro, Z.add_0_r.
  replace (pd_wall pd * 1000000 - off * 1000000) with ((pd_wall pd - off) * 1000000) by lia.
  rewrite Z.div_mul, Z.mod_mul by (vm_compute; discriminate).
  rewrite int_timestamp_whole. reflexivity.
Qed.

(** X4. [test_timestamp_parsing], the ISO text with an offset of whole
    seconds and no fraction of a second.  When the instant, which is the
    wall clock of the text less its offset, has a reading in the zone, that
    instant is returned, whatever the offset of the text; and when the
    offset of the text is the one the zone has at that instant the timestamp
    reads back as the date, hour, minute and second of the text.  When the
    instant has no reading, [astimezone] raises. *)
Theorem parse_tradingview_timestamp_iso_round_trip (time_str : string)
    (pd : parsed_datetime) (off : Z) :
  contains_char "T" time_str = true ->
  fromisoformat time_str = Ok pd ->
  pd_tzoffset pd = Some (off * 1000000) ->
  pd_micro pd = 0 ->
  (forall dt, get_pt_datetime (pd_wall pd - off) = Ok dt ->
      parse_tradingview_timestamp time_str = Ok (pd_wall pd - off)
      /\ (utcoffset PT_TIMEZONE (pd_wall pd - off) = off ->
          dt_date dt = pd_wall pd / 86400
          /\ dt_hour dt = (pd_wall pd mod 86400) / 3600
          /\ dt_minute dt = ((pd_wall pd mod 86400) mod 3600) / 60
          /\ dt_second dt = (pd_wall pd mod 86400) mod 60))
  /\ (forall e, get_pt_datetime (pd_wall pd - off) = Raise e ->
      parse_tradingview_timestamp time_str
      = Raise (OverflowError "date value out of range")).
Proof.
  intros HT Hparse Hoff Hmicro.
  unfold parse_tradingview_timestamp, pt_timestamp. rewrite HT, Hparse. cbn [rbind].
  rewrite Hoff, (astimezone_timestamp_whole pd off Hmicro).
  unfold get_pt_datetime. split.
  - intros dt Hdt.
    destruct (datetime_holds (pd_wall pd - off)); [|discriminate].
    rewrite Hdt. cbn [rbind]. split; [reflexivity|].
    intros Hzone.
    unfold fromutc in Hdt.
    destruct (datetime_holds _) in Hdt; [|discriminate].
    injection Hdt as <-.
    apply (reading_of_wall (pd_wall pd - off) (pd_wall pd)). lia.
  - intros e He.
    destruct (datetime_holds (pd_wall pd - off)); [|reflexivity].
    rewrite He. cbn [rbind].
    unfold fromutc in He.
    destruct (datetime_holds _) in He; [discriminate|].
    injection He as <-. reflexivity.
Qed.

End ResolverMore.

(** ** Session directory: lookup after creation *)

(** X5. Lookup after creation: after [get_or_create_trade_day] for a key,
    [get_trade_day] for that key returns the session with the returned id and
    the three fields of the key, and its answer for every other key is what
    it was before. *)
Theorem get_trade_day_round_trip (symbol session_date source : string) (db : database) :
  exists id db1 td,
    get_or_create_trade_day symbol session_date source db = (Ok id, db1)
    /\ get_trade_day symbol session_date source db1 = Some td
    /\ td_id td = id
    /\ td_symbol td = symbol
    /\ td_session_date td = session_date
    /\ td_source td = source
    /\ (forall sym date src,
           (sym, date, src) <> (symbol, session_date, source) ->
           get_trade_day sym date src db1 = get_trade_day sym date src db).
Proof.
  destruct (get_or_create_trade_day_cases symbol session_date source db)
    as [(td & Hfind & Heq)|(Hfind & Heq)]; rewrite Heq.
  - exists (td_id td), db, td. split; [reflexivity|]. split; [exact Hfind|].
    apply find_some in Hfind as [_ Hkey].
    apply trade_day_key_matches_iff in Hkey. injection Hkey as -> -> ->.
    repeat split; reflexivity.
  - do 2 eexists. exists (appended_session symbol session_date source db).
    split; [reflexivity|]. unfold get_trade_day, with_session. simpl.
    split.
    { rewrite find_app_None by exact Hfind. simpl.
      rewrite appended_session_matches. reflexivity. }
    repeat split.
    intros sym date src Hne.
    destruct (find (trade_day_key_matches sym date src) (trade_days db)) as [td|] eqn:F.
    { apply find_app_Some. exact F. }
    rewrite find_app_None by exact F. simpl.
    destruct (trade_day_key_matches sym date src (appended_session symbol session_date source db))
      eqn:E; [|reflexivity].
    apply trade_day_key_matches_iff in E. exfalso. apply Hne. symmetry. exact E.
Qed.

(** X6. Two keys, two ids: with unique session ids, two calls of
    [get_or_create_trade_day] with different keys return different ids. *)
Theorem get_or_create_trade_day_distinct_keys (symbol1 date1 source1 symbol2 date2 source2 : string)
    (db db1 db2 : database) (id1 id2 : Z) :
  unique_session_ids db ->
  get_or_create_trade_day symbol1 date1 source1 db = (Ok id1, db1) ->
  get_or_create_trade_day symbol2 date2 source2 db1 = (Ok id2, db2) ->
  (symbol1, date1, source1) <> (symbol2, date2, source2) ->
  id1 <> id2.
Proof.
  intros Hids H1 H2 Hne Heq.
  destruct (get_or_create_trade_day_effect symbol1 date1 source1 db)
    as (i1 & d1 & E1 & _ & _ & _ & _ & Hu1 & (td1 & Hin1 & Hid1 & Hkey1) & _).
  rewrite H1 in E1. injection E1 as <- <-.
  destruct (get_or_create_trade_day_effect symbol2 date2 source2 db1)
    as (i2 & d2 & E2 & [k Hk] & _ & _ & _ & Hu2 & (td2 & Hin2 & Hid2 & Hkey2) & _).
  rewrite H2 in E2. injection E2 as <- <-.
  specialize (Hu2 (Hu1 Hids)).
  assert (td1 = td2).
  { eapply NoDup_map_eq; [exact Hu2| |exact Hin2|congruence].
    rewrite Hk. apply in_or_app. left. exact Hin1. }
  subst td2. congruence.
Qed.

(** ** The report of an ingestion *)

Lemma insert_or_classify_accounted (file_path : string) (trade_day_id : option Z)
    (timestamp : Z) (new : price_fields float) (halt_period : Z)
    (raw_json : raw_payload) (stats stats' : ingest_stats) (db db' : database) :
  insert_or_classify file_path trade_day_id timestamp new halt_period raw_json stats db
  = (Ok stats', db') ->
  accounted file_path 1 stats stats' db db'.
Proof.
  unfold insert_or_classify, insert_bar, accounted.
  unfold tbind, tret, lift, query.
  destruct (select_existing_bar trade_day_id timestamp db) as [e|].
  - destruct (ohlcv_matches (stored_prices e) new) as [[|]|err];
      intros [= <- <-]; simpl; try discriminate.
    + repeat split; auto; lia.
    + rewrite length_app. simpl. repeat split; try lia.
      intros H. apply Forall_app. split; [exact H|]. repeat constructor.
  - intros [= <- <-]. simpl. rewrite length_app. simpl. repeat split; auto; lia.
Qed.

Section AccountingFacts.

Context `{RT : runtime}.

Lemma store_row_accounted (file_path symbol source : string) (row : csv_row)
    (p : parsed_row) (stats stats' : ingest_stats) (db db' : database) :
  store_row file_path symbol source row p stats db = (Ok stats', db') ->
  accounted file_path 1 stats stats' db db'.
Proof.
  unfold store_row, session_reference. destruct (pr_session_date p) as [d|].
  - unfold tbind at 1 2. unfold tret at 1.
    destruct (get_or_create_trade_day symbol d source db) as [[id|e] db1] eqn:Hg;
      [|discriminate].
    intros Hrun. apply insert_or_classify_accounted in Hrun.
    apply get_or_create_trade_day_kept in Hg as (_ & B & _).
    unfold accounted in *. rewrite B in Hrun. exact Hrun.
  - unfold tbind at 1. unfold tret at 1. apply insert_or_classify_accounted.
Qed.

Lemma ingest_rows_accounted (file_path symbol source : string) (rows : list csv_row)
    (stats stats' : ingest_stats) (db db' : database) :
  ingest_rows file_path symbol source rows stats db = (Ok stats', db') ->
  accounted file_path (Z.of_nat (length rows)) stats stats' db db'.
Proof.
  revert stats db. induction rows as [|row rows IH]; intros stats db; cbn [ingest_rows].
  - unfold tret. intros [= <- <-]. unfold accounted. simpl. repeat split; auto; lia.
  - unfold tbind at 1, ingest_row, lift. unfold tbind at 1.
    destruct (read_row file_path source row) as [p|e]; [|discriminate].
    destruct (store_row file_path symbol source row p stats db) as [[stats1|e] db1] eqn:Hrow;
      [|discriminate].
    intros Hrest. apply store_row_accounted in Hrow. apply IH in Hrest.
    unfold accounted in *. cbn [length]. rewrite Nat2Z.inj_succ.
    destruct Hrow as (A1 & A2 & A3 & A4), Hrest as (B1 & B2 & B3 & B4).
    repeat split; auto; lia.
Qed.

(** X7. After an ingestion that went through, every record of the file is
    counted once, as inserted, skipped or conflicting; there is one detail
    entry per conflict, each with the reason and the file path; and the table
    has as many more bars as the report says were inserted. *)
Theorem ingest_csv_report_accounts (file_path : string) (rows : list csv_row)
    (symbol timeframe source : string) (db db' : database) (stats : ingest_stats) :
  ingest_csv file_path rows symbol timeframe source db = (Ok stats, db') ->
  inserted stats + skipped stats + conflicts stats = Z.of_nat (length rows)
  /\ conflicts stats = Z.of_nat (length (conflict_details stats))
  /\ Z.of_nat (length (bars db')) = Z.of_nat (length (bars db)) + inserted stats
  /\ Forall (fun d => cd_reason d = "OHLCV mismatch" /\ cd_file d = file_path)
       (conflict_details stats).
Proof.
  unfold ingest_csv, connect, commit, close, with_working. cbn [working persisted].
  destruct (ingest_rows file_path symbol source rows empty_stats db) as [[s|e] view] eqn:Hrun;
    [|discriminate].
  intros [= <- <-]. apply ingest_rows_accounted in Hrun as (A1 & A2 & A3 & A4).
  simpl in *. repeat split; try lia. apply A4. constructor.
Qed.

End AccountingFacts.

(** ** What ingestion keeps of the bars *)

Lemma insert_or_classify_bars (file_path : string) (trade_day_id : option Z)
    (timestamp : Z) (new : price_fields float) (halt_period : Z)
    (raw_json : raw_payload) (stats : ingest_stats) (db db' : database)
    (r : result ingest_stats) :
  insert_or_classify file_path trade_day_id timestamp new halt_period raw_json stats db
  = (r, db') ->
  trade_days db' = trade_days db
  /\ (bars db' = bars db
      \/ (select_existing_bar trade_day_id timestamp db = None
          /\ exists b, bars db' = bars db ++ [b]
                       /\ bar_trade_day_id b = trade_day_id
                       /\ bar_timestamp b = timestamp
                       /\ bar_halt_period b = halt_period)).
Proof.
  unfold insert_or_classify, insert_bar. unfold tbind, tret, lift, query.
  destruct (select_existing_bar trade_day_id timestamp db) as [e|].
  - destruct (ohlcv_matches (stored_prices e) new) as [[|]|err];
      intros [= <- <-]; auto.
  - intros [= <- <-]. simpl. split; [reflexivity|]. right. split; [reflexivity|].
    eexists. split; [reflexivity|]. simpl. auto.
Qed.

Lemma select_existing_bar_none_key (trade_day_id : option Z) (timestamp : Z)
    (db : database) :
  halt_bars_unassigned db ->
  select_existing_bar trade_day_id timestamp db = None ->
  ~ In (trade_day_id, timestamp) (map bar_key (bars db)).
Proof.
  intros Hflags Hnone Hin. apply in_map_iff in Hin as (b & Hkey & Hb).
  unfold bar_key in Hkey. injection Hkey as Ht Hts.
  unfold select_existing_bar, select_session_bar, select_halt_bar in Hnone.
  destruct trade_day_id as [t|].
  - pose proof (find_None_forall _ _ Hnone b Hb) as Hno. simpl in Hno.
    rewrite Ht, Hts, !Z.eqb_refl in Hno. discriminate.
  - pose proof (find_None_forall _ _ Hnone b Hb) as Hno. simpl in Hno.
    unfold halt_bars_unassigned in Hflags. rewrite List.Forall_forall in Hflags.
    apply (Hflags b Hb) in Ht. rewrite Hts, Ht, !Z.eqb_refl in Hno. discriminate.
Qed.

Lemma insert_or_classify_unique_keys (file_path : string) (trade_day_id : option Z)
    (timestamp : Z) (new : price_fields float) (halt_period : Z)
    (raw_json : raw_payload) (stats : ingest_stats) (db db' : database)
    (r : result ingest_stats) :
  insert_or_classify file_path trade_day_id timestamp new halt_period raw_json stats db
  = (r, db') ->
  halt_bars_unassigned db -> unique_bar_keys db -> unique_bar_keys db'.
Proof.
  intros Hrun Hflags Hu.
  apply insert_or_classify_bars in Hrun as (_ & [Hsame|(Hnone & b & Hb & Ht & Hts & _)]).
  - unfold unique_bar_keys. rewrite Hsame. exact Hu.
  - unfold unique_bar_keys. rewrite Hb, map_app. simpl.
    apply NoDup_app. split; [exact Hu|]. split; [|apply NoDup_singleton].
    intros k Hk Hk'. apply list_elem_of_In in Hk, Hk'. destruct Hk' as [<-|[]].
    unfold bar_key in Hk. rewrite Ht, Hts in Hk.
    exact (select_existing_bar_none_key _ _ _ Hflags Hnone Hk).
Qed.

Section FilingFacts.

Context `{RT : runtime}.

Lemma bar_filed_more_sessions (sessions more : list trade_day_row) (b : bar_row) :
  bar_filed sessions b -> bar_filed (sessions ++ more) b.
Proof.
  unfold bar_filed. destruct (bar_trade_day_id b); [|auto].
  intros (Hh & td & Hin & Hid & Hres). split; [exact Hh|].
  exists td. split; [apply in_or_app; left; exact Hin | auto].
Qed.

Lemma read_row_resolved (file_path source : string) (row : csv_row) (p : parsed_row) :
  read_row file_path source row = Ok p ->
  resolve_trade_day (pr_timestamp p) = Ok (pr_session_date p).
Proof.
  unfold read_row, rbind.
  destruct (row_timestamp source row) as [ts|]; [|discriminate].
  destruct (read_numbers row); [|discriminate].
  unfold resolve_for_file.
  destruct (resolve_trade_day ts) as [sd|[]] eqn:E; try discriminate.
  intros [= <-]. exact E.
Qed.

Lemma store_row_unique_keys (file_path symbol source : string) (row : csv_row)
    (p : parsed_row) (stats : ingest_stats) (db db' : database)
    (r : result ingest_stats) :
  store_row file_path symbol source row p stats db = (r, db') ->
  halt_bars_unassigned db -> unique_bar_keys db -> unique_bar_keys db'.
Proof.
  unfold store_row, session_reference. destruct (pr_session_date p) as [d|].
  - unfold tbind at 1 2. unfold tret at 1.
    destruct (get_or_create_trade_day symbol d source db) as [[id|e] db1] eqn:Hg.
    + intros Hrun Hf Hu. apply get_or_create_trade_day_kept in Hg as (_ & B & _).
      eapply insert_or_classify_unique_keys; [exact Hrun| |].
      * unfold halt_bars_unassigned. rewrite B. exact Hf.
      * unfold unique_bar_keys. rewrite B. exact Hu.
    + intros [= <- <-] Hf Hu. apply get_or_create_trade_day_kept in Hg as (_ & B & _).
      unfold unique_bar_keys. rewrite B. exact Hu.
  - unfold tbind at 1. unfold tret at 1. apply insert_or_classify_unique_keys.
Qed.

Lemma ingest_rows_unique_keys (file_path symbol source : string) (rows : list csv_row)
    (stats : ingest_stats) (db db' : database) (r : result ingest_stats) :
  ingest_rows file_path symbol source rows stats db = (r, db') ->
  halt_bars_unassigned db -> unique_bar_keys db -> unique_bar_keys db'.
Proof.
  revert stats db. induction rows as [|row rows IH]; intros stats db; cbn [ingest_rows].
  - unfold tret. intros [= <- <-]. auto.
  - unfold tbind at 1, ingest_row, lift. unfold tbind at 1.
    destruct (read_row file_path source row) as [p|e].
    + destruct (store_row file_path symbol source row p stats db) as [[stats'|e] db1] eqn:Hrow.
      * intros Hrest Hf Hu. eapply IH; [exact Hrest| |].
        -- eapply store_row_halt_flag; eassumption.
        -- eapply store_row_unique_keys; eassumption.
      * intros [= <- <-]. eapply store_row_unique_keys; eassumption.
    + intros [= <- <-]. auto.
Qed.

(** X8. Ingestion never stores two bars under one lookup key: if the bars of
    a database have distinct keys, and its halt flags go with the missing
    sessions, the same holds after [ingest_csv]. *)
Theorem ingest_csv_unique_bar_keys (file_path : string) (rows : list csv_row)
    (symbol timeframe source : string) (db : database) :
  halt_bars_unassigned db ->
  unique_bar_keys db ->
  unique_bar_keys (ingest_csv file_path rows symbol timeframe source db).2
  /\ halt_bars_unassigned (ingest_csv file_path rows symbol timeframe source db).2.
Proof.
  intros Hf Hu. split; [|apply ingest_csv_halt_flag; exact Hf].
  unfold ingest_csv, connect, commit, close, with_working; simpl.
  destruct (ingest_rows file_path symbol source rows empty_stats db) as [[stats|e] view] eqn:Hrun;
    simpl; [|exact Hu].
  eapply ingest_rows_unique_keys; eassumption.
Qed.

Lemma store_row_bars_filed (file_path symbol source : string) (row : csv_row)
    (p : parsed_row) (stats : ingest_stats) (db db' : database)
    (r : result ingest_stats) :
  resolve_trade_day (pr_timestamp p) = Ok (pr_session_date p) ->
  store_row file_path symbol source row p stats db = (r, db') ->
  bars_filed db -> bars_filed db'.
Proof.
  intros Hres. unfold store_row, session_reference.
  destruct (pr_session_date p) as [d|] eqn:Hsd.
  - unfold tbind at 1 2. unfold tret at 1.
    destruct (get_or_create_trade_day_effect symbol d source db)
      as (id & db1 & Hg & [more Hmore] & B & _ & _ & _ & (td & Htd & Hid & Hkey) & _).
    rewrite Hg.
    assert (Hfiled1 : bars_filed db -> bars_filed db1).
    { unfold bars_filed. rewrite B, Hmore. apply List.Forall_impl.
      intros b. apply bar_filed_more_sessions. }
    intros Hrun Hfiled. specialize (Hfiled1 Hfiled).
    apply insert_or_classify_bars in Hrun as (Htds & [Hsame|(_ & b & Hb & Ht & Hts & Hh)]);
      unfold bars_filed in *; rewrite Htds.
    + rewrite Hsame. exact Hfiled1.
    + rewrite Hb. apply Forall_app. split; [exact Hfiled1|].
      constructor; [|constructor]. unfold bar_filed. rewrite Ht, Hts, Hh.
      split; [reflexivity|]. exists td. injection Hkey as _ Hdate _.
      rewrite Hdate. auto.
  - unfold tbind at 1. unfold tret at 1. intros Hrun Hfiled.
    apply insert_or_classify_bars in Hrun as (Htds & [Hsame|(_ & b & Hb & Ht & Hts & Hh)]);
      unfold bars_filed in *; rewrite Htds.
    + rewrite Hsame. exact Hfiled.
    + rewrite Hb. apply Forall_app. split; [exact Hfiled|].
      constructor; [|constructor]. unfold bar_filed. rewrite Ht, Hts, Hh. auto.
Qed.

Lemma ingest_rows_bars_filed (file_path symbol source : string) (rows : list csv_row)
    (stats : ingest_stats) (db db' : database) (r : result ingest_stats) :
  ingest_rows file_path symbol source rows stats db = (r, db') ->
  bars_filed db -> bars_filed db'.
Proof.
  revert stats db. induction rows as [|row rows IH]; intros stats db; cbn [ingest_rows].
  - unfold tret. intros [= <- <-]. auto.
  - unfold tbind at 1, ingest_row, lift. unfold tbind at 1.
    destruct (read_row file_path source row) as [p|e] eqn:Hread.
    + apply read_row_resolved in Hread.
      destruct (store_row file_path symbol source row p stats db) as [[stats'|e] db1] eqn:Hrow.
      * intros Hrest Hf. eapply IH; [exact Hrest|].
        eapply store_row_bars_filed; eassumption.
      * intros [= <- <-]. eapply store_row_bars_filed; eassumption.
    + intros [= <- <-]. auto.
Qed.

Lemma ingest_csv_bars_filed (file_path : string) (rows : list csv_row)
    (symbol timeframe source : string) (db : database) :
  bars_filed db ->
  bars_filed (ingest_csv file_path rows symbol timeframe source db).2.
Proof.
  intros Hf. unfold ingest_csv, connect, commit, close, with_working; simpl.
  destruct (ingest_rows file_path symbol source rows empty_stats db) as [[stats|e] view] eqn:Hrun;
    simpl; [|exact Hf].
  eapply ingest_rows_bars_filed; eassumption.
Qed.

Lemma bar_filed_not_saturday (sessions : list trade_day_row) (b : bar_row) :
  bar_filed sessions b -> is_saturday (bar_timestamp b) = Ok false.
Proof.
  unfold bar_filed. intros H.
  assert (exists sd, resolve_trade_day (bar_timestamp b) = Ok sd) as [sd Hsd].
  { destruct (bar_trade_day_id b); [destruct H as (_ & td & _ & _ & E)|destruct H as [_ E]];
      eauto. }
  unfold resolve_trade_day in Hsd.
  destruct (is_saturday (bar_timestamp b)) as [[|]|e]; cbn [rbind] in Hsd.
  - destruct (get_pt_datetime (bar_timestamp b)); discriminate.
  - reflexivity.
  - discriminate.
Qed.

(** X9. Every bar is filed where the resolver puts its timestamp, and
    ingestion keeps it so; in particular no stored bar has a Saturday
    timestamp. *)
Theorem ingest_csv_files_bars_by_resolver (file_path : string) (rows : list csv_row)
    (symbol timeframe source : string) (db : database) :
  bars_filed db ->
  bars_filed (ingest_csv file_path rows symbol timeframe source db).2
  /\ Forall (fun b => is_saturday (bar_timestamp b) = Ok false)
       (bars (ingest_csv file_path rows symbol timeframe source db).2).
Proof.
  intros Hf. pose proof (ingest_csv_bars_filed file_path rows symbol timeframe source db Hf) as H.
  split; [exact H|]. revert H. unfold bars_filed. apply List.Forall_impl.
  intros b. apply bar_filed_not_saturday.
Qed.

End FilingFacts.

(** ** Queries after an ingestion *)

Lemma append_not_empty (s t : string) (c : Ascii.ascii) :
  s +:+ String c t <> "".
Proof. destruct s; discriminate. Qed.

Section StoredFacts.

Context `{RT : runtime}.

Lemma strftime_Ymd_not_empty (days : Z) : strftime_Ymd days <> "".
Proof.
  unfold strftime_Ymd. destruct (Calendar.civil_of_days days) as [[y m] d].
  apply append_not_empty.
Qed.

Lemma resolved_date_not_empty (timestamp : Z) (d : string) :
  resolve_trade_day timestamp = Ok (Some d) -> d <> "".
Proof.
  destruct (get_pt_datetime timestamp) as [dt|e] eqn:Hdt.
  - rewrite (resolve_trade_day_of_reading timestamp dt Hdt).
    destruct (Calendar.weekday (dt_date dt) =? 5); [discriminate|].
    destruct (dt_hour dt =? 14); [discriminate|].
    destruct (15 <=? dt_hour dt).
    + destruct (Calendar.add_days (dt_date dt) 1); [|discriminate].
      intros [= <-]. apply strftime_Ymd_not_empty.
    + intros [= <-]. apply strftime_Ymd_not_empty.
  - rewrite (resolve_trade_day_unreadable timestamp e Hdt). discriminate.
Qed.

Lemma record_stored_grows (symbol source : string) (p : parsed_row) (db db' : database) :
  ingest_grows db db' -> record_stored symbol source p db -> record_stored symbol source p db'.
Proof.
  intros (([k Hk] & _) & Hbars & _) (tid & e & Hsel & Hsess).
  exists tid, e. split; [eapply select_existing_bar_stable; eassumption|].
  destruct (pr_session_date p) as [d|]; [|exact Hsess].
  destruct Hsess as (td & -> & Hget). exists td. split; [reflexivity|].
  unfold get_trade_day in *. rewrite Hk. apply find_app_Some. exact Hget.
Qed.

Lemma insert_or_classify_stores (file_path : string) (trade_day_id : option Z)
    (timestamp : Z) (new : price_fields float) (halt_period : Z)
    (raw_json : raw_payload) (stats stats' : ingest_stats) (db db' : database) :
  (trade_day_id = None -> halt_period = 1) ->
  insert_or_classify file_path trade_day_id timestamp new halt_period raw_json stats db
  = (Ok stats', db') ->
  exists e, select_existing_bar trade_day_id timestamp db' = Some e.
Proof.
  intros Hhalt. unfold insert_or_classify, insert_bar. unfold tbind, tret, lift, query.
  destruct (select_existing_bar trade_day_id timestamp db) as [e|] eqn:Hsel.
  - destruct (ohlcv_matches (stored_prices e) new) as [[|]|err];
      intros [= <- <-]; eauto.
  - intros [= <- <-]. eexists.
    unfold select_existing_bar, select_session_bar, select_halt_bar in *. simpl.
    destruct trade_day_id as [t|]; rewrite find_app_None by exact Hsel; simpl.
    + rewrite !Z.eqb_refl. reflexivity.
    + rewrite Z.eqb_refl, (Hhalt eq_refl). reflexivity.
Qed.

Lemma store_row_stores (file_path symbol source : string) (row : csv_row)
    (p : parsed_row) (stats stats' : ingest_stats) (db db' : database) :
  store_row file_path symbol source row p stats db = (Ok stats', db') ->
  record_stored symbol source p db'.
Proof.
  unfold store_row, session_reference, record_stored.
  destruct (pr_session_date p) as [d|].
  - unfold tbind at 1 2. unfold tret at 1.
    destruct (get_or_create_trade_day symbol d source db) as [[id|e] db1] eqn:Hg;
      [|discriminate].
    intros Hrun.
    pose proof (insert_or_classify_trade_days _ _ _ _ _ _ _ _ _ _ Hrun) as Htds.
    apply insert_or_classify_stores in Hrun as [e He]; [|discriminate].
    exists (Some id), e. split; [exact He|].
    destruct (get_or_create_trade_day_cases symbol d source db)
      as [(td & Hfind & Heq)|(Hfind & Heq)];
      rewrite Heq in Hg; injection Hg as <- <-.
    + exists td. split; [reflexivity|]. unfold get_trade_day. rewrite Htds. exact Hfind.
    + exists (appended_session symbol d source db). split; [reflexivity|].
      unfold get_trade_day. rewrite Htds. simpl.
      rewrite find_app_None by exact Hfind. simpl.
      rewrite appended_session_matches. reflexivity.
  - unfold tbind at 1. unfold tret at 1. intros Hrun.
    apply insert_or_classify_stores in Hrun as [e He]; [|reflexivity].
    exists None, e. auto.
Qed.

Lemma ingest_rows_stores (file_path symbol source : string) (rows : list csv_row)
    (stats stats' : ingest_stats) (db db' : database) (row : csv_row) (p : parsed_row) :
  ingest_rows file_path symbol source rows stats db = (Ok stats', db') ->
  In row rows ->
  read_row file_path source row = Ok p ->
  record_stored symbol source p db'.
Proof.
  revert stats db. induction rows as [|r rows IH]; intros stats db; cbn [ingest_rows];
    [intros _ []|].
  unfold tbind at 1.
  destruct (ingest_row file_path symbol source r stats db) as [[stats1|e] db1] eqn:Hrow;
    [|discriminate].
  intros Hrest [->|Hin] Hread.
  - apply ingest_rows_grows in Hrest. eapply record_stored_grows; [exact Hrest|].
    unfold ingest_row, lift in Hrow. unfold tbind at 1 in Hrow. rewrite Hread in Hrow.
    eapply store_row_stores; exact Hrow.
  - eapply IH; eassumption.
Qed.

(** X13. [test_trade_day_query]: after an ingestion that went through, the
    trade day of every record of the file that is not a halt record is a
    stored session of the symbol and source. *)
Theorem get_trade_day_after_ingest_csv (file_path : string) (rows : list csv_row)
    (symbol timeframe source : string) (db db' : database) (stats : ingest_stats)
    (row : csv_row) (p : parsed_row) (d : string) :
  ingest_csv file_path rows symbol timeframe source db = (Ok stats, db') ->
  In row rows ->
  read_row file_path source row = Ok p ->
  pr_session_date p = Some d ->
  exists td,
    get_trade_day symbol d source db' = Some td
    /\ td_symbol td = symbol /\ td_session_date td = d /\ td_source td = source.
Proof.
  unfold ingest_csv, connect, commit, close, with_working. cbn [working persisted].
  destruct (ingest_rows file_path symbol source rows empty_stats db) as [[s|e] view] eqn:Hrun;
    [|discriminate].
  intros [= <- <-] Hin Hread Hd.
  destruct (ingest_rows_stores _ _ _ _ _ _ _ _ _ _ Hrun Hin Hread) as (tid & e & _ & Hsess).
  rewrite Hd in Hsess. destruct Hsess as (td & _ & Hget). exists td. split; [exact Hget|].
  unfold get_trade_day in Hget. apply find_some in Hget as [_ Hkey].
  apply trade_day_key_matches_iff in Hkey. injection Hkey as -> -> ->. auto.
Qed.

(** A bar beside its session is a row of the join. *)
Lemma bars_left_join_member (db : database) (b : bar_row) (td : trade_day_row) :
  In b (bars db) -> In td (trade_days db) ->
  bar_trade_day_id b = Some (td_id td) ->
  In (b, Some td) (bars_left_join db).
Proof.
  intros Hb Htd Hid. unfold bars_left_join. apply in_flat_map. exists b. split; [exact Hb|].
  rewrite Hid.
  assert (Hin : In td (List.filter (fun td0 => td_id td =? td_id td0) (trade_days db))).
  { apply filter_In. split; [exact Htd | apply Z.eqb_refl]. }
  destruct (List.filter _ (trade_days db)) as [|td0 tds]; [destruct Hin|].
  apply (in_map (fun td1 => (b, Some td1))). exact Hin.
Qed.

(** X14. [test_bar_queries]: after an ingestion that went through, into a
    database whose bars are filed by the resolver, [get_bars] for the symbol,
    the source and the trade day of a record of the file returns a bar with
    the timestamp of that record, not flagged as halt. *)
Theorem get_bars_after_ingest_csv (file_path : string) (rows : list csv_row)
    (symbol timeframe source : string) (db db' : database) (stats : ingest_stats)
    (row : csv_row) (p : parsed_row) (d : string) (include_halt : bool) :
  bars_filed db ->
  ingest_csv file_path rows symbol timeframe source db = (Ok stats, db') ->
  In row rows ->
  read_row file_path source row = Ok p ->
  pr_session_date p = Some d ->
  exists v,
    In v (get_bars symbol (Some d) None None None include_halt source db')
    /\ bv_timestamp v = pr_timestamp p
    /\ bv_session_date v = d
    /\ bv_halt_period v = false.
Proof.
  intros Hfiled Hrun Hin Hread Hd.
  pose proof (ingest_csv_bars_filed file_path rows symbol timeframe source db Hfiled) as Hfiled'.
  rewrite Hrun in Hfiled'. cbn [snd] in Hfiled'.
  pose proof (resolved_date_not_empty (pr_timestamp p) d) as Hne.
  rewrite (read_row_resolved _ _ _ _ Hread), Hd in Hne. specialize (Hne eq_refl).
  unfold ingest_csv, connect, commit, close, with_working in Hrun.
  cbn [working persisted] in Hrun.
  destruct (ingest_rows file_path symbol source rows empty_stats db) as [[s|e0] view] eqn:Hloop;
    [|discriminate].
  injection Hrun as <- <-.
  destruct (ingest_rows_stores _ _ _ _ _ _ _ _ _ _ Hloop Hin Hread) as (tid & e & Hsel & Hsess).
  rewrite Hd in Hsess. destruct Hsess as (td & -> & Hget).
  apply select_existing_bar_key in Hsel as (He & Hts & Hid).
  unfold get_trade_day in Hget. apply find_some in Hget as [Htd Hkey].
  apply trade_day_key_matches_iff in Hkey. injection Hkey as Hsym Hdate Hsrc.
  assert (Hflag : bar_halt_period e = 0).
  { unfold bars_filed in Hfiled'. rewrite List.Forall_forall in Hfiled'.
    specialize (Hfiled' e He). unfold bar_filed in Hfiled'. rewrite Hid in Hfiled'.
    tauto. }
  eexists. split.
  - unfold get_bars. apply list_elem_of_In, list_elem_of_omap.
    exists (e, Some td). split; [|reflexivity].
    apply list_elem_of_In, In_order_by, filter_In. split.
    + apply bars_left_join_member; assumption.
    + unfold get_bars_where, given.
      assert (Hd' : String.eqb d "" = false) by (apply String.eqb_neq; exact Hne).
      rewrite Hd', Hsym, Hdate, Hsrc, !text_eq_refl, Hflag. simpl.
      destruct include_halt; reflexivity.
  - simpl. rewrite Hflag. auto.
Qed.

(** X10. The halt lookup looks at the timestamp only: a halt record whose
    timestamp is stored as a halt bar adds no bar, whatever the symbol and the
    source it is ingested for; it is counted as skipped or as a conflict. *)
Theorem ingest_row_halt_bar_shared (file_path symbol source : string) (row : csv_row)
    (stats : ingest_stats) (db : database) (p : parsed_row) (e : bar_row)
    (stored : price_fields float) :
  read_row file_path source row = Ok p ->
  pr_session_date p = None ->
  select_halt_bar (pr_timestamp p) db = Some e ->
  stored_numbers e stored ->
  exists stats',
    ingest_row file_path symbol source row stats db = (Ok stats', db)
    /\ inserted stats' = inserted stats
    /\ skipped stats' + conflicts stats' = skipped stats + conflicts stats + 1.
Proof.
  intros Hread Hsd Hsel Hnum.
  destruct (ingest_row_on_stored_bar file_path symbol source row stats db db p None e stored
              Hread) as [_ Hrow].
  - rewrite Hsd. reflexivity.
  - exact Hsel.
  - exact Hnum.
  - rewrite Hrow. eexists. split; [reflexivity|].
    destruct (all_within stored (pr_prices p)); simpl; lia.
Qed.

End StoredFacts.

(** ** Order and filters of the queries *)

(** ** ORDER BY *)

Lemma insert_sorted_strongly {A : Type} (le : A -> A -> bool) (x : A) (l : list A) :
  (forall a b, le a b = false -> le b a = true) ->
  (forall a b c, le a b = true -> le b c = true -> le a c = true) ->
  StronglySorted (fun a b => le a b = true) l ->
  StronglySorted (fun a b => le a b = true) (insert_sorted le x l).
Proof.
  intros Htotal Htrans. induction 1 as [|y l Hl IH Hy]; simpl.
  - repeat constructor.
  - destruct (le x y) eqn:E.
    + constructor; [constructor; assumption|].
      constructor; [exact E|]. revert Hy. apply List.Forall_impl.
      intros z. apply Htrans. exact E.
    + constructor; [exact IH|].
      apply List.Forall_forall. intros z Hz. apply In_insert_sorted in Hz as [->|Hz].
      * apply Htotal. exact E.
      * rewrite List.Forall_forall in Hy. apply Hy. exact Hz.
Qed.

Lemma order_by_strongly_sorted {A : Type} (le : A -> A -> bool) (l : list A) :
  (forall a b, le a b = false -> le b a = true) ->
  (forall a b c, le a b = true -> le b c = true -> le a c = true) ->
  StronglySorted (fun a b => le a b = true) (order_by le l).
Proof.
  intros Htotal Htrans. unfold order_by. induction l as [|x l IH]; simpl.
  - constructor.
  - apply insert_sorted_strongly; assumption.
Qed.

Lemma StronglySorted_filter {A : Type} (R : A -> A -> Prop) (p : A -> bool) (l : list A) :
  StronglySorted R l -> StronglySorted R (List.filter p l).
Proof.
  induction 1 as [|x l Hl IH Hx]; simpl; [constructor|].
  destruct (p x); [|exact IH]. constructor; [exact IH|].
  apply List.Forall_forall. intros y Hy. apply filter_In in Hy as [Hy _].
  rewrite List.Forall_forall in Hx. auto.
Qed.

Lemma StronglySorted_map {A B : Type} (R : A -> A -> Prop) (S : B -> B -> Prop)
    (f : A -> B) (l : list A) :
  (forall x y, R x y -> S (f x) (f y)) ->
  StronglySorted R l -> StronglySorted S (map f l).
Proof.
  intros HRS. induction 1 as [|x l Hl IH Hx]; simpl; constructor; [exact IH|].
  apply List.Forall_forall. intros y Hy. apply in_map_iff in Hy as (z & <- & Hz).
  rewrite List.Forall_forall in Hx. auto.
Qed.

Lemma StronglySorted_omap {A B : Type} (R : A -> A -> Prop) (S : B -> B -> Prop)
    (f : A -> option B) (l : list A) :
  (forall x y x' y', R x y -> f x = Some x' -> f y = Some y' -> S x' y') ->
  StronglySorted R l -> StronglySorted S (omap f l).
Proof.
  intros HRS. induction 1 as [|x l Hl IH Hx]; simpl; [constructor|].
  destruct (f x) as [x'|] eqn:E; [|exact IH]. constructor; [exact IH|].
  apply List.Forall_forall. intros y' Hy. apply list_elem_of_In, list_elem_of_omap in Hy.
  destruct Hy as (y & Hy & Ey). apply list_elem_of_In in Hy.
  rewrite List.Forall_forall in Hx. eauto.
Qed.

(** The order of texts under BINARY collation is transitive. *)
Lemma ascii_compare_trans_lt (a b c : Ascii.ascii) :
  Ascii.compare a b = Lt -> Ascii.compare b c = Lt -> Ascii.compare a c = Lt.
Proof.
  unfold Ascii.compare. rewrite !N.compare_lt_iff. lia.
Qed.

Lemma ascii_compare_eq (a b : Ascii.ascii) : Ascii.compare a b = Eq -> a = b.
Proof.
  unfold Ascii.compare. rewrite N.compare_eq_iff. intros H.
  rewrite <- (Ascii.ascii_N_embedding a), <- (Ascii.ascii_N_embedding b), H. reflexivity.
Qed.

Lemma string_compare_trans_le (s1 : string) :
  forall s2 s3,
    String.compare s1 s2 <> Gt -> String.compare s2 s3 <> Gt -> String.compare s1 s3 <> Gt.
Proof.
  induction s1 as [|a s1 IH]; intros [|b s2] [|c s3]; simpl; try congruence.
  destruct (Ascii.compare a b) eqn:Eab.
  - apply ascii_compare_eq in Eab. subst b.
    destruct (Ascii.compare a c) eqn:Eac; try congruence. apply IH.
  - destruct (Ascii.compare b c) eqn:Ebc.
    + apply ascii_compare_eq in Ebc. subst c. rewrite Eab. congruence.
    + rewrite (ascii_compare_trans_lt a b c Eab Ebc). congruence.
    + congruence.
  - congruence.
Qed.

Lemma text_le_trans (a b c : string) :
  text_le a b = true -> text_le b c = true -> text_le a c = true.
Proof.
  unfold text_le, String.leb. intros Hab Hbc.
  pose proof (string_compare_trans_le a b c) as H.
  destruct (String.compare a b), (String.compare b c), (String.compare a c);
    try reflexivity; try discriminate; exfalso; apply H; congruence.
Qed.

Lemma text_le_total (a b : string) : text_le a b = false -> text_le b a = true.
Proof.
  intros H. destruct (String.leb_total a b) as [E|E]; [|exact E].
  unfold text_le in H. congruence.
Qed.

Lemma text_le_refl (a : string) : text_le a a = true.
Proof. destruct (String.leb_total a a); assumption. Qed.

Lemma text_eq_sym (a b : string) : text_eq a b = text_eq b a.
Proof. apply String.eqb_sym. Qed.

Lemma annotation_order_total (r1 r2 : annotation_row * trade_day_row) :
  annotation_order r1 r2 = false -> annotation_order r2 r1 = true.
Proof.
  unfold annotation_order. rewrite (text_eq_sym (td_session_date r2.2)).
  destruct (text_eq (td_session_date r1.2) (td_session_date r2.2)).
  - rewrite Z.leb_gt, Z.leb_le. lia.
  - apply text_le_total.
Qed.

Lemma annotation_order_trans (r1 r2 r3 : annotation_row * trade_day_row) :
  annotation_order r1 r2 = true -> annotation_order r2 r3 = true ->
  annotation_order r1 r3 = true.
Proof.
  unfold annotation_order.
  destruct (text_eq (td_session_date r1.2) (td_session_date r2.2)) eqn:E12;
    destruct (text_eq (td_session_date r2.2) (td_session_date r3.2)) eqn:E23.
  - apply text_eq_eq in E12, E23. rewrite E12, E23, text_eq_refl.
    rewrite !Z.leb_le. lia.
  - apply text_eq_eq in E12. rewrite E12, E23. auto.
  - apply text_eq_eq in E23. rewrite <- E23, E12. auto.
  - intros H12 H23.
    destruct (text_eq (td_session_date r1.2) (td_session_date r3.2)) eqn:E13.
    + apply text_eq_eq in E13. rewrite <- E13 in H23.
      pose proof (String.leb_antisym _ _ H12 H23) as Heq.
      apply text_eq_eq in Heq. congruence.
    + eapply text_le_trans; eassumption.
Qed.

(** X16. The bars [get_bars] returns are in the order of their
    timestamps. *)
Theorem get_bars_sorted (symbol : string)
    (session_date start_date end_date timeframe : option string)
    (include_halt : bool) (source : string) (db : database) :
  StronglySorted (fun v1 v2 => bv_timestamp v1 <= bv_timestamp v2)
    (get_bars symbol session_date start_date end_date timeframe include_halt source db).
Proof.
  unfold get_bars.
  eapply StronglySorted_omap; [|apply order_by_strongly_sorted].
  - intros [b1 j1] [b2 j2] v1 v2 Hle E1 E2. simpl in Hle. apply Z.leb_le in Hle.
    destruct j1, j2; try discriminate. injection E1 as <-. injection E2 as <-. exact Hle.
  - intros a b. rewrite Z.leb_gt, Z.leb_le. lia.
  - intros a b c. rewrite !Z.leb_le. lia.
Qed.



(** X17. Every annotation [get_day_annotations] returns passes the filters
    asked for: its session date lies in the range, its status is the one
    given unless that is "all", its type is the one given when one is, and it
    passes the tag filter. *)
Theorem get_day_annotations_filters (symbol start_date end_date : string)
    (tags : option (list string)) (status : string) (annotation_type : option string)
    (db : database) :
  Forall
    (fun v =>
       text_le start_date (av_session_date v) = true
       /\ text_le (av_session_date v) end_date = true
       /\ (status <> "all" -> av_status v = status)
       /\ (forall ty, given annotation_type = Some ty -> av_annotation_type v = ty)
       /\ passes_tag_filter tags (av_tags v) = true)
    (get_day_annotations symbol start_date end_date tags status annotation_type db).
Proof.
  apply List.Forall_forall. intros v Hv. unfold get_day_annotations in Hv.
  apply in_map_iff in Hv as ([a td] & <- & Hin).
  apply filter_In in Hin as [Hin Htags].
  apply In_order_by, filter_In in Hin as [_ Hwhere].
  unfold get_day_annotations_where in Hwhere. rewrite !andb_true_iff in Hwhere.
  destruct Hwhere as [[[[_ Hlo] Hhi] Hstatus] Hty]. simpl.
  split; [exact Hlo|]. split; [exact Hhi|]. split; [|split; [|exact Htags]].
  - intros Hne. apply String.eqb_neq in Hne. rewrite Hne in Hstatus.
    apply text_eq_eq. exact Hstatus.
  - intros ty Hg. rewrite Hg in Hty. apply text_eq_eq. exact Hty.
Qed.

(** X18. The annotations [get_day_annotations] returns are in the order of
    their session dates and, within a date, of their creation times. *)
Theorem get_day_annotations_sorted (symbol start_date end_date : string)
    (tags : option (list string)) (status : string) (annotation_type : option string)
    (db : database) :
  StronglySorted view_order
    (get_day_annotations symbol start_date end_date tags status annotation_type db).
Proof.
  unfold get_day_annotations.
  eapply StronglySorted_map; [|apply StronglySorted_filter, order_by_strongly_sorted].
  - intros [a1 t1] [a2 t2]. unfold annotation_order, view_order. simpl.
    destruct (text_eq (td_session_date t1) (td_session_date t2)) eqn:E.
    + apply text_eq_eq in E. rewrite Z.leb_le. auto.
    + intros H. right. split; [|exact H]. intros Heq. apply text_eq_eq in Heq. congruence.
  - apply annotation_order_total.
  - apply annotation_order_trans.
Qed.

(** ** The annotation ledger *)

Lemma supersede_id (old : Z) (a : annotation_row) : da_id (supersede old a) = da_id a.
Proof. unfold supersede. destruct (da_id a =? old); reflexivity. Qed.

Lemma map_supersede_ids (old : Z) (l : list annotation_row) :
  map da_id (map (supersede old) l) = map da_id l.
Proof.
  rewrite map_map. apply map_ext. intros a. apply supersede_id.
Qed.

Lemma map_supersede_absent (old : Z) (l : list annotation_row) :
  ~ In old (map da_id l) -> map (supersede old) l = l.
Proof.
  induction l as [|a l IH]; simpl; [reflexivity|]. intros H.
  rewrite IH by tauto. unfold supersede.
  replace (da_id a =? old) with false by (symmetry; apply Z.eqb_neq; tauto).
  reflexivity.
Qed.

(** The rows of the table after [save_day_annotation]. *)
Lemma save_day_annotation_rows (symbol session_date content annotation_type : string)
    (tags : option (list string)) (source : string) (supersedes_id : option Z)
    (now : Z) (db : database) :
  exists trade_day_id db',
    save_day_annotation symbol session_date content annotation_type tags source
      supersedes_id now db
    = (Ok (next_rowid (map da_id (day_annotations db))), db')
    /\ day_annotations db'
       = match truthy_id supersedes_id with
         | Some old =>
             map (supersede old)
               (day_annotations db ++
                [new_annotation db trade_day_id annotation_type content tags source
                   supersedes_id now])
         | None =>
             day_annotations db ++
             [new_annotation db trade_day_id annotation_type content tags source
                supersedes_id now]
         end
    /\ bars db' = bars db
    /\ (exists td, In td (trade_days db') /\ td_id td = trade_day_id
                   /\ session_key td = (symbol, session_date, "tradingview")).
Proof.
  destruct (save_day_annotation_effect symbol session_date content annotation_type
              tags source supersedes_id now db) as (tid & db1 & Hg & Hsave).
  destruct (get_or_create_trade_day_effect symbol session_date "tradingview" db)
    as (tid' & db1' & Hg' & _ & _ & _ & _ & _ & Htd & _).
  rewrite Hg in Hg'. injection Hg' as <- <-.
  exists tid. eexists. split; [exact Hsave|]. cbn [day_annotations bars trade_days].
  split; [|split; [reflexivity | exact Htd]].
  destruct (truthy_id supersedes_id); reflexivity.
Qed.

(** X19. [save_day_annotation] returns an id that no stored annotation
    has; the table has one more row, the last, under that id, the rows before
    it keep their ids in their places, and unique ids stay unique. *)
Theorem save_day_annotation_fresh_id (symbol session_date content annotation_type : string)
    (tags : option (list string)) (source : string) (supersedes_id : option Z)
    (now : Z) (db : database) :
  exists id db',
    save_day_annotation symbol session_date content annotation_type tags source
      supersedes_id now db = (Ok id, db')
    /\ Forall (fun a => da_id a <> id) (day_annotations db)
    /\ map da_id (day_annotations db') = map da_id (day_annotations db) ++ [id]
    /\ (unique_annotation_ids db -> unique_annotation_ids db').
Proof.
  destruct (save_day_annotation_rows symbol session_date content annotation_type
              tags source supersedes_id now db) as (tid & db' & Hsave & Hrows & _).
  exists (next_rowid (map da_id (day_annotations db))), db'.
  split; [exact Hsave|].
  split.
  { apply List.Forall_forall. intros a Ha Heq.
    apply (next_rowid_fresh (map da_id (day_annotations db))).
    rewrite <- Heq. apply in_map. exact Ha. }
  assert (Hids : map da_id (day_annotations db')
                 = map da_id (day_annotations db) ++ [next_rowid (map da_id (day_annotations db))]).
  { rewrite Hrows. destruct (truthy_id supersedes_id);
      rewrite ?map_supersede_ids, map_app; reflexivity. }
  split; [exact Hids|].
  unfold unique_annotation_ids. rewrite Hids. intros Hu.
  apply NoDup_app. split; [exact Hu|]. split; [|apply NoDup_singleton].
  intros k Hk Hk'. apply list_elem_of_In in Hk, Hk'. destruct Hk' as [<-|[]].
  exact (next_rowid_fresh _ Hk).
Qed.

(** X21. A reference to an annotation that is not stored is no error and
    changes nothing: the stored rows stay as they are and the new row is
    appended, active.  (The connection never switches the enforcement of
    foreign keys on, so the FOREIGN KEY clause of the schema rejects
    nothing.) *)
Theorem save_day_annotation_dangling_reference
    (symbol session_date content annotation_type : string)
    (tags : option (list string)) (source : string) (old : Z)
    (now : Z) (db : database) :
  ~ In old (map da_id (day_annotations db)) ->
  old <> next_rowid (map da_id (day_annotations db)) ->
  exists id db' trade_day_id,
    save_day_annotation symbol session_date content annotation_type tags source
      (Some old) now db = (Ok id, db')
    /\ day_annotations db'
       = day_annotations db ++
         [new_annotation db trade_day_id annotation_type content tags source
            (Some old) now].
Proof.
  intros Habsent Hnew.
  destruct (save_day_annotation_rows symbol session_date content annotation_type
              tags source (Some old) now db) as (tid & db' & Hsave & Hrows & _).
  do 2 eexists. exists tid. split; [exact Hsave|]. rewrite Hrows.
  destruct (truthy_id (Some old)) as [o|] eqn:Ht; [|reflexivity].
  assert (o = old).
  { unfold truthy_id in Ht. destruct (old =? 0); congruence. }
  subst o. apply map_supersede_absent.
  rewrite map_app. simpl. intros Hin. apply in_app_or in Hin as [Hin|[Hin|[]]]; auto.
Qed.

(** X22. A reference to the id the new row gets: the UPDATE that follows
    the INSERT hits the new row, which is stored superseded. *)
Theorem save_day_annotation_self_reference
    (symbol session_date content annotation_type : string)
    (tags : option (list string)) (source : string) (now : Z) (db : database) :
  exists id db' trade_day_id,
    save_day_annotation symbol session_date content annotation_type tags source
      (Some (next_rowid (map da_id (day_annotations db)))) now db = (Ok id, db')
    /\ id = next_rowid (map da_id (day_annotations db))
    /\ last (day_annotations db')
       = Some (set_superseded
                 (new_annotation db trade_day_id annotation_type content tags source
                    (Some id) now))
    /\ Forall (fun a => da_id a = id -> da_status a = "superseded") (day_annotations db').
Proof.
  set (id := next_rowid (map da_id (day_annotations db))).
  destruct (save_day_annotation_rows symbol session_date content annotation_type
              tags source (Some id) now db) as (tid & db' & Hsave & Hrows & _).
  exists id, db', tid. split; [exact Hsave|]. split; [reflexivity|].
  assert (Ht : truthy_id (Some id) = Some id).
  { unfold truthy_id. replace (id =? 0) with false; [reflexivity|].
    symmetry. apply Z.eqb_neq. pose proof (next_rowid_positive (map da_id (day_annotations db))).
    unfold id. lia. }
  rewrite Ht in Hrows. rewrite Hrows. split.
  - rewrite map_app. simpl. rewrite last_snoc. f_equal. unfold supersede.
    unfold new_annotation at 1. cbn [da_id]. fold id. rewrite Z.eqb_refl. reflexivity.
  - apply List.Forall_forall. intros a Ha Hid.
    apply in_map_iff in Ha as (a0 & <- & _). rewrite supersede_id in Hid.
    unfold supersede. apply Z.eqb_eq in Hid. rewrite Hid. reflexivity.
Qed.

Lemma superseded_rows_kept (old : Z) (l : list annotation_row) :
  Forall2 (fun a a' =>
             same_but_status a a' /\ (Some old <> Some (da_id a) -> a' = a))
    l (map (supersede old) l).
Proof.
  induction l as [|a l IH]; simpl; constructor; [|exact IH].
  unfold supersede. destruct (da_id a =? old) eqn:E.
  - split; [unfold same_but_status; simpl; auto 10|].
    intros Hne. apply Z.eqb_eq in E. congruence.
  - split; [unfold same_but_status; auto 10 | reflexivity].
Qed.

Lemma untouched_rows_kept (supersedes_id : option Z) (l : list annotation_row) :
  Forall2 (fun a a' =>
             same_but_status a a' /\ (supersedes_id <> Some (da_id a) -> a' = a))
    l l.
Proof.
  induction l as [|a l IH]; constructor; [|exact IH].
  split; [unfold same_but_status; auto 10 | reflexivity].
Qed.

(** X20. The ledger is append-only: [save_day_annotation] keeps every stored
    annotation in its place with all it holds; only the status may change,
    to superseded, and only for the id named by [supersedes_id]; the bars
    are not touched. *)
Theorem save_day_annotation_append_only
    (symbol session_date content annotation_type : string)
    (tags : option (list string)) (source : string) (supersedes_id : option Z)
    (now : Z) (db : database) :
  exists id db',
    save_day_annotation symbol session_date content annotation_type tags source
      supersedes_id now db = (Ok id, db')
    /\ Forall2 (fun a a' =>
                  same_but_status a a'
                  /\ (supersedes_id <> Some (da_id a) -> a' = a))
         (day_annotations db) (take (length (day_annotations db)) (day_annotations db'))
    /\ bars db' = bars db.
Proof.
  destruct (save_day_annotation_rows symbol session_date content annotation_type
              tags source supersedes_id now db) as (tid & db' & Hsave & Hrows & Hbars & _).
  do 2 eexists. split; [exact Hsave|]. split; [|exact Hbars]. rewrite Hrows.
  destruct (truthy_id supersedes_id) as [old|] eqn:Ht.
  - rewrite map_app, take_app_length'; [|rewrite length_map; reflexivity].
    assert (Hold : supersedes_id = Some old).
    { unfold truthy_id in Ht. destruct supersedes_id as [k|]; [|discriminate].
      destruct (k =? 0); congruence. }
    rewrite Hold. apply superseded_rows_kept.
  - rewrite take_app_length. apply untouched_rows_kept.
Qed.

(** X23. A saved annotation is returned by the query for the active
    annotations of its symbol over every range that holds its date, unless it
    names itself as superseded. *)
Theorem get_day_annotations_after_save
    (symbol start_date end_date session_date content annotation_type : string)
    (tags : option (list string)) (source : string) (supersedes_id : option Z)
    (now : Z) (db : database) :
  supersedes_id <> Some (next_rowid (map da_id (day_annotations db))) ->
  text_le start_date session_date = true ->
  text_le session_date end_date = true ->
  exists id db',
    save_day_annotation symbol session_date content annotation_type tags source
      supersedes_id now db = (Ok id, db')
    /\ In {| av_id := id;
             av_session_date := session_date;
             av_annotation_type := annotation_type;
             av_content := content;
             av_tags := match tags with Some (t :: ts) => t :: ts | _ => [] end;
             av_source := source;
             av_created_at := now;
             av_supersedes_id := supersedes_id;
             av_status := "active" |}
         (get_day_annotations symbol start_date end_date None "active" None db').
Proof.
  intros Hself Hlo Hhi.
  destruct (save_day_annotation_rows symbol session_date content annotation_type
              tags source supersedes_id now db)
    as (tid & db' & Hsave & Hrows & _ & (td & Htd & Hid & Hkey)).
  do 2 eexists. split; [exact Hsave|].
  set (new_row := new_annotation db tid annotation_type content tags source
                    supersedes_id now) in *.
  assert (Hin : In new_row (day_annotations db')).
  { rewrite Hrows. destruct (truthy_id supersedes_id) as [old|] eqn:Ht.
    - assert (Hold : supersedes_id = Some old).
      { unfold truthy_id in Ht. destruct supersedes_id as [k|]; [|discriminate].
        destruct (k =? 0); congruence. }
      apply in_map_iff. exists new_row. split.
      + unfold supersede. replace (da_id new_row =? old) with false; [reflexivity|].
        symmetry. apply Z.eqb_neq. intros E. apply Hself. rewrite Hold. f_equal.
        rewrite <- E. reflexivity.
      + apply in_or_app. right. left. reflexivity.
    - apply in_or_app. right. left. reflexivity. }
  unfold get_day_annotations. apply in_map_iff. exists (new_row, td).
  injection Hkey as Hsym Hdate _.
  split; [simpl; rewrite Hdate; reflexivity|].
  apply filter_In. split; [|reflexivity].
  apply In_order_by, filter_In. split.
  - unfold annotations_join. apply in_flat_map. exists new_row. split; [exact Hin|].
    apply in_map. apply filter_In. split; [exact Htd|]. simpl. rewrite Hid. apply Z.eqb_refl.
  - unfold get_day_annotations_where. simpl.
    rewrite Hsym, Hdate, text_eq_refl, Hlo, Hhi. reflexivity.
Qed.

(** ** Operations side by side *)

Lemma filter_nothing {A : Type} (l : list A) : List.filter (fun _ => false) l = [].
Proof. induction l; simpl; auto. Qed.

Lemma annotations_join_more_sessions (db db' : database) :
  trade_days db `prefix_of` trade_days db' ->
  day_annotations db' = day_annotations db ->
  unique_session_ids db' ->
  annotations_reference_sessions db ->
  annotations_join db' = annotations_join db.
Proof.
  intros [k Hk] Ha Hu Hfk. unfold annotations_join. rewrite Ha.
  apply flat_map_same_on. intros a Hin. f_equal. rewrite Hk.
  apply joined_sessions_stable.
  - unfold unique_session_ids in Hu. rewrite Hk in Hu. exact Hu.
  - unfold annotations_reference_sessions in Hfk. rewrite List.Forall_forall in Hfk. auto.
Qed.

Section RowFacts.

Context `{RT : runtime}.

(** X24. Ingestion does not change what the annotation queries return, in a
    database with unique session ids whose annotations refer to stored
    sessions. *)
Theorem get_day_annotations_after_ingest_csv (file_path : string) (rows : list csv_row)
    (symbol timeframe source : string) (db : database)
    (sym start_date end_date : string) (tags : option (list string)) (status : string)
    (annotation_type : option string) :
  unique_session_ids db ->
  annotations_reference_sessions db ->
  get_day_annotations sym start_date end_date tags status annotation_type
    (ingest_csv file_path rows symbol timeframe source db).2
  = get_day_annotations sym start_date end_date tags status annotation_type db.
Proof.
  intros Hu Hfk.
  destruct (ingest_csv_grows file_path rows symbol timeframe source db)
    as ((Hp & _ & Hids) & _ & Ha & _).
  unfold get_day_annotations.
  rewrite (annotations_join_more_sessions db _ Hp Ha (Hids Hu) Hfk). reflexivity.
Qed.

End RowFacts.

(** X25. Saving an annotation does not change what [get_bars] returns, in a
    database with unique session ids whose bars refer to stored sessions. *)
Theorem get_bars_after_save_day_annotation
    (symbol session_date content annotation_type : string)
    (tags : option (list string)) (source : string) (supersedes_id : option Z)
    (now : Z) (db : database)
    (sym : string) (date start_date end_date timeframe : option string)
    (include_halt : bool) (src : string) :
  unique_session_ids db ->
  Forall (fun b => forall t, bar_trade_day_id b = Some t -> In t (map td_id (trade_days db)))
    (bars db) ->
  get_bars sym date start_date end_date timeframe include_halt src
    (save_day_annotation symbol session_date content annotation_type tags source
       supersedes_id now db).2
  = get_bars sym date start_date end_date timeframe include_halt src db.
Proof.
  intros Hu Hfk.
  destruct (save_day_annotation_effect symbol session_date content annotation_type
              tags source supersedes_id now db) as (tid & db1 & Hg & ->).
  destruct (get_or_create_trade_day_effect symbol session_date "tradingview" db)
    as (tid' & db1' & Hg' & [k Hk] & _ & _ & _ & Hids & _).
  rewrite Hg in Hg'. injection Hg' as <- <-. specialize (Hids Hu).
  unfold get_bars, bars_left_join. cbn [snd bars trade_days].
  do 3 f_equal. apply flat_map_same_on. intros b Hb.
  rewrite List.Forall_forall in Hfk. specialize (Hfk b Hb).
  rewrite Hk, List.filter_app.
  rewrite (filter_same_on _ (fun _ => false) k).
  - rewrite filter_nothing, app_nil_r. reflexivity.
  - intros td Htd. destruct (bar_trade_day_id b) as [t|]; [|reflexivity].
    apply Z.eqb_neq. intros E.
    unfold unique_session_ids in Hids. rewrite Hk, map_app in Hids.
    apply NoDup_app in Hids as (_ & Hdisj & _). apply (Hdisj t).
    + apply list_elem_of_In. apply Hfk. reflexivity.
    + apply list_elem_of_In. rewrite E. apply in_map. exact Htd.
Qed.

(** ** Schema constraints *)

(** X26. The constraints of the schema (the primary keys of sessions and
    bars, the unique session key, the session reference of the annotations)
    hold after an ingestion and after the saving of an annotation, whether
    they go through or not, if they held before. *)
Theorem archive_keeps_constraints `{RT : runtime} (db : database) :
  consistent db ->
  (forall file_path rows symbol timeframe source,
      consistent (ingest_csv file_path rows symbol timeframe source db).2)
  /\ (forall symbol session_date content annotation_type tags source supersedes_id now,
         consistent (save_day_annotation symbol session_date content annotation_type
                       tags source supersedes_id now db).2).
Proof.
  intros Hdb. split.
  - intros. now apply ingest_csv_consistent.
  - intros. now apply save_day_annotation_consistent.
Qed.


(** * The further properties on the sample data *)

(** ** Schema constraints *)

(** The empty database, a file with a session bar and a halt bar, and a
    first annotation. *)
Lemma archive_keeps_constraints_witness :
  consistent Sample.halt_db
  /\ consistent
       (save_day_annotation "MNQ" "2024-01-08" "Test observation" "observation"
          (Some ["test"; "breakout"]) "manual" None 1704750000 empty_database).2.
Proof.
  pose proof (archive_keeps_constraints (RT := Demo.demo_runtime) empty_database
                empty_database_consistent) as [Hingest Hsave].
  split.
  - exact (Hingest "bars.csv" [Sample.monday_bar; Sample.halt_bar] "MNQ" "1m" "tradingview").
  - apply Hsave.
Defined.

(** ** Resolver and timestamps *)

(** Friday 2024-01-12, 16:00 in Pacific Time. *)
Lemma resolve_trade_day_friday_evening_witness :
  resolve_trade_day (RT := Demo.demo_runtime) 1705104000
  = Ok (Some (strftime_Ymd (RT := Demo.demo_runtime)
                (dt_date (reading 1705104000 (-28800)) + 1)))
  /\ Calendar.weekday (dt_date (reading 1705104000 (-28800)) + 1) = 5.
Proof.
  apply (resolve_trade_day_friday_evening (RT := Demo.demo_runtime) 1705104000
           (reading 1705104000 (-28800))).
  - vm_compute. reflexivity.
  - vm_compute. reflexivity.
  - vm_compute. discriminate.
  - vm_compute. reflexivity.
Defined.

Example resolve_trade_day_friday_evening_date :
  resolve_trade_day (RT := Demo.demo_runtime) 1705104000 = Ok (Some "2024-01-13").
Proof. vm_compute. reflexivity. Qed.

(** The first text of [test_timestamp_parsing], a wall clock reading with no
    zone. *)
Lemma parse_tradingview_timestamp_round_trip_witness :
  exists timestamp dt,
    parse_tradingview_timestamp (RT := Demo.demo_runtime) "2024-01-08 13:30:00"
    = Ok timestamp
    /\ get_pt_datetime (RT := Demo.demo_runtime) timestamp = Ok dt
    /\ dt_date dt = 1704720600 / 86400
    /\ dt_hour dt = (1704720600 mod 86400) / 3600
    /\ dt_minute dt = ((1704720600 mod 86400) mod 3600) / 60
    /\ dt_second dt = (1704720600 mod 86400) mod 60.
Proof.
  apply (parse_tradingview_timestamp_round_trip (RT := Demo.demo_runtime)
           "2024-01-08 13:30:00"
           {| pd_wall := 1704720600; pd_micro := 0; pd_tzoffset := None |}).
  - vm_compute. reflexivity.
  - vm_compute. reflexivity.
  - reflexivity.
  - vm_compute. reflexivity.
  - vm_compute. reflexivity.
  - vm_compute. reflexivity.
Defined.

(** The last hours of the year 9999 on the wall clock of the zone are
    instants of the year 10000, which [fromtimestamp] refuses: the text
    parses and its timestamp does not read back. *)
Example parse_tradingview_timestamp_last_hours :
  parse_tradingview_timestamp (RT := Demo.demo_runtime) "9999-12-31 23:00:00"
  = Ok 253402326000
  /\ get_pt_datetime (RT := Demo.demo_runtime) 253402326000
     = Raise (ValueError "year 10000 is out of range").
Proof. split; vm_compute; reflexivity. Qed.

(** A text with the offset of UTC, which is not the offset of the zone, and
    the ISO text of [test_timestamp_parsing], which carries the offset of
    the zone. *)
Lemma parse_tradingview_timestamp_iso_round_trip_witness :
  parse_tradingview_timestamp (RT := Demo.demo_runtime) "2024-01-08T21:30:00+00:00"
  = Ok (1704749400 - 0)
  /\ parse_tradingview_timestamp (RT := Demo.demo_runtime) "2026-02-06T03:16:00-08:00"
     = Ok (1770347760 - -28800)
  /\ dt_date (reading (1770347760 - -28800) (-28800)) = 1770347760 / 86400
  /\ dt_hour (reading (1770347760 - -28800) (-28800)) = (1770347760 mod 86400) / 3600
  /\ dt_minute (reading (1770347760 - -28800) (-28800))
     = ((1770347760 mod 86400) mod 3600) / 60
  /\ dt_second (reading (1770347760 - -28800) (-28800)) = (1770347760 mod 86400) mod 60.
Proof.
  split.
  - refine (proj1 (proj1 (parse_tradingview_timestamp_iso_round_trip
                            (RT := Demo.demo_runtime) "2024-01-08T21:30:00+00:00"
                            {| pd_wall := 1704749400; pd_micro := 0; pd_tzoffset := Some 0 |}
                            0 _ _ _ _)
                         (reading (1704749400 - 0) (-28800)) _)).
    + vm_compute. reflexivity.
    + vm_compute. reflexivity.
    + reflexivity.
    + reflexivity.
    + vm_compute. reflexivity.
  - refine ((fun H => conj (proj1 H) (proj2 H _))
              (proj1 (parse_tradingview_timestamp_iso_round_trip
                        (RT := Demo.demo_runtime) "2026-02-06T03:16:00-08:00"
                        {| pd_wall := 1770347760; pd_micro := 0;
                           pd_tzoffset := Some (-28800 * 1000000) |}
                        (-28800) _ _ _ _)
                     (reading (1770347760 - -28800) (-28800)) _)).
    + vm_compute. reflexivity.
    + vm_compute. reflexivity.
    + vm_compute. reflexivity.
    + reflexivity.
    + reflexivity.
    + vm_compute. reflexivity.
Defined.

(** Past the last year the ISO text does not parse: [astimezone] cannot take
    the offset off. *)
Example parse_iso_past_the_last_year :
  parse_tradingview_timestamp (RT := Demo.demo_runtime) "9999-12-31T23:00:00-08:00"
  = Raise (OverflowError "date value out of range").
Proof. vm_compute. reflexivity. Qed.

(** ** Session directory *)

(** Two symbols on one date, into the empty database: ids 1 and 2. *)
Lemma get_or_create_trade_day_distinct_keys_witness :
  (get_or_create_trade_day "MNQ" "2024-01-08" "tradingview" empty_database).1 = Ok 1
  /\ (get_or_create_trade_day "ES" "2024-01-08" "tradingview"
        (get_or_create_trade_day "MNQ" "2024-01-08" "tradingview" empty_database).2).1
     = Ok 2
  /\ (1 =? 2) = false.
Proof.
  split; [reflexivity|]. split; [reflexivity|].
  apply Z.eqb_neq.
  refine (get_or_create_trade_day_distinct_keys
            "MNQ" "2024-01-08" "tradingview" "ES" "2024-01-08" "tradingview"
            empty_database _ _ 1 2 _ _ _ _).
  - constructor.
  - vm_compute. reflexivity.
  - vm_compute. reflexivity.
  - discriminate.
Defined.

(** ** Ingestion *)

(** A record, the same record again, and the record with another close. *)
Lemma ingest_csv_report_accounts_witness :
  exists stats db',
    Sample.ingest [Sample.monday_bar; Sample.monday_bar; Sample.monday_bar_revised]
      empty_database = (Ok stats, db')
    /\ inserted stats + skipped stats + conflicts stats = 3
    /\ conflicts stats = Z.of_nat (length (conflict_details stats))
    /\ Z.of_nat (length (bars db')) = 0 + inserted stats
    /\ Forall (fun d => cd_reason d = "OHLCV mismatch" /\ cd_file d = "bars.csv")
         (conflict_details stats).
Proof.
  eexists. eexists.
  refine ((fun H => conj H
             (ingest_csv_report_accounts (RT := Demo.demo_runtime) "bars.csv"
                [Sample.monday_bar; Sample.monday_bar; Sample.monday_bar_revised]
                "MNQ" "1m" "tradingview" empty_database _ _ H)) _).
  vm_compute. reflexivity.
Defined.

(** A session bar, a halt bar and the session bar again, into the empty
    database. *)
Lemma ingest_csv_unique_bar_keys_witness :
  unique_bar_keys
    (Sample.ingest [Sample.monday_bar; Sample.halt_bar; Sample.monday_bar]
       empty_database).2
  /\ halt_bars_unassigned
       (Sample.ingest [Sample.monday_bar; Sample.halt_bar; Sample.monday_bar]
          empty_database).2.
Proof.
  apply (ingest_csv_unique_bar_keys (RT := Demo.demo_runtime) "bars.csv"
           [Sample.monday_bar; Sample.halt_bar; Sample.monday_bar]
           "MNQ" "1m" "tradingview" empty_database).
  - constructor.
  - constructor.
Defined.

Lemma ingest_csv_files_bars_by_resolver_witness :
  bars_filed (RT := Demo.demo_runtime)
    (Sample.ingest [Sample.monday_bar; Sample.halt_bar] empty_database).2
  /\ Forall (fun b => is_saturday (RT := Demo.demo_runtime) (bar_timestamp b) = Ok false)
       (bars (Sample.ingest [Sample.monday_bar; Sample.halt_bar] empty_database).2).
Proof.
  apply (ingest_csv_files_bars_by_resolver (RT := Demo.demo_runtime) "bars.csv"
           [Sample.monday_bar; Sample.halt_bar] "MNQ" "1m" "tradingview" empty_database).
  constructor.
Defined.

(** The halt bar stored for MNQ, ingested for another symbol and another
    source: no bar is added. *)
Lemma ingest_row_halt_bar_shared_witness :
  exists stats',
    ingest_row (RT := Demo.demo_runtime) "other.csv" "ES" "broker" Sample.halt_bar
      empty_stats Sample.halt_db
    = (Ok stats', Sample.halt_db)
    /\ inserted stats' = inserted empty_stats
    /\ skipped stats' + conflicts stats' = skipped empty_stats + conflicts empty_stats + 1.
Proof.
  refine (ingest_row_halt_bar_shared (RT := Demo.demo_runtime) "other.csv" "ES" "broker"
            Sample.halt_bar empty_stats Sample.halt_db
            {| pr_timestamp := 1704753000;
               pr_prices := mk_prices 101%float 101%float 101%float 101%float 0%float;
               pr_session_date := None |}
            Sample.stored_halt_bar
            (mk_prices 101%float 101%float 101%float 101%float 0%float) _ _ _ _).
  - vm_compute. reflexivity.
  - reflexivity.
  - vm_compute. reflexivity.
  - vm_compute. reflexivity.
Defined.

(** ** Queries after an ingestion *)

Lemma get_trade_day_after_ingest_csv_witness :
  exists td,
    get_trade_day "MNQ" "2024-01-08" "tradingview" Sample.halt_db = Some td
    /\ td_symbol td = "MNQ" /\ td_session_date td = "2024-01-08"
    /\ td_source td = "tradingview".
Proof.
  refine (get_trade_day_after_ingest_csv (RT := Demo.demo_runtime) "bars.csv"
            [Sample.monday_bar; Sample.halt_bar] "MNQ" "1m" "tradingview"
            empty_database Sample.halt_db _ Sample.monday_bar
            {| pr_timestamp := 1704749400;
               pr_prices := Sample.monday_prices;
               pr_session_date := Some "2024-01-08" |}
            "2024-01-08" _ _ _ _).
  - vm_compute. reflexivity.
  - left. reflexivity.
  - vm_compute. reflexivity.
  - reflexivity.
Defined.

Lemma get_bars_after_ingest_csv_witness :
  exists v,
    In v (get_bars "MNQ" (Some "2024-01-08") None None None false "tradingview"
            Sample.halt_db)
    /\ bv_timestamp v = 1704749400
    /\ bv_session_date v = "2024-01-08"
    /\ bv_halt_period v = false.
Proof.
  refine (get_bars_after_ingest_csv (RT := Demo.demo_runtime) "bars.csv"
            [Sample.monday_bar; Sample.halt_bar] "MNQ" "1m" "tradingview"
            empty_database Sample.halt_db _ Sample.monday_bar
            {| pr_timestamp := 1704749400;
               pr_prices := Sample.monday_prices;
               pr_session_date := Some "2024-01-08" |}
            "2024-01-08" false _ _ _ _ _).
  - constructor.
  - vm_compute. reflexivity.
  - left. reflexivity.
  - vm_compute. reflexivity.
  - reflexivity.
Defined.

(** ** The annotation ledger *)

(** A correction that names an annotation that was never stored. *)
Lemma save_day_annotation_dangling_reference_witness :
  exists id db' trade_day_id,
    save_day_annotation "MNQ" "2024-01-08" "Corrected" "observation" None "manual"
      (Some 42) 1704760000 Sample.annotated_db = (Ok id, db')
    /\ day_annotations db'
       = day_annotations Sample.annotated_db ++
         [new_annotation Sample.annotated_db trade_day_id "observation" "Corrected"
            None "manual" (Some 42) 1704760000].
Proof.
  apply (save_day_annotation_dangling_reference "MNQ" "2024-01-08" "Corrected"
           "observation" None "manual" 42 1704760000 Sample.annotated_db).
  - vm_compute. intros [H | []]. discriminate H.
  - vm_compute. discriminate.
Defined.

(** The first annotation of [test_annotations], asked for over the month. *)
Lemma get_day_annotations_after_save_witness :
  exists id db',
    save_day_annotation "MNQ" "2024-01-08" "Test observation" "observation"
      (Some ["test"; "breakout"]) "manual" None 1704750000 Sample.one_bar_db
    = (Ok id, db')
    /\ In {| av_id := id;
             av_session_date := "2024-01-08";
             av_annotation_type := "observation";
             av_content := "Test observation";
             av_tags := ["test"; "breakout"];
             av_source := "manual";
             av_created_at := 1704750000;
             av_supersedes_id := None;
             av_status := "active" |}
         (get_day_annotations "MNQ" "2024-01-01" "2024-01-31" None "active" None db').
Proof.
  apply (get_day_annotations_after_save "MNQ" "2024-01-01" "2024-01-31" "2024-01-08"
           "Test observation" "observation" (Some ["test"; "breakout"]) "manual" None
           1704750000 Sample.one_bar_db).
  - discriminate.
  - vm_compute. reflexivity.
  - vm_compute. reflexivity.
Defined.

(** ** Operations side by side *)

Lemma get_day_annotations_after_ingest_csv_witness :
  get_day_annotations "MNQ" "2024-01-01" "2024-01-31" None "active" None
    (Sample.ingest [Sample.monday_next_bar; Sample.halt_bar] Sample.annotated_db).2
  = get_day_annotations "MNQ" "2024-01-01" "2024-01-31" None "active" None
      Sample.annotated_db.
Proof.
  apply (get_day_annotations_after_ingest_csv (RT := Demo.demo_runtime) "bars.csv"
           [Sample.monday_next_bar; Sample.halt_bar] "MNQ" "1m" "tradingview"
           Sample.annotated_db "MNQ" "2024-01-01" "2024-01-31" None "active" None).
  - compute_done.
  - vm_compute. repeat constructor.
Defined.

Lemma get_bars_after_save_day_annotation_witness :
  get_bars "MNQ" (Some "2024-01-08") None None None false "tradingview"
    (save_day_annotation "MNQ" "2024-01-09" "Next day" "observation" None "manual"
       None 1704850000 Sample.one_bar_db).2
  = get_bars "MNQ" (Some "2024-01-08") None None None false "tradingview"
      Sample.one_bar_db.
Proof.
  apply (get_bars_after_save_day_annotation "MNQ" "2024-01-09" "Next day" "observation"
           None "manual" None 1704850000 Sample.one_bar_db
           "MNQ" (Some "2024-01-08") None None None false "tradingview").
  - compute_done.
  - apply List.Forall_forall. intros b Hb t Ht.
    vm_compute in Hb. destruct Hb as [<- | []].
    vm_compute in Ht. injection Ht as <-.
    vm_compute. left. reflexivity.
Defined.
